(** * Regex-based extraction of DSI yearbook station records

    A shallow embedding of the station-record extraction scripts
    ([catchment_data_km2.py], [table_arranger.py], [new_pdf_reader_2020.py],
    [dsi_final_structured_extractor.py], [pdf_flow_extractor.py]) together
    with the fragments of the Python runtime they rely on: [str] as a
    sequence of code points, the [re] module as a backtracking matcher,
    [float] as a decimal parser, [print]/[logging]/file writes as a trace
    of events. *)

From Stdlib Require Import NArith ZArith List String Ascii Bool Lia Permutation.
From stdpp Require Import gmap strings.
Import ListNotations.

Local Open Scope N_scope.

(** ** Python strings *)

Module Py.

(** A [str] is a sequence of Unicode code points. *)
Abbreviation char := N.
Abbreviation str := (list N).

(** Literals are written as UTF-8 byte strings and decoded once. *)
Fixpoint utf8 (bs : list N) : str :=
  match bs with
  | [] => []
  | b :: r =>
      if b <? 128 then b :: utf8 r
      else if b <? 224 then
        match r with
        | c1 :: r1 => ((b - 192) * 64 + (c1 - 128)) :: utf8 r1
        | _ => []
        end
      else if b <? 240 then
        match r with
        | c1 :: c2 :: r2 =>
            ((b - 224) * 4096 + (c1 - 128) * 64 + (c2 - 128)) :: utf8 r2
        | _ => []
        end
      else
        match r with
        | c1 :: c2 :: c3 :: r3 =>
            ((b - 240) * 262144 + (c1 - 128) * 4096 + (c2 - 128) * 64
             + (c3 - 128)) :: utf8 r3
        | _ => []
        end
  end.

Definition u (lit : string) : str :=
  utf8 (map N_of_ascii (list_ascii_of_string lit)).

Definition eqb (a b : str) : bool := bool_decide (a = b).

(** *** Character classes (Unicode 14.0, as in CPython 3.11) *)

Definition in_ranges (t : list (N * N)) (c : char) : bool :=
  existsb (fun r => (fst r <=? c) && (c <=? snd r)) t.

(** [str.isspace], which is also the regex class [\s] and what [strip] and
    [split] remove. *)
Definition space_ranges : list (N * N) :=
  [(9, 13); (28, 32); (133, 133); (160, 160); (5760, 5760); (8192, 8202);
   (8232, 8233); (8239, 8239); (8287, 8287); (12288, 12288)].

Definition isspace (c : char) : bool := in_ranges space_ranges c.

(** General category Nd: the regex class [\d], and the digits [float] and
    [int] accept.  Every range starts at a digit zero. *)
Definition decimal_ranges : list (N * N) := [
  (48, 57); (1632, 1641); (1776, 1785); (1984, 1993); (2406, 2415); (2534, 2543);
  (2662, 2671); (2790, 2799); (2918, 2927); (3046, 3055); (3174, 3183); (3302, 3311);
  (3430, 3439); (3558, 3567); (3664, 3673); (3792, 3801); (3872, 3881); (4160, 4169);
  (4240, 4249); (6112, 6121); (6160, 6169); (6470, 6479); (6608, 6617); (6784, 6793);
  (6800, 6809); (6992, 7001); (7088, 7097); (7232, 7241); (7248, 7257); (42528, 42537);
  (43216, 43225); (43264, 43273); (43472, 43481); (43504, 43513); (43600, 43609); (44016, 44025);
  (65296, 65305); (66720, 66729); (68912, 68921); (69734, 69743); (69872, 69881); (69942, 69951);
  (70096, 70105); (70384, 70393); (70736, 70745); (70864, 70873); (71248, 71257); (71360, 71369);
  (71472, 71481); (71904, 71913); (72016, 72025); (72784, 72793); (73040, 73049); (73120, 73129);
  (92768, 92777); (92864, 92873); (93008, 93017); (120782, 120831); (123200, 123209); (123632, 123641);
  (125264, 125273); (130032, 130041)]%N.

Definition isdecimal (c : char) : bool := in_ranges decimal_ranges c.

Definition digit_value (c : char) : N :=
  match find (fun r => (fst r <=? c) && (c <=? snd r)) decimal_ranges with
  | Some r => (c - fst r) mod 10
  | None => 0
  end.

(** Simple case mappings: [(first, last, stride, offset)]. *)
Definition map_ranges (t : list (N * N * N * Z)) (c : char) : char :=
  match
    find (fun e => let '(a, b, s, _) := e in
                   (a <=? c) && (c <=? b) && ((c - a) mod s =? 0)) t
  with
  | Some (_, _, _, d) => Z.to_N (Z.of_N c + d)
  | None => c
  end.

Definition tolower_table : list (N * N * N * Z) := [
  (65, 90, 1, (32)%Z); (192, 214, 1, (32)%Z); (216, 222, 1, (32)%Z); (256, 302, 2, (1)%Z);
  (304, 304, 1, (-199)%Z); (306, 310, 2, (1)%Z); (313, 327, 2, (1)%Z); (330, 374, 2, (1)%Z);
  (376, 376, 1, (-121)%Z); (377, 381, 2, (1)%Z); (385, 385, 1, (210)%Z); (386, 388, 2, (1)%Z);
  (390, 390, 1, (206)%Z); (391, 391, 1, (1)%Z); (393, 394, 1, (205)%Z); (395, 395, 1, (1)%Z);
  (398, 398, 1, (79)%Z); (399, 399, 1, (202)%Z); (400, 400, 1, (203)%Z); (401, 401, 1, (1)%Z);
  (403, 403, 1, (205)%Z); (404, 404, 1, (207)%Z); (406, 406, 1, (211)%Z); (407, 407, 1, (209)%Z);
  (408, 408, 1, (1)%Z); (412, 412, 1, (211)%Z); (413, 413, 1, (213)%Z); (415, 415, 1, (214)%Z);
  (416, 420, 2, (1)%Z); (422, 422, 1, (218)%Z); (423, 423, 1, (1)%Z); (425, 425, 1, (218)%Z);
  (428, 428, 1, (1)%Z); (430, 430, 1, (218)%Z); (431, 431, 1, (1)%Z); (433, 434, 1, (217)%Z);
  (435, 437, 2, (1)%Z); (439, 439, 1, (219)%Z); (440, 440, 1, (1)%Z); (444, 444, 1, (1)%Z);
  (452, 452, 1, (2)%Z); (453, 453, 1, (1)%Z); (455, 455, 1, (2)%Z); (456, 456, 1, (1)%Z);
  (458, 458, 1, (2)%Z); (459, 475, 2, (1)%Z); (478, 494, 2, (1)%Z); (497, 497, 1, (2)%Z);
  (498, 500, 2, (1)%Z); (502, 502, 1, (-97)%Z); (503, 503, 1, (-56)%Z); (504, 542, 2, (1)%Z);
  (544, 544, 1, (-130)%Z); (546, 562, 2, (1)%Z); (570, 570, 1, (10795)%Z); (571, 571, 1, (1)%Z);
  (573, 573, 1, (-163)%Z); (574, 574, 1, (10792)%Z); (577, 577, 1, (1)%Z); (579, 579, 1, (-195)%Z);
  (580, 580, 1, (69)%Z); (581, 581, 1, (71)%Z); (582, 590, 2, (1)%Z); (880, 882, 2, (1)%Z);
  (886, 886, 1, (1)%Z); (895, 895, 1, (116)%Z); (902, 902, 1, (38)%Z); (904, 906, 1, (37)%Z);
  (908, 908, 1, (64)%Z); (910, 911, 1, (63)%Z); (913, 929, 1, (32)%Z); (931, 939, 1, (32)%Z);
  (975, 975, 1, (8)%Z); (984, 1006, 2, (1)%Z); (1012, 1012, 1, (-60)%Z); (1015, 1015, 1, (1)%Z);
  (1017, 1017, 1, (-7)%Z); (1018, 1018, 1, (1)%Z); (1021, 1023, 1, (-130)%Z); (1024, 1039, 1, (80)%Z);
  (1040, 1071, 1, (32)%Z); (1120, 1152, 2, (1)%Z); (1162, 1214, 2, (1)%Z); (1216, 1216, 1, (15)%Z);
  (1217, 1229, 2, (1)%Z); (1232, 1326, 2, (1)%Z); (1329, 1366, 1, (48)%Z); (4256, 4293, 1, (7264)%Z);
  (4295, 4295, 1, (7264)%Z); (4301, 4301, 1, (7264)%Z); (5024, 5103, 1, (38864)%Z); (5104, 5109, 1, (8)%Z);
  (7312, 7354, 1, (-3008)%Z); (7357, 7359, 1, (-3008)%Z); (7680, 7828, 2, (1)%Z); (7838, 7838, 1, (-7615)%Z);
  (7840, 7934, 2, (1)%Z); (7944, 7951, 1, (-8)%Z); (7960, 7965, 1, (-8)%Z); (7976, 7983, 1, (-8)%Z);
  (7992, 7999, 1, (-8)%Z); (8008, 8013, 1, (-8)%Z); (8025, 8031, 2, (-8)%Z); (8040, 8047, 1, (-8)%Z);
  (8072, 8079, 1, (-8)%Z); (8088, 8095, 1, (-8)%Z); (8104, 8111, 1, (-8)%Z); (8120, 8121, 1, (-8)%Z);
  (8122, 8123, 1, (-74)%Z); (8124, 8124, 1, (-9)%Z); (8136, 8139, 1, (-86)%Z); (8140, 8140, 1, (-9)%Z);
  (8152, 8153, 1, (-8)%Z); (8154, 8155, 1, (-100)%Z); (8168, 8169, 1, (-8)%Z); (8170, 8171, 1, (-112)%Z);
  (8172, 8172, 1, (-7)%Z); (8184, 8185, 1, (-128)%Z); (8186, 8187, 1, (-126)%Z); (8188, 8188, 1, (-9)%Z);
  (8486, 8486, 1, (-7517)%Z); (8490, 8490, 1, (-8383)%Z); (8491, 8491, 1, (-8262)%Z); (8498, 8498, 1, (28)%Z);
  (8544, 8559, 1, (16)%Z); (8579, 8579, 1, (1)%Z); (9398, 9423, 1, (26)%Z); (11264, 11311, 1, (48)%Z);
  (11360, 11360, 1, (1)%Z); (11362, 11362, 1, (-10743)%Z); (11363, 11363, 1, (-3814)%Z); (11364, 11364, 1, (-10727)%Z);
  (11367, 11371, 2, (1)%Z); (11373, 11373, 1, (-10780)%Z); (11374, 11374, 1, (-10749)%Z); (11375, 11375, 1, (-10783)%Z);
  (11376, 11376, 1, (-10782)%Z); (11378, 11378, 1, (1)%Z); (11381, 11381, 1, (1)%Z); (11390, 11391, 1, (-10815)%Z);
  (11392, 11490, 2, (1)%Z); (11499, 11501, 2, (1)%Z); (11506, 11506, 1, (1)%Z); (42560, 42604, 2, (1)%Z);
  (42624, 42650, 2, (1)%Z); (42786, 42798, 2, (1)%Z); (42802, 42862, 2, (1)%Z); (42873, 42875, 2, (1)%Z);
  (42877, 42877, 1, (-35332)%Z); (42878, 42886, 2, (1)%Z); (42891, 42891, 1, (1)%Z); (42893, 42893, 1, (-42280)%Z);
  (42896, 42898, 2, (1)%Z); (42902, 42920, 2, (1)%Z); (42922, 42922, 1, (-42308)%Z); (42923, 42923, 1, (-42319)%Z);
  (42924, 42924, 1, (-42315)%Z); (42925, 42925, 1, (-42305)%Z); (42926, 42926, 1, (-42308)%Z); (42928, 42928, 1, (-42258)%Z);
  (42929, 42929, 1, (-42282)%Z); (42930, 42930, 1, (-42261)%Z); (42931, 42931, 1, (928)%Z); (42932, 42946, 2, (1)%Z);
  (42948, 42948, 1, (-48)%Z); (42949, 42949, 1, (-42307)%Z); (42950, 42950, 1, (-35384)%Z); (42951, 42953, 2, (1)%Z);
  (42960, 42960, 1, (1)%Z); (42966, 42968, 2, (1)%Z); (42997, 42997, 1, (1)%Z); (65313, 65338, 1, (32)%Z);
  (66560, 66599, 1, (40)%Z); (66736, 66771, 1, (40)%Z); (66928, 66938, 1, (39)%Z); (66940, 66954, 1, (39)%Z);
  (66956, 66962, 1, (39)%Z); (66964, 66965, 1, (39)%Z); (68736, 68786, 1, (64)%Z); (71840, 71871, 1, (32)%Z);
  (93760, 93791, 1, (32)%Z); (125184, 125217, 1, (34)%Z)]%N.

Definition toupper_table : list (N * N * N * Z) := [
  (97, 122, 1, (-32)%Z); (181, 181, 1, (743)%Z); (224, 246, 1, (-32)%Z); (248, 254, 1, (-32)%Z);
  (255, 255, 1, (121)%Z); (257, 303, 2, (-1)%Z); (305, 305, 1, (-232)%Z); (307, 311, 2, (-1)%Z);
  (314, 328, 2, (-1)%Z); (331, 375, 2, (-1)%Z); (378, 382, 2, (-1)%Z); (383, 383, 1, (-300)%Z);
  (384, 384, 1, (195)%Z); (387, 389, 2, (-1)%Z); (392, 392, 1, (-1)%Z); (396, 396, 1, (-1)%Z);
  (402, 402, 1, (-1)%Z); (405, 405, 1, (97)%Z); (409, 409, 1, (-1)%Z); (410, 410, 1, (163)%Z);
  (414, 414, 1, (130)%Z); (417, 421, 2, (-1)%Z); (424, 424, 1, (-1)%Z); (429, 429, 1, (-1)%Z);
  (432, 432, 1, (-1)%Z); (436, 438, 2, (-1)%Z); (441, 441, 1, (-1)%Z); (445, 445, 1, (-1)%Z);
  (447, 447, 1, (56)%Z); (453, 453, 1, (-1)%Z); (454, 454, 1, (-2)%Z); (456, 456, 1, (-1)%Z);
  (457, 457, 1, (-2)%Z); (459, 459, 1, (-1)%Z); (460, 460, 1, (-2)%Z); (462, 476, 2, (-1)%Z);
  (477, 477, 1, (-79)%Z); (479, 495, 2, (-1)%Z); (498, 498, 1, (-1)%Z); (499, 499, 1, (-2)%Z);
  (501, 501, 1, (-1)%Z); (505, 543, 2, (-1)%Z); (547, 563, 2, (-1)%Z); (572, 572, 1, (-1)%Z);
  (575, 576, 1, (10815)%Z); (578, 578, 1, (-1)%Z); (583, 591, 2, (-1)%Z); (592, 592, 1, (10783)%Z);
  (593, 593, 1, (10780)%Z); (594, 594, 1, (10782)%Z); (595, 595, 1, (-210)%Z); (596, 596, 1, (-206)%Z);
  (598, 599, 1, (-205)%Z); (601, 601, 1, (-202)%Z); (603, 603, 1, (-203)%Z); (604, 604, 1, (42319)%Z);
  (608, 608, 1, (-205)%Z); (609, 609, 1, (42315)%Z); (611, 611, 1, (-207)%Z); (613, 613, 1, (42280)%Z);
  (614, 614, 1, (42308)%Z); (616, 616, 1, (-209)%Z); (617, 617, 1, (-211)%Z); (618, 618, 1, (42308)%Z);
  (619, 619, 1, (10743)%Z); (620, 620, 1, (42305)%Z); (623, 623, 1, (-211)%Z); (625, 625, 1, (10749)%Z);
  (626, 626, 1, (-213)%Z); (629, 629, 1, (-214)%Z); (637, 637, 1, (10727)%Z); (640, 640, 1, (-218)%Z);
  (642, 642, 1, (42307)%Z); (643, 643, 1, (-218)%Z); (647, 647, 1, (42282)%Z); (648, 648, 1, (-218)%Z);
  (649, 649, 1, (-69)%Z); (650, 651, 1, (-217)%Z); (652, 652, 1, (-71)%Z); (658, 658, 1, (-219)%Z);
  (669, 669, 1, (42261)%Z); (670, 670, 1, (42258)%Z); (837, 837, 1, (84)%Z); (881, 883, 2, (-1)%Z);
  (887, 887, 1, (-1)%Z); (891, 893, 1, (130)%Z); (940, 940, 1, (-38)%Z); (941, 943, 1, (-37)%Z);
  (945, 961, 1, (-32)%Z); (962, 962, 1, (-31)%Z); (963, 971, 1, (-32)%Z); (972, 972, 1, (-64)%Z);
  (973, 974, 1, (-63)%Z); (976, 976, 1, (-62)%Z); (977, 977, 1, (-57)%Z); (981, 981, 1, (-47)%Z);
  (982, 982, 1, (-54)%Z); (983, 983, 1, (-8)%Z); (985, 1007, 2, (-1)%Z); (1008, 1008, 1, (-86)%Z);
  (1009, 1009, 1, (-80)%Z); (1010, 1010, 1, (7)%Z); (1011, 1011, 1, (-116)%Z); (1013, 1013, 1, (-96)%Z);
  (1016, 1016, 1, (-1)%Z); (1019, 1019, 1, (-1)%Z); (1072, 1103, 1, (-32)%Z); (1104, 1119, 1, (-80)%Z);
  (1121, 1153, 2, (-1)%Z); (1163, 1215, 2, (-1)%Z); (1218, 1230, 2, (-1)%Z); (1231, 1231, 1, (-15)%Z);
  (1233, 1327, 2, (-1)%Z); (1377, 1414, 1, (-48)%Z); (4304, 4346, 1, (3008)%Z); (4349, 4351, 1, (3008)%Z);
  (5112, 5117, 1, (-8)%Z); (7296, 7296, 1, (-6254)%Z); (7297, 7297, 1, (-6253)%Z); (7298, 7298, 1, (-6244)%Z);
  (7299, 7300, 1, (-6242)%Z); (7301, 7301, 1, (-6243)%Z); (7302, 7302, 1, (-6236)%Z); (7303, 7303, 1, (-6181)%Z);
  (7304, 7304, 1, (35266)%Z); (7545, 7545, 1, (35332)%Z); (7549, 7549, 1, (3814)%Z); (7566, 7566, 1, (35384)%Z);
  (7681, 7829, 2, (-1)%Z); (7835, 7835, 1, (-59)%Z); (7841, 7935, 2, (-1)%Z); (7936, 7943, 1, (8)%Z);
  (7952, 7957, 1, (8)%Z); (7968, 7975, 1, (8)%Z); (7984, 7991, 1, (8)%Z); (8000, 8005, 1, (8)%Z);
  (8017, 8023, 2, (8)%Z); (8032, 8039, 1, (8)%Z); (8048, 8049, 1, (74)%Z); (8050, 8053, 1, (86)%Z);
  (8054, 8055, 1, (100)%Z); (8056, 8057, 1, (128)%Z); (8058, 8059, 1, (112)%Z); (8060, 8061, 1, (126)%Z);
  (8112, 8113, 1, (8)%Z); (8126, 8126, 1, (-7205)%Z); (8144, 8145, 1, (8)%Z); (8160, 8161, 1, (8)%Z);
  (8165, 8165, 1, (7)%Z); (8526, 8526, 1, (-28)%Z); (8560, 8575, 1, (-16)%Z); (8580, 8580, 1, (-1)%Z);
  (9424, 9449, 1, (-26)%Z); (11312, 11359, 1, (-48)%Z); (11361, 11361, 1, (-1)%Z); (11365, 11365, 1, (-10795)%Z);
  (11366, 11366, 1, (-10792)%Z); (11368, 11372, 2, (-1)%Z); (11379, 11379, 1, (-1)%Z); (11382, 11382, 1, (-1)%Z);
  (11393, 11491, 2, (-1)%Z); (11500, 11502, 2, (-1)%Z); (11507, 11507, 1, (-1)%Z); (11520, 11557, 1, (-7264)%Z);
  (11559, 11559, 1, (-7264)%Z); (11565, 11565, 1, (-7264)%Z); (42561, 42605, 2, (-1)%Z); (42625, 42651, 2, (-1)%Z);
  (42787, 42799, 2, (-1)%Z); (42803, 42863, 2, (-1)%Z); (42874, 42876, 2, (-1)%Z); (42879, 42887, 2, (-1)%Z);
  (42892, 42892, 1, (-1)%Z); (42897, 42899, 2, (-1)%Z); (42900, 42900, 1, (48)%Z); (42903, 42921, 2, (-1)%Z);
  (42933, 42947, 2, (-1)%Z); (42952, 42954, 2, (-1)%Z); (42961, 42961, 1, (-1)%Z); (42967, 42969, 2, (-1)%Z);
  (42998, 42998, 1, (-1)%Z); (43859, 43859, 1, (-928)%Z); (43888, 43967, 1, (-38864)%Z); (65345, 65370, 1, (-32)%Z);
  (66600, 66639, 1, (-40)%Z); (66776, 66811, 1, (-40)%Z); (66967, 66977, 1, (-39)%Z); (66979, 66993, 1, (-39)%Z);
  (66995, 67001, 1, (-39)%Z); (67003, 67004, 1, (-39)%Z); (68800, 68850, 1, (-64)%Z); (71872, 71903, 1, (-32)%Z);
  (93792, 93823, 1, (-32)%Z); (125218, 125251, 1, (-34)%Z)]%N.

Definition upper_special : list (N * list N) := [
  (223, [83; 83]); (329, [700; 78]); (496, [74; 780]);
  (912, [921; 776; 769]); (944, [933; 776; 769]); (1415, [1333; 1362]);
  (7830, [72; 817]); (7831, [84; 776]); (7832, [87; 778]);
  (7833, [89; 778]); (7834, [65; 702]); (8016, [933; 787]);
  (8018, [933; 787; 768]); (8020, [933; 787; 769]); (8022, [933; 787; 834]);
  (8064, [7944; 921]); (8065, [7945; 921]); (8066, [7946; 921]);
  (8067, [7947; 921]); (8068, [7948; 921]); (8069, [7949; 921]);
  (8070, [7950; 921]); (8071, [7951; 921]); (8072, [7944; 921]);
  (8073, [7945; 921]); (8074, [7946; 921]); (8075, [7947; 921]);
  (8076, [7948; 921]); (8077, [7949; 921]); (8078, [7950; 921]);
  (8079, [7951; 921]); (8080, [7976; 921]); (8081, [7977; 921]);
  (8082, [7978; 921]); (8083, [7979; 921]); (8084, [7980; 921]);
  (8085, [7981; 921]); (8086, [7982; 921]); (8087, [7983; 921]);
  (8088, [7976; 921]); (8089, [7977; 921]); (8090, [7978; 921]);
  (8091, [7979; 921]); (8092, [7980; 921]); (8093, [7981; 921]);
  (8094, [7982; 921]); (8095, [7983; 921]); (8096, [8040; 921]);
  (8097, [8041; 921]); (8098, [8042; 921]); (8099, [8043; 921]);
  (8100, [8044; 921]); (8101, [8045; 921]); (8102, [8046; 921]);
  (8103, [8047; 921]); (8104, [8040; 921]); (8105, [8041; 921]);
  (8106, [8042; 921]); (8107, [8043; 921]); (8108, [8044; 921]);
  (8109, [8045; 921]); (8110, [8046; 921]); (8111, [8047; 921]);
  (8114, [8122; 921]); (8115, [913; 921]); (8116, [902; 921]);
  (8118, [913; 834]); (8119, [913; 834; 921]); (8124, [913; 921]);
  (8130, [8138; 921]); (8131, [919; 921]); (8132, [905; 921]);
  (8134, [919; 834]); (8135, [919; 834; 921]); (8140, [919; 921]);
  (8146, [921; 776; 768]); (8147, [921; 776; 769]); (8150, [921; 834]);
  (8151, [921; 776; 834]); (8162, [933; 776; 768]); (8163, [933; 776; 769]);
  (8164, [929; 787]); (8166, [933; 834]); (8167, [933; 776; 834]);
  (8178, [8186; 921]); (8179, [937; 921]); (8180, [911; 921]);
  (8182, [937; 834]); (8183, [937; 834; 921]); (8188, [937; 921]);
  (64256, [70; 70]); (64257, [70; 73]); (64258, [70; 76]);
  (64259, [70; 70; 73]); (64260, [70; 70; 76]); (64261, [83; 84]);
  (64262, [83; 84]); (64275, [1348; 1350]); (64276, [1348; 1333]);
  (64277, [1348; 1339]); (64278, [1358; 1350]); (64279, [1348; 1341])]%N.

Definition extra_cases : list (N * list N) := [
  (105, [305]); (115, [383]); (181, [956]); (305, [105]);
  (383, [115]); (837, [953; 8126]); (912, [8147]); (944, [8163]);
  (946, [976]); (949, [1013]); (952, [977]); (953, [837; 8126]);
  (954, [1008]); (956, [181]); (960, [982]); (961, [1009]);
  (962, [963]); (963, [962]); (966, [981]); (976, [946]);
  (977, [952]); (981, [966]); (982, [960]); (1008, [954]);
  (1009, [961]); (1013, [949]); (1074, [7296]); (1076, [7297]);
  (1086, [7298]); (1089, [7299]); (1090, [7300; 7301]); (1098, [7302]);
  (1123, [7303]); (7296, [1074]); (7297, [1076]); (7298, [1086]);
  (7299, [1089]); (7300, [1090; 7301]); (7301, [1090; 7300]); (7302, [1098]);
  (7303, [1123]); (7304, [42571]); (7777, [7835]); (7835, [7777]);
  (8126, [837; 953]); (8147, [912]); (8163, [944]); (42571, [7304]);
  (64261, [64262]); (64262, [64261])]%N.

Definition assoc {A} (t : list (N * A)) (c : N) : option A :=
  option_map snd (find (fun e => fst e =? c) t).

(** [_sre.unicode_tolower]. *)
Definition tolower (c : char) : char := map_ranges tolower_table c.

(** The upper-casing of one character by [str.upper] (full mapping). *)
Definition toupper_full (c : char) : str :=
  match assoc upper_special c with
  | Some l => l
  | None => [map_ranges toupper_table c]
  end.

(** [_sre.unicode_iscased]. *)
Definition iscased (c : char) : bool :=
  negb (tolower c =? c) || negb (map_ranges toupper_table c =? c)
  || match assoc upper_special c with Some _ => true | None => false end.

(** *** String methods *)

Definition upper (s : str) : str := flat_map toupper_full s.

Fixpoint lstrip (s : str) : str :=
  match s with
  | c :: r => if isspace c then lstrip r else s
  | [] => []
  end.

Definition rstrip (s : str) : str := rev (lstrip (rev s)).

Definition strip (s : str) : str := rstrip (lstrip s).

Fixpoint startswith (p s : str) : bool :=
  match p, s with
  | [], _ => true
  | a :: p', b :: s' => (a =? b) && startswith p' s'
  | _ :: _, [] => false
  end.

(** [sub in s]. *)
Fixpoint contains (sub s : str) : bool :=
  startswith sub s
  || match s with
     | [] => false
     | _ :: r => contains sub r
     end.

(** [s.replace(old, new)]: occurrences are replaced left to right without
    overlap; [skip] counts the characters of an occurrence still to drop. *)
Fixpoint replace_from (old new : str) (skip : nat) (s : str) : str :=
  match s with
  | [] => []
  | c :: r =>
      match skip with
      | S k => replace_from old new k r
      | O =>
          if startswith old s
          then new ++ replace_from old new (length old - 1) r
          else c :: replace_from old new 0 r
      end
  end.

Definition replace (old new s : str) : str :=
  match old with
  | [] => new ++ flat_map (fun c => c :: new) s
  | _ => replace_from old new 0 s
  end.

(** [s.split(sep)] for a one-character separator. *)
Fixpoint split_on (sep : char) (s : str) : list str :=
  match s with
  | [] => [[]]
  | c :: r =>
      match split_on sep r with
      | cur :: rest => if c =? sep then [] :: cur :: rest else (c :: cur) :: rest
      | [] => [[c]]
      end
  end.

(** [s.split()]: maximal runs of non-space characters. *)
Fixpoint split_ws_from (cur : str) (s : str) : list str :=
  match s with
  | [] => match cur with [] => [] | _ => [rev cur] end
  | c :: r =>
      if isspace c
      then match cur with
           | [] => split_ws_from [] r
           | _ => rev cur :: split_ws_from [] r
           end
      else split_ws_from (c :: cur) r
  end.

Definition split_ws (s : str) : list str := split_ws_from [] s.

(** [s.splitlines()]: the line boundaries are fewer than the spaces, a
    carriage return followed by a line feed is one boundary, and no empty
    last line is produced. *)
Definition linebreak_ranges : list (N * N) :=
  [(10, 13); (28, 30); (133, 133); (8232, 8233)].

Definition islinebreak (c : char) : bool := in_ranges linebreak_ranges c.

Fixpoint splitlines_from (cur : str) (s : str) : list str :=
  match s with
  | [] => match cur with [] => [] | _ => [rev cur] end
  | c :: r =>
      if islinebreak c then
        rev cur ::
          match r with
          | d :: r' =>
              if (c =? 13) && (d =? 10) then splitlines_from [] r'
              else splitlines_from [] r
          | [] => []
          end
      else splitlines_from (c :: cur) r
  end.

Definition splitlines (s : str) : list str := splitlines_from [] s.

(** [sep.join(parts)]. *)
Fixpoint join (sep : str) (parts : list str) : str :=
  match parts with
  | [] => []
  | [p] => p
  | p :: rest => p ++ sep ++ join sep rest
  end.

(** [str(n)] for a non-negative integer. *)
Fixpoint digits_of (fuel : nat) (n : N) (acc : str) : str :=
  match fuel with
  | O => acc
  | S f =>
      let acc' := (48 + n mod 10) :: acc in
      if n <? 10 then acc' else digits_of f (n / 10) acc'
  end.

Definition str_of_N (n : N) : str := digits_of (S (N.to_nat (N.log2 n))) n [].

(** [int(s)] on a string of decimal digits. *)
Definition int_of_digits (s : str) : N :=
  fold_left (fun acc c => acc * 10 + digit_value c) s 0.

(** *** Floats

    A finite float is kept as the decimal it was read from,
    [(-1)^neg * mant * 10^expo], and stands for the double nearest to that
    decimal (ties to even, overflow to infinity): equal decimals are equal
    doubles.  Tests on a float are decided on the decimal as they come out
    on the double. *)
Inductive float :=
| FNum (neg : bool) (mant : N) (expo : Z)
| FInf (neg : bool)
| FNaN.

Definition zero : float := FNum false 0 0.

(** The double nearest to [mant * 10^expo] is a zero exactly when the
    decimal is at most [2^-1075], half the smallest subnormal. *)
Definition rounds_to_zero (mant : N) (expo : Z) : bool :=
  if (0 <=? expo)%Z then mant =? 0
  else (Z.of_N mant * 2 ^ 1075 <=? 10 ^ (- expo))%Z.

(** [x < 0]. *)
Definition lt_zero (x : float) : bool :=
  match x with
  | FNum neg m e => neg && negb (rounds_to_zero m e)
  | FInf neg => neg
  | FNaN => false
  end.

(** [x >= 0.0]. *)
Definition ge_zero (x : float) : bool :=
  match x with
  | FNaN => false
  | _ => negb (lt_zero x)
  end.

(** [bool(x)]: every float but the zeros is true. *)
Definition truthy (x : float) : bool :=
  match x with
  | FNum _ m e => negb (rounds_to_zero m e)
  | _ => true
  end.

Fixpoint span (p : char -> bool) (s : str) : str * str :=
  match s with
  | c :: r => if p c then let '(a, b) := span p r in (c :: a, b) else ([], s)
  | [] => ([], [])
  end.

Definition is_ascii_digit (c : char) : bool := (48 <=? c) && (c <=? 57).

(** What [float] strips: the ASCII blanks, and the spaces above 127. *)
Definition float_space (c : char) : bool :=
  ((9 <=? c) && (c <=? 13)) || (c =? 32) || ((127 <? c) && isspace c).

(** Underscores may only stand between two digits; they are dropped. *)
Fixpoint drop_underscores (prev : char) (s : str) : option str :=
  match s with
  | [] => if prev =? 95 then None else Some []
  | c :: r =>
      if c =? 95 then
        if is_ascii_digit prev then drop_underscores c r else None
      else if (prev =? 95) && negb (is_ascii_digit c) then None
      else option_map (cons c) (drop_underscores c r)
  end.

Definition ascii_lower (c : char) : char :=
  if (65 <=? c) && (c <=? 90) then c + 32 else c.

Definition take_sign (s : str) : bool * str :=
  match s with
  | c :: r =>
      if c =? 45 then (true, r)
      else if c =? 43 then (false, r)
      else (false, s)
  | [] => (false, s)
  end.

(** The exponent part, if one is there and well formed. *)
Definition take_exponent (s : str) : option (Z * str) :=
  match s with
  | c :: r =>
      if (c =? 101) || (c =? 69) then
        let '(neg, r1) := take_sign r in
        let '(ds, r2) := span is_ascii_digit r1 in
        match ds with
        | [] => None
        | _ =>
            let e := Z.of_N (int_of_digits ds) in
            Some (if neg then (- e)%Z else e, r2)
        end
      else None
  | [] => None
  end.

Definition parse_number (neg : bool) (s : str) : option float :=
  let '(ip, r1) := span is_ascii_digit s in
  let '(fp, r2) :=
    match r1 with
    | c :: r => if c =? 46 then span is_ascii_digit r else ([], r1)
    | [] => ([], r1)
    end in
  match ip ++ fp with
  | [] => None
  | ds =>
      let m := int_of_digits ds in
      let f := Z.of_nat (length fp) in
      match r2 with
      | [] => Some (FNum neg m (- f))
      | _ =>
          match take_exponent r2 with
          | Some (e, []) => Some (FNum neg m (e - f))
          | _ => None
          end
      end
  end.

Definition parse_inf_nan (neg : bool) (s : str) : option float :=
  let w := map ascii_lower s in
  if eqb w (u "inf") || eqb w (u "infinity") then Some (FInf neg)
  else if eqb w (u "nan") then Some FNaN
  else None.

(** [float(s)]; [None] stands for [ValueError]. *)
Definition float_of_str (s : str) : option float :=
  let t := rev (snd (span float_space (rev (snd (span float_space s))))) in
  let t := map (fun c => if isdecimal c then 48 + digit_value c else c) t in
  match (if existsb (N.eqb 95) t then drop_underscores 0 t else Some t) with
  | None => None
  | Some t =>
      let '(neg, r) := take_sign t in
      match parse_number neg r with
      | Some x => Some x
      | None => parse_inf_nan neg r
      end
  end.

(** *** Values, exceptions, and the trace of a run *)

Inductive val :=
| VNone
| VStr (s : str)
| VInt (n : Z)
| VFloat (x : float).

Inductive exn :=
| ValueError
| TypeError
| FileNotFound.

Inductive level := DEBUG | INFO | WARNING | ERROR.

(** A record is a [dict] from column names to values. *)
Abbreviation record := (gmap string val).

(** What a run does to the outside world.  A message is kept as its format
    string and the values formatted into it. *)
Inductive event :=
| Print (template : string) (args : list val)
| Log (lv : level) (template : string) (args : list val)
| DataFrameToCsv (path : str) (rows : list record)
| CsvCreate (path : str) (header : list string)
| CsvAppend (path : str) (row : list val)
| SysExit (code : Z).

(** A computation leaves a trace and either returns or raises. *)
Definition io (A : Type) : Type := list event * (exn + A).

Definition ret {A} (a : A) : io A := ([], inr a).
Definition raise {A} (e : exn) : io A := ([], inl e).
Definition emit (ev : event) : io unit := ([ev], inr tt).

Definition bind {A B} (m : io A) (f : A -> io B) : io B :=
  match m with
  | (t, inl e) => (t, inl e)
  | (t, inr a) => let '(t', r) := f a in (t ++ t', r)
  end.

(** [try: m except Exception: h]. *)
Definition catch {A} (m : io A) (h : exn -> io A) : io A :=
  match m with
  | (t, inl e) => let '(t', r) := h e in (t ++ t', r)
  | _ => m
  end.

Definition lift {A} (e : exn) (o : option A) : io A :=
  match o with
  | Some a => ret a
  | None => raise e
  end.

(** A loop that carries a state through the elements of a list. *)
Fixpoint foldM {A S} (f : S -> A -> io S) (s : S) (l : list A) : io S :=
  match l with
  | [] => ret s
  | a :: l' => bind (f s a) (fun s' => foldM f s' l')
  end.

Definition trace {A} (m : io A) : list event := fst m.
Definition outcome {A} (m : io A) : exn + A := snd m.

(** A cell of a written CSV row: [None] and a missing key are written as
    the empty string. *)
Inductive cell := Empty | Filled (v : val).

Definition cell_of (o : option val) : cell :=
  match o with
  | None | Some VNone => Empty
  | Some v => Filled v
  end.

#[global] Instance io_ret : MRet io := @ret.
#[global] Instance io_bind : MBind io := fun A B f m => bind m f.

End Py.


(** ** The [re] module: a backtracking matcher *)

Module Re.
Import Py.

Inductive regex :=
| Eps
| Chr (p : char -> bool)
| Cat (a b : regex)
| Alt (a b : regex)
| Rep (greedy : bool) (lo : nat) (hi : option nat) (a : regex)
| Grp (i : nat) (a : regex)
| Bol
| Eol.

(** Where the matcher stands: characters consumed so far, what is left of
    the subject, and the spans of the groups closed so far (latest first). *)
Record mstate := MState {
  pos : nat;
  rest : str;
  caps : list (nat * (nat * nat))
}.

Definition below (hi : option nat) (n : nat) : bool :=
  match hi with
  | Some h => (n <? h)%nat
  | None => true
  end.

(** One repetition [a{lo,hi}], [n] iterations in: the body is tried again
    before or after the rest, as the repetition is greedy or lazy.  No
    pattern of these scripts repeats a body that can match the empty
    string; an iteration has to consume a character, so at most [fuel]
    of them, the number of characters left, can follow. *)
Fixpoint rep_iter (body : mstate -> (mstate -> option mstate) -> option mstate)
  (g : bool) (lo : nat) (hi : option nat) (k : mstate -> option mstate)
  (fuel n : nat) (st : mstate) {struct fuel} : option mstate :=
  let more (_ : unit) :=
    match fuel with
    | O => None
    | S fuel' =>
        if below hi n then
          body st (fun st' =>
            if (pos st <? pos st')%nat then rep_iter body g lo hi k fuel' (S n) st'
            else None)
        else None
    end in
  let stop (_ : unit) := if (lo <=? n)%nat then k st else None in
  if g then
    match more tt with
    | Some m => Some m
    | None => stop tt
    end
  else
    match stop tt with
    | Some m => Some m
    | None => more tt
    end.

(** [rmatch r st k]: match [r] at [st], then go on with [k]; alternatives
    are tried in the order of the Python engine (left branch first, a
    greedy repetition longest first, a lazy one shortest first). *)
Fixpoint rmatch (r : regex) (st : mstate) (k : mstate -> option mstate)
  {struct r} : option mstate :=
  match r with
  | Eps => k st
  | Chr p =>
      match rest st with
      | c :: s' => if p c then k (MState (S (pos st)) s' (caps st)) else None
      | [] => None
      end
  | Cat a b => rmatch a st (fun st' => rmatch b st' k)
  | Alt a b =>
      match rmatch a st k with
      | Some m => Some m
      | None => rmatch b st k
      end
  | Rep g lo hi a => rep_iter (rmatch a) g lo hi k (length (rest st)) O st
  | Grp i a =>
      rmatch a st (fun st' =>
        k (MState (pos st') (rest st') ((i, (pos st, pos st')) :: caps st')))
  | Bol => if (pos st =? 0)%nat then k st else None
  | Eol => if eqb (rest st) [] || eqb (rest st) [10] then k st else None
  end.

(** A match object: the subject, the span of the whole match, the groups. *)
Record mobj := MObj {
  subject : str;
  m_start : nat;
  m_end : nat;
  m_caps : list (nat * (nat * nat))
}.

Definition slice (s : str) (a b : nat) : str := firstn (b - a) (skipn a s).

Definition group0 (m : mobj) : str := slice (subject m) (m_start m) (m_end m).

(** [m.group(i)]; [None] when the group took no part in the match. *)
Definition group (i : nat) (m : mobj) : option str :=
  match find (fun e => (fst e =? i)%nat) (m_caps m) with
  | Some (_, (a, b)) => Some (slice (subject m) a b)
  | None => None
  end.

Definition match_at (r : regex) (s : str) (p : nat) (suffix : str)
  : option mobj :=
  match rmatch r (MState p suffix []) Some with
  | Some st => Some (MObj s p (pos st) (caps st))
  | None => None
  end.

(** [re.match(r, s)]. *)
Definition re_match (r : regex) (s : str) : option mobj := match_at r s 0 s.

(** The leftmost match starting at [p] or later. *)
Fixpoint search_from (r : regex) (s : str) (p : nat) (suffix : str)
  : option mobj :=
  match match_at r s p suffix with
  | Some m => Some m
  | None =>
      match suffix with
      | [] => None
      | _ :: suffix' => search_from r s (S p) suffix'
      end
  end.

Definition matched (m : option mobj) : bool :=
  match m with
  | Some _ => true
  | None => false
  end.

(** [re.search(r, s)]. *)
Definition re_search (r : regex) (s : str) : option mobj :=
  search_from r s 0 s.

(** All matches from left to right, without overlap. *)
Fixpoint matches_from (fuel : nat) (r : regex) (s : str) (p : nat)
  : list mobj :=
  match fuel with
  | O => []
  | S fuel' =>
      match search_from r s p (skipn p s) with
      | None => []
      | Some m =>
          m :: (if (m_end m <=? p)%nat
                then if (p <? length s)%nat
                     then matches_from fuel' r s (S p) else []
                else matches_from fuel' r s (m_end m))
      end
  end.

Definition finditer (r : regex) (s : str) : list mobj :=
  matches_from (S (length s)) r s 0.

(** [re.findall(r, s)] for a pattern without groups, and with one group. *)
Definition findall (r : regex) (s : str) : list str :=
  map group0 (finditer r s).

Definition findall1 (r : regex) (s : str) : list str :=
  map (fun m => default [] (group 1 m)) (finditer r s).

(** [re.sub(r, repl, s)] for a replacement without group references. *)
Fixpoint sub_from (ms : list mobj) (repl s : str) (p : nat) : str :=
  match ms with
  | [] => skipn p s
  | m :: ms' => slice s p (m_start m) ++ repl ++ sub_from ms' repl s (m_end m)
  end.

Definition sub (r : regex) (repl s : str) : str :=
  sub_from (finditer r s) repl s 0.

(** *** Pattern syntax *)

Definition lit (c : char) : char -> bool := N.eqb c.

(** [.]: anything but a line feed. *)
Definition dot : char -> bool := fun c => negb (c =? 10).

Definition extra_cases : list (N * list N) := [
  (105, [305]); (115, [383]); (181, [956]); (305, [105]);
  (383, [115]); (837, [953; 8126]); (912, [8147]); (944, [8163]);
  (946, [976]); (949, [1013]); (952, [977]); (953, [837; 8126]);
  (954, [1008]); (956, [181]); (960, [982]); (961, [1009]);
  (962, [963]); (963, [962]); (966, [981]); (976, [946]);
  (977, [952]); (981, [966]); (982, [960]); (1008, [954]);
  (1009, [961]); (1013, [949]); (1074, [7296]); (1076, [7297]);
  (1086, [7298]); (1089, [7299]); (1090, [7300; 7301]); (1098, [7302]);
  (1123, [7303]); (7296, [1074]); (7297, [1076]); (7298, [1086]);
  (7299, [1089]); (7300, [1090; 7301]); (7301, [1090; 7300]); (7302, [1098]);
  (7303, [1123]); (7304, [42571]); (7777, [7835]); (7835, [7777]);
  (8126, [837; 953]); (8147, [912]); (8163, [944]); (42571, [7304]);
  (64261, [64262]); (64262, [64261])]%N.

Definition fixes (lo : char) : list char := default [] (assoc extra_cases lo).

(** A literal under [re.IGNORECASE]. *)
Definition lit_i (c : char) : char -> bool :=
  if iscased c then
    fun x => let lx := tolower x in
             (lx =? tolower c) || existsb (N.eqb lx) (fixes (tolower c))
  else N.eqb c.

(** What stands between brackets. *)
Inductive item :=
| IChr (c : char)
| IRange (a b : char)
| ICat (p : char -> bool).

Definition range_list (a b : char) : list char :=
  map (fun i => a + N.of_nat i) (seq 0 (N.to_nat (b + 1 - a))).

Definition item_chars (it : item) : list char :=
  match it with
  | IChr c => [c]
  | IRange a b => range_list a b
  | ICat _ => []
  end.

Definition item_match (x : char) (it : item) : bool :=
  match it with
  | IChr c => x =? c
  | IRange a b => (a <=? x) && (x <=? b)
  | ICat p => p x
  end.

Definition set_ (items : list item) : char -> bool :=
  fun x => existsb (item_match x) items.

(** A set under [re.IGNORECASE]: when it holds a cased character, the
    lower-cased subject character is looked up among the lower-cased
    members and their extra cases. *)
Definition item_match_i (lx : char) (it : item) : bool :=
  match it with
  | ICat p => p lx
  | _ => existsb (fun c => (lx =? tolower c)
                           || existsb (N.eqb lx) (fixes (tolower c)))
           (item_chars it)
  end.

Definition set_i (items : list item) : char -> bool :=
  if existsb (fun it => existsb iscased (item_chars it)) items
  then fun x => existsb (item_match_i (tolower x)) items
  else set_ items.

Definition star (a : regex) : regex := Rep true 0 None a.
Definition plus (a : regex) : regex := Rep true 1 None a.
Definition opt (a : regex) : regex := Rep true 0 (Some 1%nat) a.
Definition lazy_star (a : regex) : regex := Rep false 0 None a.
Definition times (n : nat) (a : regex) : regex := Rep true n (Some n) a.

Definition seq_ (rs : list regex) : regex := fold_right Cat Eps rs.

(** A literal string, and a literal string under [re.IGNORECASE]. *)
Definition str_ (s : str) : regex := seq_ (map (fun c => Chr (lit c)) s).
Definition str_i (s : str) : regex := seq_ (map (fun c => Chr (lit_i c)) s).

Definition d : regex := Chr isdecimal.
Definition s_ : regex := Chr isspace.
Definition any : regex := Chr dot.

End Re.

(** ** catchment_data_km2.py *)

Module CatchmentDataKm2.
Import Py Re.

Definition TARGET_STATIONS : gset str :=
  list_to_set (map u
    ["E22A065"; "E22A066"; "D22A093"; "E22A071"; "D14A185"; "E22A054"; "E22A063";
     "E14A018"; "D14A162"; "D14A186"; "D22A105"; "E22A053"; "D14A172"; "D14A117";
     "E14A027"; "D22A106"; "D14A200"; "E14A002"; "D14A179"; "D22A098"; "D22A159";
     "D14A064"; "E14A038"; "D14A201"; "D14A184"; "D14A211"; "D14A208"; "D14A214";
     "D14A207"; "D14A141"; "E22A062"; "E14A040"; "D14A215"; "D14A176"; "D14A011";
     "D14A188"; "D14A081"]).

(** [float(x.strip().replace(",", "."))] *)
Definition clean_num (x : str) : io float :=
  lift ValueError (float_of_str (replace (u ",") (u ".") (strip x))).

(** [^([DE]\d{2}A\d{3})\s] *)
Definition station_line_re : regex :=
  seq_ [Bol;
        Grp 1 (seq_ [Chr (set_ [IChr 68; IChr 69]); times 2 d; Chr (lit 65);
                     times 3 d]);
        s_].

(** [YA[GĞ]I[SŞ]\s*ALANI\s*:\s*([0-9\.,]+)] with [re.I] *)
Definition area_re : regex :=
  seq_ [str_i (u "YA"); Chr (set_i [IChr 71; IChr 286]); Chr (lit_i 73);
        Chr (set_i [IChr 83; IChr 350]); star s_; str_i (u "ALANI"); star s_;
        Chr (lit_i 58); star s_;
        Grp 1 (plus (Chr (set_i [IRange 48 57; IChr 46; IChr 44])))].

(** The lines of a page: [[ln.strip() for ln in text.splitlines() if ln.strip()]] *)
Definition page_lines (text : str) : list str :=
  map strip (List.filter (fun ln => negb (eqb (strip ln) [])) (splitlines text)).

(** The two guards at the head of the line loop: the line has to start
    with a station code, and the code has to be a target. *)
Definition station_code_of (line : str) : option str :=
  match re_match station_line_re line with
  | None => None
  | Some m =>
      let code := upper (default [] (group 1 m)) in
      if bool_decide (code ∈ TARGET_STATIONS) then Some code else None
  end.

(** The inner loop [for j in range(i, min(i + 10, len(lines)))], over the
    window it ranges through; it stops at the first line naming the
    catchment area, whether its number is found or not. *)
Fixpoint area_scan (code : str) (pno : nat) (window : list str)
  : io (list record) :=
  match window with
  | [] => mret []
  | l :: w =>
      if contains (u "YAĞIŞ ALANI") (upper l)
         || contains (u "YAGIS ALANI") (upper l)
      then
        match re_search area_re l with
        | Some m =>
            val ← clean_num (default [] (group 1 m));
            emit (Print "[FOUND] {code}: {val} km2 (p{pno+1})"
                    [VStr code; VFloat val; VInt (Z.of_nat pno + 1)]);;
            mret [({[ "station_code" := VStr code;
                      "catchment_area_km2" := VFloat val;
                      "page" := VInt (Z.of_nat pno + 1) ]} : record)]
        | None => mret []
        end
      else area_scan code pno w
  end.

(** The loop [for i, line in enumerate(lines)]. *)
Fixpoint scan_lines (lines : list str) (pno i : nat) (todo : list str)
  : io (list record) :=
  match todo with
  | [] => mret []
  | line :: todo' =>
      match station_code_of line with
      | None => scan_lines lines pno (S i) todo'
      | Some code =>
          found ← area_scan code pno (firstn 10 (skipn i lines));
          more ← scan_lines lines pno (S i) todo';
          mret (found ++ more)
      end
  end.

(** The loop over the pages of the document. *)
Fixpoint scan_pages (pno : nat) (pages : list str) : io (list record) :=
  match pages with
  | [] => mret []
  | text :: pages' =>
      if eqb (strip text) [] then scan_pages (S pno) pages'
      else
        let lines := page_lines text in
        found ← scan_lines lines pno 0 lines;
        more ← scan_pages (S pno) pages';
        mret (found ++ more)
  end.

Definition extract_catchments (doc : list str) : io (list record) :=
  scan_pages 0 doc.

(** The script body.  [pdf] is what is found at [PDF_NAME]: nothing, or a
    document given by the text of its pages. *)
Definition main (PDF_NAME OUTPUT_NAME : str) (pdf : option (list str))
  : io unit :=
  match pdf with
  | None => emit (Print "[ERROR] {pdf_path} not found." [VStr PDF_NAME])
  | Some doc =>
      df ← extract_catchments doc;
      match df with
      | [] => emit (Print "[WARN] No YAĞIŞ ALANI found." [])
      | _ =>
          emit (DataFrameToCsv OUTPUT_NAME df);;
          emit (Print "[DONE] Extracted {len(df)} stations -> {OUTPUT_NAME}"
                  [VInt (Z.of_nat (length df)); VStr OUTPUT_NAME])
      end
  end.

End CatchmentDataKm2.

(** ** table_arranger.py *)

Module TableArranger.
Import Py Re.

Definition MONTHS : list string :=
  ["oct"; "nov"; "dec"; "jan"; "feb"; "mar"; "apr"; "may"; "jun"; "jul"; "aug";
   "sep"]%string.

Definition clean_num (x : val) : option float :=
  match x with
  | VStr x =>
      let x := replace (u ",") (u ".") (strip x) in
      if eqb (upper x) (u "KURU") || eqb x (u "nan") || eqb x [] then None
      else float_of_str x
  | _ => None
  end.

Definition patterns : list (str * string) :=
  [(u "Maks.", "max"); (u "Min.", "min"); (u "Ortalama", "avg");
   (u "LT/SN/Km2", "ltsnkm2"); (u "AKIM mm.", "mm"); (u "MİL. M3", "mil_m3")]%string.

(** The label goes into the pattern as it is: its full stops match any
    character. *)
Definition label_re (label : str) : regex :=
  seq_ (map (fun c => if c =? 46 then any else Chr (lit_i c)) label).

(** [rf"{label}\s+([0-9\.\,\sKURU]+)"] with [re.I] *)
Definition row_re (label : str) : regex :=
  seq_ [label_re label; plus s_;
        Grp 1 (plus (Chr (set_i [IRange 48 57; IChr 46; IChr 44; ICat isspace;
                                 IChr 75; IChr 85; IChr 82; IChr 85])))].

Definition of_option (o : option float) : val :=
  match o with
  | Some x => VFloat x
  | None => VNone
  end.

Definition month_key (month key : string) : string :=
  String.append month (String.append "_" key).

(** [nums[:12] if len(nums) >= 12 else nums + [None]*(12-len(nums))] *)
Definition pad12 (nums : list val) : list val :=
  if (12 <=? length nums)%nat then firstn 12 nums
  else nums ++ repeat VNone (12 - length nums).

(** One turn of the loop over [patterns]. *)
Definition parse_row (block : str) (data : record) (p : str * string)
  : record :=
  let '(label, key) := p in
  match re_search (row_re label) block with
  | Some m =>
      let nums := split_ws (default [] (group 1 m)) in
      let nums := map (fun n => of_option (clean_num (VStr n))) nums in
      let nums := pad12 nums in
      fold_left (fun data im =>
                   <[month_key (snd im) key := nth (fst im) nums VNone]> data)
        (combine (seq 0 12) MONTHS) data
  | None =>
      fold_left (fun data month => <[month_key month key := VNone]> data)
        MONTHS data
  end.

(** Step 1 of [parse_block], the monthly values.  (Step 2 adds the three
    annual totals under keys of their own.) *)
Definition parse_block_monthly (block : str) : record :=
  fold_left (parse_row block) patterns ∅.

End TableArranger.

(** ** new_pdf_reader_2020.py *)

Module NewPdfReader2020.
Import Py Re.

Definition ALLOWED_STATIONS : gset str :=
  list_to_set (map u
    ["E22A065"; "E22A066"; "D22A093"; "E22A071"; "D14A185"; "E22A054";
     "E22A063"; "E14A018"; "D14A162"; "D14A186"; "D22A105"; "E22A053";
     "D14A172"; "D14A117"; "E14A027"; "D22A106"; "D14A200"; "E14A002";
     "D14A179"; "D22A098"; "D22A159"; "D14A064"; "E14A038"; "D14A201";
     "D14A184"; "D14A211"; "D14A208"; "D14A214"; "D14A207"; "D14A141";
     "E22A062"; "E14A040"; "D14A215"; "D14A176"; "D14A011"; "D14A188";
     "D14A081"]).

(** [14\.\s*Ye[şs]ilirmak\s*Havzas[ıi]], [14\s*-\s*YE[ŞS][İI]LIRMAK\s*HAVZASI],
    [22\.\s*Do[ğg]u\s*Karadeniz\s*Havzas[ıi]], all used with [re.IGNORECASE] *)
Definition REGION_PATTERNS : list regex :=
  [seq_ [str_i (u "14."); star s_; str_i (u "Ye");
         Chr (set_i [IChr 351; IChr 115]); str_i (u "ilirmak"); star s_;
         str_i (u "Havzas"); Chr (set_i [IChr 305; IChr 105])];
   seq_ [str_i (u "14"); star s_; str_i (u "-"); star s_; str_i (u "YE");
         Chr (set_i [IChr 350; IChr 83]); Chr (set_i [IChr 304; IChr 73]);
         str_i (u "LIRMAK"); star s_; str_i (u "HAVZASI")];
   seq_ [str_i (u "22."); star s_; str_i (u "Do");
         Chr (set_i [IChr 287; IChr 103]); str_i (u "u"); star s_;
         str_i (u "Karadeniz"); star s_; str_i (u "Havzas");
         Chr (set_i [IChr 305; IChr 105])]].

Definition normalize_text (text : str) : str :=
  let text := replace (u "İ") (u "I") (replace (u "ı") (u "i") text) in
  let text := replace (u "Ğ") (u "G") (replace (u "ğ") (u "g") text) in
  let text := replace (u "Ü") (u "U") (replace (u "ü") (u "u") text) in
  let text := replace (u "Ş") (u "S") (replace (u "ş") (u "s") text) in
  let text := replace (u "Ö") (u "O") (replace (u "ö") (u "o") text) in
  replace (u "Ç") (u "C") (replace (u "ç") (u "c") text).

Definition is_valid_region (line : str) : bool :=
  let normalized := normalize_text line in
  existsb (fun pattern => matched (re_search pattern normalized))
    REGION_PATTERNS.

(** [-?\d+\.?\d*] *)
Definition number_re : regex :=
  seq_ [opt (Chr (lit 45)); plus d; opt (Chr (lit 46)); star d].

(** The function is annotated [Optional[float]] and guards its [float]
    call with [try]/[except]; the embedding keeps both. *)
Definition extract_number (text : str) (allow_negative : bool)
  : io (option float) :=
  if eqb text []
     || existsb (eqb (strip text)) [u "KURU"; u "-----"; []]
  then mret (Some zero)
  else
    let text := replace (u ",") (u ".") text in
    let numbers := findall number_re text in
    match numbers with
    | n :: _ =>
        catch
          (value ← lift ValueError (float_of_str n);
           if negb allow_negative && lt_zero value then mret (Some zero)
           else mret (Some value))
          (fun _ => mret (Some zero))
    | [] => mret (Some zero)
    end.

(** [([A-Z]\d{2}[A-Z]\d{3})\s+(.+)] *)
Definition station_re : regex :=
  seq_ [Grp 1 (seq_ [Chr (set_ [IRange 65 90]); times 2 d;
                     Chr (set_ [IRange 65 90]); times 3 d]);
        plus s_; Grp 2 (plus any)].

Fixpoint extract_station_info (lines : list str) : option record :=
  match lines with
  | [] => None
  | line :: lines' =>
      let line := strip line in
      if eqb line [] then extract_station_info lines'
      else
        match re_match station_re line with
        | Some m =>
            let station_code := default [] (group 1 m) in
            let station_name := strip (default [] (group 2 m)) in
            Some {[ "station_code" := VStr station_code;
                    "station_name" := VStr station_name ]}
        | None => extract_station_info lines'
        end
  end.

(** [YA[ĞG]I[ŞS]\s*ALANI\s*:\s*([\d,\.]+)\s*km] and
    [YAKLA[ŞS]IK\s*KOT\s*:\s*([\d,\.]+)\s*m], with [re.IGNORECASE] *)
Definition num_set : char -> bool :=
  set_i [ICat isdecimal; IChr 44; IChr 46].

Definition catchment_re : regex :=
  seq_ [str_i (u "YA"); Chr (set_i [IChr 286; IChr 71]); Chr (lit_i 73);
        Chr (set_i [IChr 350; IChr 83]); star s_; str_i (u "ALANI"); star s_;
        Chr (lit_i 58); star s_; Grp 1 (plus (Chr num_set)); star s_;
        str_i (u "km")].

Definition elevation_re : regex :=
  seq_ [str_i (u "YAKLA"); Chr (set_i [IChr 350; IChr 83]); str_i (u "IK");
        star s_; str_i (u "KOT"); star s_; Chr (lit_i 58); star s_;
        Grp 1 (plus (Chr num_set)); star s_; str_i (u "m")].

(** [float(m.group(1).replace(",", "."))] where [m] may be missing. *)
Definition float_group (m : option mobj) : io (option float) :=
  match m with
  | Some m =>
      x ← lift ValueError
            (float_of_str (replace (u ",") (u ".") (default [] (group 1 m))));
      mret (Some x)
  | None => mret None
  end.

Fixpoint extract_catchment_info (lines : list str)
  : io (option float * option float) :=
  match lines with
  | [] => mret (None, None)
  | line :: lines' =>
      if contains (u "YAĞIŞ ALANI") line || contains (u "YAGIS ALANI") line
      then
        catchment ← float_group (re_search catchment_re line);
        elevation ← float_group (re_search elevation_re line);
        mret (catchment, elevation)
      else extract_catchment_info lines'
  end.

(** [GÖZLEM\s*SÜRESİ\s*:\s*(.+)] with [re.IGNORECASE] *)
Definition period_re : regex :=
  seq_ [str_i (u "GÖZLEM"); star s_; str_i (u "SÜRESİ"); star s_;
        Chr (lit_i 58); star s_; Grp 1 (plus any)].

Fixpoint extract_observation_period (lines : list str) : option str :=
  match lines with
  | [] => None
  | line :: lines' =>
      if contains (u "GÖZLEM SÜRESİ") line || contains (u "GOZLEM SURESI") line
      then
        match re_search period_re line with
        | Some m => Some (strip (default [] (group 1 m)))
        | None => extract_observation_period lines'
        end
      else extract_observation_period lines'
  end.

(** [Su\s*y[iİl]+[ıI]+nda\s+([\d,\.]+)\s*m3/?sn] with [re.IGNORECASE] *)
Definition flow_re : regex :=
  seq_ [str_i (u "Su"); star s_; str_i (u "y");
        plus (Chr (set_i [IChr 105; IChr 304; IChr 108]));
        plus (Chr (set_i [IChr 305; IChr 73])); str_i (u "nda"); plus s_;
        Grp 1 (plus (Chr num_set)); star s_; str_i (u "m3");
        opt (Chr (lit_i 47)); str_i (u "sn")].

Fixpoint extract_avg_annual_flow (lines : list str) : io (option float) :=
  match lines with
  | [] => mret None
  | line :: lines' =>
      if contains (u "ORTALAMA AKIMLAR") line
         || contains (u "ORTALAMA AKIMLAR") line
      then
        match re_search flow_re line with
        | Some m => float_group (Some m)
        | None => extract_avg_annual_flow lines'
        end
      else extract_avg_annual_flow lines'
  end.

Definition month_short : list string :=
  ["oct"; "nov"; "dec"; "jan"; "feb"; "mar"; "apr"; "may"; "jun"; "jul"; "aug";
   "sep"]%string.

Definition labels : list str :=
  map u ["Maks."; "Min."; "Ortalama"; "LT/SN/Km2"; "AKIM mm."; "MİL. M3"].

Definition suffixes : list string :=
  ["max_flow_m3s"; "min_flow_m3s"; "avg_flow_m3s"; "lt_sn_km2"; "mm";
   "mil_m3"]%string.

(** [labels.index(label)] *)
Fixpoint index_of (label : str) (l : list str) : nat :=
  match l with
  | [] => O
  | x :: l' => if eqb x label then O else S (index_of label l')
  end.

Definition field_name (month suffix : string) : string :=
  String.append month (String.append "_" suffix).

Definition of_option (o : option float) : val :=
  match o with
  | Some x => VFloat x
  | None => VNone
  end.

(** The state of the loop of [extract_monthly_data]. *)
Record monthly_state := MonthlyState {
  monthly_data : record;
  current_label : option str;
  current_values : list val
}.

(** The block under [if current_label and current_values]: the values of
    the label are laid out over the months, from October on, and the
    months left over get [0.0]. *)
Definition save_label (st : monthly_state) : record :=
  match current_label st, current_values st with
  | Some label, _ :: _ =>
      let suffix := nth (index_of label labels) suffixes ""%string in
      fold_left
        (fun data im =>
           <[field_name (snd im) suffix :=
               nth (fst im) (current_values st) (VFloat zero)]> data)
        (combine (seq 0 (length month_short)) month_short)
        (monthly_data st)
  | _, _ => monthly_data st
  end.

(** [[\d,\.]+] *)
Definition numbers_re : regex :=
  plus (Chr (set_ [ICat isdecimal; IChr 44; IChr 46])).

(** [line.startswith(label) or
     re.match(rf"^{re.escape(label)}\s+", line, re.IGNORECASE)] *)
Definition starts_with_label (line label : str) : bool :=
  startswith label line
  || matched (re_match (seq_ [Bol; str_i label; plus s_]) line).

Definition numbers_of (text : str) : io (list val) :=
  mapM (fun n => x ← extract_number n false; mret (of_option x))
    (findall numbers_re text).

Definition monthly_step (st : monthly_state) (line : str)
  : io monthly_state :=
  let line := strip line in
  if eqb line [] then mret st
  else
    match find (starts_with_label line) labels with
    | Some label =>
        let data := save_label st in
        let rest_of_line := strip (skipn (length label) line) in
        values ← numbers_of rest_of_line;
        mret (MonthlyState data (Some label) values)
    | None =>
        match current_label st with
        | Some _ =>
            values ← numbers_of line;
            mret (MonthlyState (monthly_data st) (current_label st)
                    (current_values st ++ values))
        | None => mret st
        end
    end.

Definition extract_monthly_data (lines : list str) : io record :=
  st ← foldM monthly_step (MonthlyState ∅ None []) lines;
  mret (save_label st).

(** [YILLIK\s*TOPLAM\s*AKIM\s*([\d,\.]+)\s*MİLYON\s*M3], [([\d,\.]+)\s*MM\.]
    and [([\d,\.]+)\s*LT/?SN?/?Km2], with [re.IGNORECASE] *)
Definition total_flow_re : regex :=
  seq_ [str_i (u "YILLIK"); star s_; str_i (u "TOPLAM"); star s_;
        str_i (u "AKIM"); star s_; Grp 1 (plus (Chr num_set)); star s_;
        str_i (u "MİLYON"); star s_; str_i (u "M3")].

Definition mm_re : regex :=
  seq_ [Grp 1 (plus (Chr num_set)); star s_; str_i (u "MM.")].

Definition lt_sn_km2_re : regex :=
  seq_ [Grp 1 (plus (Chr num_set)); star s_; str_i (u "LT");
        opt (Chr (lit_i 47)); str_i (u "S"); opt (Chr (lit_i 78));
        opt (Chr (lit_i 47)); str_i (u "Km2")].

Fixpoint extract_annual_totals (lines : list str)
  : io (option float * option float * option float) :=
  match lines with
  | [] => mret (None, None, None)
  | line :: lines' =>
      if contains (u "SU YILI") line && contains (u "YILLIK TOPLAM AKIM") line
      then
        total_flow ← float_group (re_search total_flow_re line);
        mm ← float_group (re_search mm_re line);
        lt_sn_km2 ← float_group (re_search lt_sn_km2_re line);
        mret (total_flow, mm, lt_sn_km2)
      else extract_annual_totals lines'
  end.

(** [[line.strip() for line in page_text.split('\n') if line.strip()]] *)
Definition page_lines (page_text : str) : list str :=
  map strip
    (List.filter (fun line => negb (eqb (strip line) [])) (split_on 10 page_text)).

(** [\d+\.\s*(.+)] *)
Definition region_name_re : regex :=
  seq_ [plus d; Chr (lit 46); star s_; Grp 1 (plus any)].

(** [lines[1:5]] *)
Definition next_lines (lines : list str) : list str :=
  firstn 4 (skipn 1 lines).

Definition str_field (r : record) (key : string) : str :=
  match r !! key with
  | Some (VStr s) => s
  | _ => []
  end.

Definition parse_station_page (page_text : str) (page_num : Z)
  (filename year : str) : io (option record) :=
  let lines := page_lines page_text in
  match lines with
  | [] => mret None
  | first :: _ =>
      if negb (is_valid_region first) then mret None
      else
        let region_name :=
          match re_match region_name_re first with
          | Some m => strip (default [] (group 1 m))
          | None => first
          end in
        match extract_station_info (next_lines lines) with
        | None => mret None
        | Some station_info =>
            let station_code := str_field station_info "station_code" in
            let station_name := str_field station_info "station_name" in
            if negb (bool_decide (station_code ∈ ALLOWED_STATIONS)) then
              emit (Print
                "  Page {page_num}: Station {station_code} not in allowed list - SKIPPED"
                [VInt page_num; VStr station_code]);;
              mret None
            else
              ce ← extract_catchment_info lines;
              let observation_period := extract_observation_period lines in
              avg_annual_flow ← extract_avg_annual_flow lines;
              monthly ← extract_monthly_data lines;
              totals ← extract_annual_totals lines;
              let '(annual_total_flow, annual_mm, annual_lt_sn_km2) := totals in
              mret (Some
                (monthly ∪
                 ({[ "file" := VStr filename;
                     "page" := VInt page_num;
                     "region_name" := VStr region_name;
                     "year" := VStr year;
                     "station_code" := VStr station_code;
                     "station_name" := VStr station_name;
                     "catchment_area_km2" := of_option (fst ce);
                     "estimated_elevation_m" := of_option (snd ce);
                     "observation_period" :=
                       match observation_period with
                       | Some s => VStr s
                       | None => VNone
                       end;
                     "avg_annual_flow_m3s" := of_option avg_annual_flow;
                     "annual_total_flow_m3" := of_option annual_total_flow;
                     "annual_mm" := of_option annual_mm;
                     "annual_lt_sn_km2" := of_option annual_lt_sn_km2 ]}
                  : record)))
        end
  end.

(** [(\d{4})\.pdf$] *)
Definition year_re : regex :=
  seq_ [Grp 1 (times 4 d); str_ (u ".pdf"); Eol].

(** The loop over the pages in [process_pdf]. *)
Fixpoint process_pages (pdf_path year : str) (page_num : Z)
  (pages : list str) : io (list record) :=
  match pages with
  | [] => mret []
  | text :: pages' =>
      let lines := page_lines text in
      found ←
        match lines with
        | [] =>
            emit (Print "Page {page_num + 1}: Empty page - SKIPPED"
                    [VInt (page_num + 1)]);;
            mret []
        | first :: _ =>
            if negb (is_valid_region first) then
              emit (Print
                "Page {page_num + 1}: Region '{lines[0][:50]}...' not valid - SKIPPED"
                [VInt (page_num + 1); VStr (firstn 50 first)]);;
              mret []
            else
              result ← parse_station_page text (page_num + 1) pdf_path year;
              match result with
              | Some result =>
                  emit (Print
                    "Page {page_num + 1}: Station {result['station_code']} - EXTRACTED"
                    [VInt (page_num + 1);
                     VStr (str_field result "station_code")]);;
                  mret [result]
              | None =>
                  emit (Print
                    "Page {page_num + 1}: Valid region but could not extract station data - SKIPPED"
                    [VInt (page_num + 1)]);;
                  mret []
              end
        end;
      more ← process_pages pdf_path year (page_num + 1) pages';
      mret (found ++ more)
  end.

(** [pdf] is what [fitz.open(pdf_path)] finds: nothing, and the call
    raises, or the text of the pages. *)
Definition process_pdf (pdf_path output_csv : str) (pdf : option (list str))
  : io (list record) :=
  emit (Print "Opening PDF: {pdf_path}" [VStr pdf_path]);;
  doc ← lift FileNotFound pdf;
  let year :=
    match re_search year_re pdf_path with
    | Some m => default [] (group 1 m)
    | None => u "2020"
    end in
  emit (Print "Processing {total_pages} pages..."
          [VInt (Z.of_nat (length doc))]);;
  all_results ← process_pages pdf_path year 0 doc;
  match all_results with
  | _ :: _ =>
      emit (DataFrameToCsv output_csv all_results);;
      emit (Print "\nExtracted {len(all_results)} stations"
              [VInt (Z.of_nat (length all_results))]);;
      emit (Print "Saved to: {output_csv}" [VStr output_csv])
  | [] => emit (Print "\nNo data extracted!" [])
  end;;
  mret all_results.

(** [main]: any exception of [process_pdf] ends the run with status 1. *)
Definition main (pdf_path output : str) (pdf : option (list str)) : io unit :=
  catch (process_pdf pdf_path output pdf;; mret tt)
    (fun e => emit (Print "Error: {e}" []);; emit (SysExit 1)).

End NewPdfReader2020.

(** ** dsi_final_structured_extractor.py *)

Module DsiFinalStructuredExtractor.
Import Py Re.

(** The attributes of a [DSIFinalExtractor]. *)
Record DSIFinalExtractor := {
  pdf_directory : str;
  output_file : str;
  target_stations : gset str;
  months : list string;
  metrics : list string;
  metric_keywords : list (string * list str)
}.

Definition month_metric_key (month metric : string) : string :=
  String.append month (String.append "_" (String.append metric "_m3")).

(** The column names behind the eleven leading ones: metric first, then
    month. *)
Definition monthly_keys (self : DSIFinalExtractor) : list string :=
  flat_map (fun metric => map (fun month => month_metric_key month metric)
                            (months self))
    (metrics self).

Definition _initialize_csv (self : DSIFinalExtractor) : io unit :=
  let headers :=
    (["file"; "page"; "year"; "station_code"; "station_name"; "coordinates";
      "catchment_area_km2"; "annual_avg_flow_m3s"; "annual_total_m3";
      "mm_total"; "avg_ltsnkm2"]%string) ++ monthly_keys self in
  emit (CsvCreate (output_file self) headers);;
  emit (Log INFO "[OK] Initialized CSV file: {self.output_file}"
          [VStr (output_file self)]);;
  emit (Log INFO
          "Total columns: {len(headers)} (11 metadata + {len(self.metrics) * len(self.months)} monthly)"
          [VInt (Z.of_nat (length headers));
           VInt (Z.of_nat (length (metrics self) * length (months self)))]).

(** The attributes that [__init__] sets. *)
Definition new_self (pdf_directory output_file : str) : DSIFinalExtractor := {|
  pdf_directory := pdf_directory;
  output_file := output_file;
  target_stations :=
    list_to_set (map u
      ["D14A011"; "D14A117"; "D14A144"; "D14A146"; "D14A149"; "D14A162";
       "D14A172"; "D14A192"; "D14A018"; "D22A093"; "D22A095"; "D22A105";
       "D22A106"; "D22A158"; "E22A054"; "D22A116"; "E22A065"]);
  months := ["oct"; "nov"; "dec"; "jan"; "feb"; "mar"; "apr"; "may"; "jun";
             "jul"; "aug"; "sep"]%string;
  metrics := ["flow_max"; "flow_min"; "flow_avg"; "ltsnkm2"; "akim_mm";
              "milm3"]%string;
  metric_keywords :=
    [("flow_max", [u "Maks."; u "MAKS."]);
     ("flow_min", [u "Min."; u "MIN."]);
     ("flow_avg", [u "Ortalama"; u "ORTALAMA"]);
     ("ltsnkm2", [u "LT/SN/Km2"; u "LT/SN/KM2"]);
     ("akim_mm", [u "AKIM mm."; u "AKIM MM."]);
     ("milm3", [u "MİL. M3"; u "MIL. M3"])]%string
|}.

(** [__init__] *)
Definition init (pdf_directory output_file : str) : io DSIFinalExtractor :=
  let self := new_self pdf_directory output_file in
  _initialize_csv self;;
  mret self.

(** [[\d.]+] *)
Definition digits_dots_re : regex :=
  plus (Chr (set_ [ICat isdecimal; IChr 46])).

Definition _normalize_number (text : str) : option float :=
  if eqb text [] || eqb (strip text) [] then None
  else
    let text := replace (u " ") [] (replace (u ",") (u ".") (strip text)) in
    match findall digits_dots_re text with
    | n :: _ => float_of_str n
    | [] => None
    end.

(** [[A-Z]\d{2}[A-Z]\d{3}] *)
Definition code_re : regex :=
  seq_ [Chr (set_ [IRange 65 90]); times 2 d; Chr (set_ [IRange 65 90]);
        times 3 d].

Definition _extract_station_code (text : str) : option str :=
  match findall code_re text with
  | c :: _ => Some c
  | [] => None
  end.

(** Degrees, minutes and seconds ([\d+], the degree sign, [\d+], an
    apostrophe, [\d+], a double quote), then [\s*(?:Doğu|Kuzey|DOĞU|KUZEY)],
    with [re.IGNORECASE] *)
Definition coordinates_re : regex :=
  seq_ [plus d; Chr (lit_i 176); plus d; Chr (lit_i 39); plus d;
        Chr (lit_i 34); star s_;
        Alt (str_i (u "Doğu"))
          (Alt (str_i (u "Kuzey")) (Alt (str_i (u "DOĞU")) (str_i (u "KUZEY"))))].

Definition _extract_coordinates (text : str) : option str :=
  let matches := findall coordinates_re text in
  if (2 <=? length matches)%nat then Some (join (u " ") (firstn 2 matches))
  else None.

Definition _extract_catchment_area (text : str) : option float :=
  if contains (u "YAĞIŞ ALANI") text || contains (u "YAĞIS ALANI") text
  then _normalize_number text
  else None.

(** [rf'{year}\s*Su\s*yılında.*?(\d+[.,]\d+)\s*m3/sn'] with
    [re.IGNORECASE] *)
Definition year_flow_re (year : N) : regex :=
  seq_ [str_i (str_of_N year); star s_; str_i (u "Su"); star s_;
        str_i (u "yılında"); lazy_star any;
        Grp 1 (seq_ [plus d; Chr (set_i [IChr 46; IChr 44]); plus d]);
        star s_; str_i (u "m3/sn")].

Definition _extract_annual_avg_flow (text : str) (year : N) : option float :=
  match findall1 (year_flow_re year) text with
  | m :: _ => _normalize_number m
  | [] => None
  end.

Definition of_option (o : option float) : val :=
  match o with
  | Some x => VFloat x
  | None => VNone
  end.

(** [[\d.,]+] *)
Definition numbers_re : regex :=
  plus (Chr (set_ [ICat isdecimal; IChr 46; IChr 44])).

(** One turn of the loop over the lines in
    [_extract_monthly_data_structured]. *)
Definition monthly_line (self : DSIFinalExtractor)
  (monthly_data : gmap string (gmap string val)) (line : str)
  : io (gmap string (gmap string val)) :=
  match
    find (fun mk => existsb (fun keyword => contains keyword line) (snd mk))
      (metric_keywords self)
  with
  | None => mret monthly_data
  | Some (current_metric, _) =>
      emit (Log INFO "Processing {current_metric} line: {line[:100]}..."
              [VStr (firstn 100 line)]);;
      let numbers := findall numbers_re line in
      if (12 <=? length numbers)%nat then
        emit (Log INFO "Found {len(numbers)} values for {current_metric}"
                [VInt (Z.of_nat (length numbers))]);;
        foldM
          (fun monthly_data jm =>
             let '(j, month) := jm in
             match numbers !! j with
             | Some n =>
                 let value := _normalize_number n in
                 let data :=
                   <[month := <[current_metric := of_option value]>
                                (default ∅ (monthly_data !! month))]>
                     monthly_data in
                 match value with
                 | Some x =>
                     emit (Log DEBUG "  {month}: {value}" [VFloat x]);;
                     mret data
                 | None => mret data
                 end
             | None => mret monthly_data
             end)
          monthly_data
          (combine (seq 0 (length (months self))) (months self))
      else
        emit (Log WARNING
                "Only found {len(numbers)} values for {current_metric}, expected 12"
                [VInt (Z.of_nat (length numbers))]);;
        mret monthly_data
  end.

Definition _extract_monthly_data_structured (self : DSIFinalExtractor)
  (text : str) : io (gmap string (gmap string val)) :=
  foldM (monthly_line self) ∅ (split_on 10 text).

(** [SU\s*YILI.*?YILLIK\s*TOPLAM\s*AKIM.*?(\d+[.,]\d+)\s*MİLYON\s*M3] with
    [re.IGNORECASE]; a captured [\d+[.,]?\d*] followed by [\s*MM\.], and one
    followed by [\s*LT/SN/Km2], without the flag *)
Definition annual_re : regex :=
  seq_ [str_i (u "SU"); star s_; str_i (u "YILI"); lazy_star any;
        str_i (u "YILLIK"); star s_; str_i (u "TOPLAM"); star s_;
        str_i (u "AKIM"); lazy_star any;
        Grp 1 (seq_ [plus d; Chr (set_i [IChr 46; IChr 44]); plus d]);
        star s_; str_i (u "MİLYON"); star s_; str_i (u "M3")].

Definition mm_re : regex :=
  seq_ [Grp 1 (seq_ [plus d; opt (Chr (set_ [IChr 46; IChr 44])); star d]);
        star s_; str_ (u "MM.")].

Definition ltsnkm2_re : regex :=
  seq_ [Grp 1 (seq_ [plus d; opt (Chr (set_ [IChr 46; IChr 44])); star d]);
        star s_; str_ (u "LT/SN/Km2")].

Definition _extract_annual_totals (text : str)
  : option float * option float * option float :=
  let annual_total :=
    match findall1 annual_re text with
    | m :: _ => _normalize_number m
    | [] => None
    end in
  let mm_total :=
    match last (findall1 mm_re text) with
    | Some m => _normalize_number m
    | None => None
    end in
  let avg_ltsnkm2 :=
    match last (findall1 ltsnkm2_re text) with
    | Some m => _normalize_number m
    | None => None
    end in
  (annual_total, mm_total, avg_ltsnkm2).

(** [range(0, min(20, len(lines)), 2)] *)
Definition rows_to_check (lines : list str) : list nat :=
  List.filter Nat.even (seq 0 (Nat.min 20 (length lines))).

(** The loop that looks for the station: the first checked row whose
    first code-like token is a target station ends it.  The name is what
    is left of the row without the code, if anything is. *)
Fixpoint find_station (self : DSIFinalExtractor) (lines : list str)
  (rows : list nat) : option (str * option str) :=
  match rows with
  | [] => None
  | i :: rows' =>
      let line := default [] (lines !! i) in
      match _extract_station_code line with
      | Some code =>
          if negb (eqb code []) && bool_decide (code ∈ target_stations self)
          then
            let name_part := strip (replace code [] line) in
            Some (code, if eqb name_part [] then None else Some name_part)
          else find_station self lines rows'
      | None => find_station self lines rows'
      end
  end.

(** [not x] for an optional string and for an optional float. *)
Definition not_str (o : option str) : bool :=
  match o with
  | Some (_ :: _) => false
  | _ => true
  end.

Definition not_float (o : option float) : bool :=
  match o with
  | Some x => negb (truthy x)
  | None => true
  end.

(** One turn of the loop [for line in lines] over the three header
    fields. *)
Definition header_step (year : N)
  (st : option str * option float * option float) (line : str)
  : option str * option float * option float :=
  let '(coordinates, catchment_area, annual_avg_flow) := st in
  let coordinates :=
    if not_str coordinates then _extract_coordinates line else coordinates in
  let catchment_area :=
    if not_float catchment_area then _extract_catchment_area line
    else catchment_area in
  let annual_avg_flow :=
    if not_float annual_avg_flow then _extract_annual_avg_flow line year
    else annual_avg_flow in
  (coordinates, catchment_area, annual_avg_flow).

Definition monthly_value (monthly_data : gmap string (gmap string val))
  (month metric : string) : option val :=
  monthly_data !! month ≫= (fun inner => inner !! metric).

Definition _extract_station_data_structured (self : DSIFinalExtractor)
  (page_text : str) (page_num : Z) (filename : str) (year : N)
  : io (option record) :=
  let lines := split_on 10 page_text in
  match find_station self lines (rows_to_check lines) with
  | None => mret None
  | Some (station_code, station_name) =>
      emit (Log INFO "[OK] Found station {station_code} on page {page_num}"
              [VStr station_code; VInt page_num]);;
      let '(coordinates, catchment_area, annual_avg_flow) :=
        fold_left (header_step year) lines (None, None, None) in
      monthly_data ← _extract_monthly_data_structured self page_text;
      let '(annual_total, mm_total, avg_ltsnkm2) :=
        _extract_annual_totals page_text in
      let result : record :=
        {[ "file" := VStr filename;
           "page" := VInt page_num;
           "year" := VInt (Z.of_N year);
           "station_code" := VStr station_code;
           "station_name" := VStr (default (u "N/A") station_name);
           "coordinates" :=
             VStr (if not_str coordinates then u "N/A"
                   else default [] coordinates);
           "catchment_area_km2" := of_option catchment_area;
           "annual_avg_flow_m3s" := of_option annual_avg_flow;
           "annual_total_m3" := of_option annual_total;
           "mm_total" := of_option mm_total;
           "avg_ltsnkm2" := of_option avg_ltsnkm2 ]} in
      let cells :=
        flat_map (fun metric => map (fun month => (month, metric))
                                  (months self))
          (metrics self) in
      let result :=
        fold_left
          (fun result mm =>
             <[month_metric_key (fst mm) (snd mm) :=
                 default VNone (monthly_value monthly_data (fst mm) (snd mm))]>
               result)
          cells result in
      let extracted_values :=
        length (List.filter (fun mm =>
                          match monthly_value monthly_data (fst mm) (snd mm) with
                          | Some VNone | None => false
                          | Some _ => true
                          end) cells) in
      let total_expected := (length (metrics self) * length (months self))%nat in
      emit (Log INFO
              "✅ Extracted {station_code} ({year}): {extracted_values}/{total_expected} values"
              [VStr station_code; VInt (Z.of_N year);
               VInt (Z.of_nat extracted_values);
               VInt (Z.of_nat total_expected)]);;
      (if (2 * extracted_values <? total_expected)%nat then
         emit (Log WARNING
                 "⚠️ {station_code} ({year}): Only {extracted_values}/{total_expected} values extracted - checking for issues"
                 [VStr station_code; VInt (Z.of_N year);
                  VInt (Z.of_nat extracted_values);
                  VInt (Z.of_nat total_expected)]);;
         emit (Log DEBUG "Raw page text: {page_text[:500]}..."
                 [VStr (firstn 500 page_text)])
       else mret tt);;
      mret (Some result)
  end.

(** [(\d{4})] *)
Definition year_re : regex := Grp 1 (times 4 d).

(** The year in a file name, [int(year_match.group(1))]. *)
Definition year_of (filename : str) : option N :=
  match re_search year_re filename with
  | Some m => Some (int_of_digits (default [] (group 1 m)))
  | None => None
  end.

(** The loop over the pages of one PDF; it also counts the pages that
    gave a station and those that did not. *)
Fixpoint process_pages (self : DSIFinalExtractor) (filename : str) (year : N)
  (page_num : Z) (pages : list str) : io (list record * (nat * nat)) :=
  match pages with
  | [] => mret ([], (O, O))
  | page_text :: pages' =>
      station_data ← _extract_station_data_structured self page_text
                       (page_num + 1) filename year;
      more ← process_pages self filename year (page_num + 1) pages';
      let '(results, (pages_processed, pages_skipped)) := more in
      match station_data with
      | Some r => mret (r :: results, (S pages_processed, pages_skipped))
      | None => mret (results, (pages_processed, S pages_skipped))
      end
  end.

(** [filename] is the base name of the path; [pdf] is what [fitz.open]
    finds there: nothing it can open, and the call raises, or the text of
    the pages. *)
Definition _process_pdf_structured (self : DSIFinalExtractor)
  (filename : str) (pdf : option (list str)) : io (list record) :=
  match year_of filename with
  | None =>
      emit (Log WARNING "Could not extract year from filename: {filename}"
              [VStr filename]);;
      mret []
  | Some year =>
      catch
        (doc ← lift FileNotFound pdf;
         emit (Log INFO "Processing {filename} ({len(doc)} pages)"
                 [VStr filename; VInt (Z.of_nat (length doc))]);;
         res ← process_pages self filename year 0 doc;
         let '(results, (pages_processed, pages_skipped)) := res in
         emit (Log INFO
                 "📁 {filename}: {pages_processed} stations extracted, {pages_skipped} pages skipped"
                 [VStr filename; VInt (Z.of_nat pages_processed);
                  VInt (Z.of_nat pages_skipped)]);;
         mret results)
        (fun e =>
           emit (Log ERROR "Error processing {pdf_path}: {str(e)}"
                   [VStr filename]);;
           mret [])
  end.

Definition _append_to_csv (self : DSIFinalExtractor) (data : record)
  : io unit :=
  let get key := default VNone (data !! key) in
  let row :=
    map get ["file"; "page"; "year"; "station_code"; "station_name";
             "coordinates"; "catchment_area_km2"; "annual_avg_flow_m3s";
             "annual_total_m3"; "mm_total"; "avg_ltsnkm2"]%string
    ++ map get (monthly_keys self) in
  emit (CsvAppend (output_file self) row).

Definition str_field (r : record) (key : string) : str :=
  match r !! key with
  | Some (VStr s) => s
  | _ => []
  end.

(** The loop over the results of one PDF, with the set of the
    (station, year) pairs written so far. *)
Definition append_result (self : DSIFinalExtractor) (year : N)
  (st : gset (str * N) * nat) (result : record) : io (gset (str * N) * nat) :=
  let '(processed_stations, total_extracted) := st in
  let station_year_key := (str_field result "station_code", year) in
  if bool_decide (station_year_key ∈ processed_stations) then
    emit (Log WARNING "⚠️ {result['station_code']} skipped (duplicate)"
            [VStr (str_field result "station_code")]);;
    mret st
  else
    _append_to_csv self result;;
    mret ({[station_year_key]} ∪ processed_stations, S total_extracted).

Definition process_file (self : DSIFinalExtractor)
  (st : gset (str * N) * nat) (entry : str * option (list str))
  : io (gset (str * N) * nat) :=
  let '(pdf_file, pdf) := entry in
  match year_of pdf_file with
  | None => mret st
  | Some year =>
      results ← _process_pdf_structured self pdf_file pdf;
      foldM (append_result self year) st results
  end.

(** [s.endswith(suffix)] *)
Definition endswith (suffix s : str) : bool := startswith (rev suffix) (rev s).

(** [list.sort()] on strings: by code points. *)
Fixpoint str_le (a b : str) : bool :=
  match a, b with
  | [], _ => true
  | _ :: _, [] => false
  | x :: a', y :: b' => (x <? y) || ((x =? y) && str_le a' b')
  end.

Fixpoint insert_sorted (x : str * option (list str))
  (l : list (str * option (list str))) : list (str * option (list str)) :=
  match l with
  | [] => [x]
  | y :: l' => if str_le (fst x) (fst y) then x :: l else y :: insert_sorted x l'
  end.

Definition sorted_by_name (l : list (str * option (list str)))
  : list (str * option (list str)) :=
  fold_right insert_sorted [] l.

(** [directory] is what is found at [self.pdf_directory]: nothing, or the
    entries of the directory, each a name and what [fitz.open] makes of
    it. *)
Definition process_all_pdfs_structured (self : DSIFinalExtractor)
  (directory : option (list (str * option (list str)))) : io unit :=
  match directory with
  | None =>
      emit (Log ERROR "PDF directory not found: {self.pdf_directory}"
              [VStr (pdf_directory self)])
  | Some entries =>
      let pdf_files :=
        sorted_by_name (List.filter (fun e => endswith (u ".pdf") (fst e)) entries) in
      emit (Log INFO "Found {len(pdf_files)} PDF files"
              [VInt (Z.of_nat (length pdf_files))]);;
      st ← foldM (process_file self) (∅, O) pdf_files;
      emit (Log INFO "[OK] CSV updated: {self.output_file}"
              [VStr (output_file self)]);;
      emit (Log INFO "Total stations extracted: {total_extracted}"
              [VInt (Z.of_nat (snd st))])
  end.

Definition main (pdf_directory output_file : str)
  (directory : option (list (str * option (list str)))) : io unit :=
  extractor ← init pdf_directory output_file;
  process_all_pdfs_structured extractor directory.

End DsiFinalStructuredExtractor.

(** ** pdf_flow_extractor.py *)

Module PdfFlowExtractor.
Import Py Re.

(** [([A-Z]\d{2}[A-Z]\d{3})] *)
Definition station_re : regex :=
  Grp 1 (seq_ [Chr (set_ [IRange 65 90]); times 2 d;
               Chr (set_ [IRange 65 90]); times 3 d]).

Definition parse_station_info (line : str) : option str * option str :=
  match re_search station_re line with
  | Some m =>
      let station_code := default [] (group 1 m) in
      let station_name := strip (replace station_code [] line) in
      let station_name := strip (sub (plus s_) (u " ") station_name) in
      (Some station_code, Some station_name)
  | None => (None, None)
  end.

Definition TARGET_STATIONS : list str :=
  map u
    ["E22A065"; "E22A066"; "D22A093"; "E22A071"; "D14A185"; "E22A054"; "E22A063";
     "E14A018"; "D14A162"; "D14A186"; "D22A105"; "E22A053"; "D14A172"; "D14A117";
     "E14A027"; "D22A106"; "D14A200"; "E14A002"; "D14A179"; "D22A098"; "D22A159";
     "D14A064"; "E14A038"; "D14A201"; "D14A184"; "D14A211"; "D14A208"; "D14A214";
     "D14A207"; "D14A141"; "E22A062"; "E14A040"; "D14A215"; "D14A176"; "D14A011";
     "D14A188"; "D14A081"].

Definition MONTHS : list string :=
  ["oct"; "nov"; "dec"; "jan"; "feb"; "mar"; "apr"; "may"; "jun"; "jul"; "aug";
   "sep"]%string.

(** [14\.\s*Yesilirmak\s*Havzasi], [22\.\s*Dogu\s*Karadeniz\s*Havzasi],
    [14\s*-\s*YEŞİLIRMAK\s*HAVZASI] and
    [22\s*-\s*MÜTEFERRİK\s*DOĞU\s*KARADENİZ\s*SULARI], used with
    [re.IGNORECASE] *)
Definition REGION_PATTERNS : list regex :=
  [seq_ [str_i (u "14."); star s_; str_i (u "Yesilirmak"); star s_;
         str_i (u "Havzasi")];
   seq_ [str_i (u "22."); star s_; str_i (u "Dogu"); star s_;
         str_i (u "Karadeniz"); star s_; str_i (u "Havzasi")];
   seq_ [str_i (u "14"); star s_; str_i (u "-"); star s_;
         str_i (u "YEŞİLIRMAK"); star s_; str_i (u "HAVZASI")];
   seq_ [str_i (u "22"); star s_; str_i (u "-"); star s_;
         str_i (u "MÜTEFERRİK"); star s_; str_i (u "DOĞU"); star s_;
         str_i (u "KARADENİZ"); star s_; str_i (u "SULARI")]].

Definition check_region_match (line : str) : bool :=
  existsb (fun pattern => matched (re_search pattern line)) REGION_PATTERNS.

(** [[0-9,]+(?:\.[0-9]+)?], inside a pattern used with [re.IGNORECASE]
    and inside one used without. *)
Definition number_i : regex :=
  seq_ [plus (Chr (set_i [IRange 48 57; IChr 44]));
        opt (seq_ [Chr (lit_i 46); plus (Chr (set_i [IRange 48 57]))])].

Definition number : regex :=
  seq_ [plus (Chr (set_ [IRange 48 57; IChr 44]));
        opt (seq_ [Chr (lit 46); plus (Chr (set_ [IRange 48 57]))])].

(** [float(s.replace(',', '.'))] *)
Definition to_float (s : str) : io float :=
  lift ValueError (float_of_str (replace (u ",") (u ".") s)).

(** [YAĞIŞ\s*ALANI\s*:\s*([0-9,]+(?:\.[0-9]+)?)] and
    [YAKLAŞIK\s*KOT\s*:\s*([0-9,]+(?:\.[0-9]+)?)\s*m], with
    [re.IGNORECASE] *)
Definition catchment_re : regex :=
  seq_ [str_i (u "YAĞIŞ"); star s_; str_i (u "ALANI"); star s_;
        Chr (lit_i 58); star s_; Grp 1 number_i].

Definition elevation_re : regex :=
  seq_ [str_i (u "YAKLAŞIK"); star s_; str_i (u "KOT"); star s_;
        Chr (lit_i 58); star s_; Grp 1 number_i; star s_; Chr (lit_i 109)].

Definition float_group (m : option mobj) : io (option float) :=
  match m with
  | Some m => x ← to_float (default [] (group 1 m)); mret (Some x)
  | None => mret None
  end.

Definition extract_catchment_and_elevation (line : str)
  : io (option float * option float) :=
  catchment_area ← float_group (re_search catchment_re line);
  elevation ← float_group (re_search elevation_re line);
  mret (catchment_area, elevation).

(** [GÖZLEM\s*SÜRESİ\s*:\s*(.+?)(?:\s*(?:ORTALAMA|Gözlem))] with
    [re.IGNORECASE] *)
Definition period_re : regex :=
  seq_ [str_i (u "GÖZLEM"); star s_; str_i (u "SÜRESİ"); star s_;
        Chr (lit_i 58); star s_; Grp 1 (Rep false 1 None any); star s_;
        Alt (str_i (u "ORTALAMA")) (str_i (u "Gözlem"))].

Definition extract_observation_period (line : str) : option str :=
  match re_search period_re line with
  | Some m => Some (strip (default [] (group 1 m)))
  | None => None
  end.

(** [rf'{year}\s*Su\s*yılında\s*([0-9,]+(?:\.[0-9]+)?)\s*m3/sn'] with
    [re.IGNORECASE] *)
Definition annual_flow_re (year : N) : regex :=
  seq_ [str_i (str_of_N year); star s_; str_i (u "Su"); star s_;
        str_i (u "yılında"); star s_; Grp 1 number_i; star s_;
        str_i (u "m3/sn")].

Definition extract_annual_flow (line : str) (year : N) : io (option float) :=
  float_group (re_search (annual_flow_re year) line).

(** [re.findall(r'([0-9,]+(?:\.[0-9]+)?)', line)] *)
Definition numbers_of (line : str) : list str := findall1 (Grp 1 number) line.

(** The first twelve numbers of the line, [0.0] for one that [float]
    refuses, and [None] for what is missing up to twelve. *)
Definition extract_monthly_values (line : str) : list (option float) :=
  let numbers := numbers_of line in
  let values :=
    map (fun num_str =>
           match float_of_str (replace (u ",") (u ".") num_str) with
           | Some value => Some value
           | None => Some zero
           end)
      (firstn 12 numbers) in
  firstn 12 (values ++ repeat None (12 - length values)).

Definition extract_annual_summary (line : str)
  : io (option float * option float * option float) :=
  if contains (u "YILLIK TOPLAM AKIM") line then
    match numbers_of line with
    | n0 :: n1 :: n2 :: _ =>
        annual_total_m3 ← to_float n0;
        annual_mm ← to_float n1;
        annual_lt_sn_km2 ← to_float n2;
        mret (Some annual_total_m3, Some annual_mm, Some annual_lt_sn_km2)
    | _ => mret (None, None, None)
    end
  else mret (None, None, None).

(** The loop [for i, line in enumerate(lines)] that looks for the line of
    a station: the first line that holds the code and from which
    [parse_station_info] reads that very code. *)
Fixpoint station_line (station_code : str) (i : nat) (lines : list str)
  : option (nat * option str) :=
  match lines with
  | [] => None
  | line :: lines' =>
      if contains station_code line then
        let '(station_code_found, station_name) := parse_station_info line in
        if bool_decide (station_code_found = Some station_code)
        then Some (i, station_name)
        else station_line station_code (S i) lines'
      else station_line station_code (S i) lines'
  end.

(** One turn of the loop over the fifteen lines from the station's line
    on. *)
Definition header_step (year : N)
  (st : option float * option float * option str * option float)
  (line : str) : io (option float * option float * option str * option float) :=
  let '(catchment_area, elevation, observation_period, annual_flow) := st in
  ce ← (if contains (u "YAĞIŞ ALANI") line && contains (u "YAKLAŞIK KOT") line
        then extract_catchment_and_elevation line
        else mret (catchment_area, elevation));
  let observation_period :=
    if contains (u "GÖZLEM SÜRESİ") line then extract_observation_period line
    else observation_period in
  annual_flow ← (if contains (str_of_N year ++ u " Su yılında") line
                 then extract_annual_flow line year
                 else mret annual_flow);
  mret (fst ce, snd ce, observation_period, annual_flow).

(** The six monthly rows of a page. *)
Record monthly := Monthly {
  monthly_max : list (option float);
  monthly_min : list (option float);
  monthly_avg : list (option float);
  monthly_lt_sn_km2 : list (option float);
  monthly_mm : list (option float);
  monthly_mil_m3 : list (option float)
}.

(** One turn of the loop over the first hundred lines. *)
Definition monthly_step (m : monthly) (line : str) : monthly :=
  if contains (u "Maks.") line then
    Monthly (extract_monthly_values line) (monthly_min m) (monthly_avg m)
      (monthly_lt_sn_km2 m) (monthly_mm m) (monthly_mil_m3 m)
  else if contains (u "Min.") line then
    Monthly (monthly_max m) (extract_monthly_values line) (monthly_avg m)
      (monthly_lt_sn_km2 m) (monthly_mm m) (monthly_mil_m3 m)
  else if contains (u "Ortalama") line && negb (contains (u "Maks.") line)
          && negb (contains (u "Min.") line) then
    Monthly (monthly_max m) (monthly_min m) (extract_monthly_values line)
      (monthly_lt_sn_km2 m) (monthly_mm m) (monthly_mil_m3 m)
  else if contains (u "LT/SN/Km2") line then
    Monthly (monthly_max m) (monthly_min m) (monthly_avg m)
      (extract_monthly_values line) (monthly_mm m) (monthly_mil_m3 m)
  else if contains (u "AKIM mm.") line then
    Monthly (monthly_max m) (monthly_min m) (monthly_avg m)
      (monthly_lt_sn_km2 m) (extract_monthly_values line) (monthly_mil_m3 m)
  else if contains (u "MİL. M3") line then
    Monthly (monthly_max m) (monthly_min m) (monthly_avg m)
      (monthly_lt_sn_km2 m) (monthly_mm m) (extract_monthly_values line)
  else m.

Definition of_option (o : option float) : val :=
  match o with
  | Some x => VFloat x
  | None => VNone
  end.

(** [for i, month in enumerate(MONTHS):
       record[f'{month}_{suffix}'] = values[i] if i < len(values) else None] *)
Definition add_monthly (suffix : string) (values : list (option float))
  (data : record) : record :=
  fold_left
    (fun data im =>
       <[String.append (snd im) suffix :=
           of_option (default None (values !! fst im))]> data)
    (combine (seq 0 (length MONTHS)) MONTHS) data.

(** The body of the loop over the target stations, from the search for
    the station's line to the finished record; [None] when the page has
    no such line. *)
Definition station_record (lines : list str) (year : N) (station_code : str)
  : io (option (record * option str)) :=
  match station_line station_code 0 lines with
  | None => mret None
  | Some (station_line_idx, station_name) =>
      header ← foldM (header_step year) (None, None, None, None)
                 (firstn 15 (skipn station_line_idx lines));
      let '(catchment_area, elevation, observation_period, annual_flow) :=
        header in
      let m :=
        fold_left monthly_step (firstn 100 lines)
          (Monthly (repeat None 12) (repeat None 12) (repeat None 12)
             (repeat None 12) (repeat None 12) (repeat None 12)) in
      annual ←
        match find (contains (u "YILLIK TOPLAM AKIM")) lines with
        | Some line => extract_annual_summary line
        | None => mret (None, None, None)
        end;
      let '(annual_total_m3, annual_mm, annual_lt_sn_km2) := annual in
      let data : record :=
        {[ "year" := VInt (Z.of_N year);
           "station_code" := VStr station_code;
           "station_name" :=
             match station_name with
             | Some s => VStr s
             | None => VNone
             end;
           "region_name" := VStr (default [] (head lines));
           "catchment_area_km2" := of_option catchment_area;
           "estimated_elevation" := of_option elevation;
           "observation_period" :=
             match observation_period with
             | Some s => VStr s
             | None => VNone
             end;
           "avg_annual_flow_m3sn" := of_option annual_flow ]} in
      let data := add_monthly "_max_flow_m3sn" (monthly_max m) data in
      let data := add_monthly "_min_flow_m3sn" (monthly_min m) data in
      let data := add_monthly "_avg_flow_m3sn" (monthly_avg m) data in
      let data := add_monthly "_lt_sn_km2" (monthly_lt_sn_km2 m) data in
      let data := add_monthly "_mm" (monthly_mm m) data in
      let data := add_monthly "_mil_m3" (monthly_mil_m3 m) data in
      let data := <["annual_total_flow_m3" := of_option annual_total_m3]> data in
      let data := <["annual_mm" := of_option annual_mm]> data in
      let data := <["annual_lt_sn_km2" := of_option annual_lt_sn_km2]> data in
      mret (Some (data, station_name))
  end.

(** What the [try] block of [process_pdf] has done when it ends: its
    messages, the state it has reached, and the exception that ended it,
    if one did.  The block appends to [results] as it goes, and the
    handler returns what is there. *)
Definition step (S : Type) : Type := list event * (S * option exn).

Fixpoint loop {A S} (f : S -> A -> step S) (s : S) (l : list A) : step S :=
  match l with
  | [] => ([], (s, None))
  | a :: l' =>
      let '(t, (s', e)) := f s a in
      match e with
      | Some _ => (t, (s', e))
      | None => let '(t', r) := loop f s' l' in (t ++ t', r)
      end
  end.

(** [results] and [found_stations]. *)
Definition state : Type := list record * gset (N * str).

Definition station_step (lines : list str) (page_text : str) (year : N)
  (st : state) (station_code : str) : step state :=
  let '(results, found_stations) := st in
  if bool_decide ((year, station_code) ∈ found_stations) then ([], (st, None))
  else if negb (contains station_code page_text) then ([], (st, None))
  else
    match station_record lines year station_code with
    | (t, inl e) => (t, (st, Some e))
    | (t, inr None) => (t, (st, None))
    | (t, inr (Some (data, station_name))) =>
        (t ++ [Print "  Found: {station_code} - {station_name}"
                 [VStr station_code;
                  match station_name with
                  | Some s => VStr s
                  | None => VNone
                  end]],
         ((results ++ [data], {[(year, station_code)]} ∪ found_stations),
          None))
    end.

(** The body of the loop over the pages; pages are counted from 1. *)
Definition page_step (year : N) (total_pages : nat) (st : state)
  (page : nat * str) : step state :=
  let '(page_num, text) := page in
  let progress :=
    if (page_num mod 200 =? 0)%nat
    then [Print "  Page {page_num}/{total_pages}"
            [VInt (Z.of_nat page_num); VInt (Z.of_nat total_pages)]]
    else [] in
  if eqb text [] then (progress, (st, None))
  else
    let lines := split_on 10 text in
    if negb (check_region_match (default [] (head lines)))
    then (progress, (st, None))
    else
      let page_text := join (u " ") lines in
      if negb (existsb (fun station => contains station page_text)
                 TARGET_STATIONS)
      then (progress, (st, None))
      else
        let '(t, r) := loop (station_step lines page_text year) st
                         TARGET_STATIONS in
        (progress ++ t, r).

(** [name] is [pdf_path.name]; [pdf] is what [pdfplumber.open] finds:
    nothing it can open, and the call raises, or the text of the pages.
    Whatever happens inside the [try] block, the function returns the
    records appended so far. *)
Definition process_pdf (name : str) (year : N) (pdf : option (list str))
  : io (list record) :=
  emit (Print "\nProcessing: {pdf_path.name}" [VStr name]);;
  match pdf with
  | None => emit (Print "  ERROR: {str(e)}" []);; mret []
  | Some pages =>
      let '(t, (st, e)) :=
        loop (page_step year (length pages)) ([], ∅)
          (combine (seq 1 (length pages)) pages) in
      (t, inr tt);;
      match e with
      | Some _ => emit (Print "  ERROR: {str(e)}" [])
      | None => mret tt
      end;;
      mret (fst st)
  end.

End PdfFlowExtractor.

(** * Properties *)

Import Py Re.

(** ** The trace monad *)

Lemma bind_unfold {A B} (m : io A) (f : A -> io B) :
  m ≫= f = bind m f.
Proof. reflexivity. Qed.

Lemma mret_unfold {A} (a : A) : (mret a : io A) = ([], inr a).
Proof. reflexivity. Qed.

Lemma bind_ok {A B} (m : io A) (f : A -> io B) t b :
  m ≫= f = (t, inr b) ->
  exists t1 a t2, m = (t1, inr a) /\ f a = (t2, inr b) /\ t = t1 ++ t2.
Proof.
  rewrite bind_unfold. destruct m as [t1 [e | a]]; simpl.
  - discriminate.
  - destruct (f a) as [t2 r] eqn:E. intros H. inversion H; subst.
    exists t1, a, t2. auto.
Qed.

Lemma trace_bind {A B} (m : io A) (f : A -> io B) :
  trace (m ≫= f)
  = trace m ++ match outcome m with
               | inr a => trace (f a)
               | inl _ => []
               end.
Proof.
  rewrite bind_unfold. destruct m as [t [e | a]]; simpl.
  - now rewrite app_nil_r.
  - now destruct (f a).
Qed.

Lemma outcome_bind {A B} (m : io A) (f : A -> io B) :
  outcome (m ≫= f)
  = match outcome m with
    | inr a => outcome (f a)
    | inl e => inl e
    end.
Proof.
  rewrite bind_unfold. destruct m as [t [e | a]]; simpl; [easy |].
  now destruct (f a).
Qed.

(** ** Reasoning about runs *)

(** Records are compared through the fields looked up in them. *)
Definition fields (keys : list string) (r : record) : list (option val) :=
  map (fun k => r !! k) keys.

Definition returned {A B} (f : A -> B) (m : io A) : list event * option B :=
  (trace m, match outcome m with
            | inr a => Some (f a)
            | inl _ => None
            end).

(** [holds T R m]: every event of [m] satisfies [T], and if [m] returns,
    what it returns satisfies [R]. *)
Definition holds {A} (T : event -> Prop) (R : A -> Prop) (m : io A) : Prop :=
  Forall T (trace m) /\ forall a, outcome m = inr a -> R a.

Lemma holds_ret {A} (T : event -> Prop) (R : A -> Prop) a :
  R a -> holds T R (mret a).
Proof. intros H. split; [constructor |]. now intros ? [= <-]. Qed.

Lemma holds_raise {A} (T : event -> Prop) (R : A -> Prop) e :
  holds T R (raise e).
Proof. split; [constructor | discriminate]. Qed.

Lemma holds_lift {A} (T : event -> Prop) (R : A -> Prop) e o :
  (forall a, o = Some a -> R a) -> holds T R (lift e o).
Proof.
  intros H. destruct o; [apply holds_ret; auto | apply holds_raise].
Qed.

Lemma holds_emit (T : event -> Prop) (R : unit -> Prop) ev :
  T ev -> R tt -> holds T R (emit ev).
Proof. intros H HR. split; [now repeat constructor |]. now intros [] _. Qed.

Lemma holds_emit' (T : event -> Prop) ev :
  T ev -> holds T (fun _ => True) (emit ev).
Proof. intros H. now apply holds_emit. Qed.

Lemma holds_bind {A B} (T : event -> Prop) (R1 : A -> Prop) (R2 : B -> Prop)
  (m : io A) (f : A -> io B) :
  holds T R1 m -> (forall a, R1 a -> holds T R2 (f a)) ->
  holds T R2 (m ≫= f).
Proof.
  intros [Ht Hr] Hf. split.
  - rewrite trace_bind. apply List.Forall_app. split; [assumption |].
    destruct (outcome m) eqn:E; [constructor |]. now apply Hf, Hr.
  - intros b. rewrite outcome_bind. destruct (outcome m) eqn:E; [discriminate |].
    now apply Hf, Hr.
Qed.

Lemma holds_catch {A} (T : event -> Prop) (R : A -> Prop) (m : io A) h :
  holds T R m -> (forall e, holds T R (h e)) -> holds T R (catch m h).
Proof.
  intros [Ht Hr] Hh. destruct m as [t [e | a]]; cbn [catch]; [| now split].
  destruct (Hh e) as [Ht' Hr']. destruct (h e) as [t' r]. split.
  - apply List.Forall_app. now split.
  - exact Hr'.
Qed.

Lemma holds_weaken {A} (T T' : event -> Prop) (R R' : A -> Prop) (m : io A) :
  (forall ev, T ev -> T' ev) -> (forall a, R a -> R' a) ->
  holds T R m -> holds T' R' m.
Proof.
  intros HT HR [Ht Hr]. split; [| auto].
  eapply List.Forall_impl; [| exact Ht]. exact HT.
Qed.

Lemma holds_foldM {A S} (T : event -> Prop) (I : S -> Prop)
  (f : S -> A -> io S) l :
  (forall s a, I s -> In a l -> holds T I (f s a)) ->
  forall s, I s -> holds T I (foldM f s l).
Proof.
  induction l as [| a l IH]; intros Hf s Hs; cbn [foldM].
  - now apply (holds_ret T I).
  - apply (holds_bind T I I); [apply Hf; [assumption | now left] |].
    intros s' Hs'. apply IH; [| assumption].
    intros s'' a' ? ?. apply Hf; [assumption | now right].
Qed.

Lemma holds_mapM {A B} (T : event -> Prop) (f : A -> io B) l :
  (forall a, holds T (fun _ => True) (f a)) ->
  holds T (fun _ => True) (mapM f l).
Proof.
  intros Hf. induction l as [| a l IH]; cbn [mapM].
  - now apply holds_ret.
  - apply (holds_bind T (fun _ => True)); [apply Hf |]. intros b _.
    apply (holds_bind T (fun _ => True)); [exact IH |]. intros bs _.
    now apply holds_ret.
Qed.

(** A run that always returns. *)
Definition returns {A} (m : io A) : Prop := exists a, outcome m = inr a.

Lemma returns_ret {A} (a : A) : returns (mret a : io A).
Proof. now exists a. Qed.

Lemma returns_emit ev : returns (emit ev).
Proof. now exists tt. Qed.

Lemma returns_bind {A B} (m : io A) (f : A -> io B) :
  returns m -> (forall a, returns (f a)) -> returns (m ≫= f).
Proof.
  intros [a Ha] Hf. destruct (Hf a) as [b Hb]. exists b.
  now rewrite outcome_bind, Ha.
Qed.

Lemma returns_catch {A} (m : io A) h :
  (forall e, returns (h e)) -> returns (catch m h).
Proof.
  intros Hh. destruct m as [t [e | a]]; cbn [catch]; [| now exists a].
  destruct (Hh e) as [a Ha]. destruct (h e) as [t' r]. now exists a.
Qed.

Lemma returns_foldM {A S} (f : S -> A -> io S) l :
  (forall s a, returns (f s a)) -> forall s, returns (foldM f s l).
Proof.
  intros Hf. induction l as [| a l IH]; intros s; cbn [foldM].
  - apply returns_ret.
  - apply (returns_bind (f s a)); [apply Hf | apply IH].
Qed.

(** The records handed to [DataFrame.to_csv], and the rows appended with
    [csv.writer], in a trace. *)
Definition frame_rows (t : list event) : list record :=
  flat_map (fun ev => match ev with
                      | DataFrameToCsv _ rows => rows
                      | _ => []
                      end) t.

Definition csv_rows (t : list event) : list (list val) :=
  flat_map (fun ev => match ev with
                      | CsvAppend _ row => [row]
                      | _ => []
                      end) t.

(** Events that write no record. *)
Definition quiet (ev : event) : Prop :=
  match ev with
  | DataFrameToCsv _ _ | CsvAppend _ _ => False
  | _ => True
  end.

(** Messages on the standard output. *)
Definition is_print (ev : event) : Prop :=
  match ev with
  | Print _ _ => True
  | _ => False
  end.

Lemma quiet_rows t : Forall quiet t -> frame_rows t = [] /\ csv_rows t = [].
Proof.
  induction 1 as [| ev t Hev _ [IH1 IH2]]; [now split |].
  unfold frame_rows, csv_rows in *. cbn [flat_map]. rewrite IH1, IH2.
  destruct ev; cbn in Hev; try contradiction; now split.
Qed.

(** ** Decimal digits, blanks, and the numbers written with them *)

Lemma in_ranges_spec t c :
  in_ranges t c = true <-> Exists (fun r => fst r <= c /\ c <= snd r) t.
Proof.
  unfold in_ranges. rewrite existsb_exists, List.Exists_exists.
  split; intros [r [Hin H]]; exists r; split; auto.
  - apply andb_true_iff in H. now rewrite <- !N.leb_le.
  - apply andb_true_iff. now rewrite !N.leb_le.
Qed.

(** Two tables of ranges share no character when their ranges lie apart,
    and a table lies within another when each of its ranges does. *)
Definition ranges_apart (t1 t2 : list (N * N)) : bool :=
  forallb (fun r1 =>
             forallb (fun r2 => (snd r1 <? fst r2) || (snd r2 <? fst r1)) t2)
    t1.

Definition ranges_within (t1 t2 : list (N * N)) : bool :=
  forallb (fun r1 =>
             existsb (fun r2 => (fst r2 <=? fst r1) && (snd r1 <=? snd r2)) t2)
    t1.

Lemma in_ranges_apart t1 t2 c :
  ranges_apart t1 t2 = true -> in_ranges t1 c = true -> in_ranges t2 c = false.
Proof.
  unfold ranges_apart. rewrite forallb_forall, in_ranges_spec.
  intros Hap H1. destruct (in_ranges t2 c) eqn:H2; [| reflexivity].
  apply in_ranges_spec in H2.
  apply List.Exists_exists in H1 as [r1 [I1 B1]].
  apply List.Exists_exists in H2 as [r2 [I2 B2]].
  specialize (Hap r1 I1). rewrite forallb_forall in Hap.
  specialize (Hap r2 I2). apply orb_true_iff in Hap.
  rewrite !N.ltb_lt in Hap. lia.
Qed.

Lemma in_ranges_within t1 t2 c :
  ranges_within t1 t2 = true -> in_ranges t1 c = true -> in_ranges t2 c = true.
Proof.
  unfold ranges_within. rewrite forallb_forall, !in_ranges_spec.
  intros Hin H1.
  apply List.Exists_exists in H1 as [r1 [I1 B1]].
  specialize (Hin r1 I1). apply existsb_exists in Hin as [r2 [I2 B2]].
  apply List.Exists_exists. exists r2. split; [assumption |].
  apply andb_true_iff in B2. rewrite !N.leb_le in B2. lia.
Qed.

(** A decimal digit is an ASCII digit or lies above the Latin letters; it
    is no blank. *)
Lemma isdecimal_bounds c :
  isdecimal c = true -> (48 <= c /\ c <= 57) \/ 1632 <= c.
Proof.
  intros H.
  apply (in_ranges_within _ [(48, 57); (1632, 1114111)]) in H;
    [| vm_compute; reflexivity].
  apply in_ranges_spec in H. rewrite !Exists_cons, Exists_nil in H.
  simpl in H. lia.
Qed.

Lemma isdecimal_not_space c : isdecimal c = true -> isspace c = false.
Proof. apply in_ranges_apart. vm_compute. reflexivity. Qed.

Lemma float_space_isspace c : float_space c = true -> isspace c = true.
Proof.
  unfold float_space. intros H.
  apply orb_true_iff in H as [H | H];
    [apply orb_true_iff in H as [H | H] |].
  - apply andb_true_iff in H as [H1 H2]. apply N.leb_le in H1, H2.
    apply in_ranges_spec. unfold space_ranges. apply Exists_cons_hd. simpl. lia.
  - apply N.eqb_eq in H. subst. reflexivity.
  - now apply andb_true_iff in H.
Qed.

Lemma isdecimal_not_float_space c :
  isdecimal c = true -> float_space c = false.
Proof.
  intros Hd. destruct (float_space c) eqn:Hs; [| reflexivity].
  apply float_space_isspace in Hs. rewrite isdecimal_not_space in Hs; easy.
Qed.

Lemma digit_value_lt c : digit_value c < 10.
Proof.
  unfold digit_value. destruct (find _ _); [apply N.mod_lt |]; lia.
Qed.

(** What [float] makes of a digit before it reads the number. *)
Definition to_ascii_digit (c : char) : char :=
  if isdecimal c then 48 + digit_value c else c.

Lemma to_ascii_digit_ok c :
  isdecimal c = true -> is_ascii_digit (to_ascii_digit c) = true.
Proof.
  intros H. unfold to_ascii_digit, is_ascii_digit. rewrite H.
  pose proof (digit_value_lt c).
  apply andb_true_iff. rewrite !N.leb_le. lia.
Qed.

Lemma digit_value_ascii d : d < 10 -> digit_value (48 + d) = d.
Proof.
  intros H. unfold digit_value, decimal_ranges. simpl find.
  replace ((48 <=? 48 + d) && (48 + d <=? 57)) with true.
  - simpl. replace (48 + d - 48) with d by lia. now apply N.mod_small.
  - symmetry. apply andb_true_iff. rewrite !N.leb_le. lia.
Qed.

Lemma digit_value_to_ascii c :
  isdecimal c = true -> digit_value (to_ascii_digit c) = digit_value c.
Proof.
  intros H. unfold to_ascii_digit. rewrite H.
  apply digit_value_ascii, digit_value_lt.
Qed.

Lemma int_of_digits_to_ascii s :
  Forall (fun c => isdecimal c = true) s ->
  int_of_digits (map to_ascii_digit s) = int_of_digits s.
Proof.
  unfold int_of_digits. generalize 0. induction s as [| c s IH]; intros acc H.
  - reflexivity.
  - inversion H; subst. simpl. rewrite digit_value_to_ascii by assumption.
    now apply IH.
Qed.

(** *** [strip], [replace], [span] *)

Lemma lstrip_id c s : isspace c = false -> lstrip (c :: s) = c :: s.
Proof. intros H. simpl. now rewrite H. Qed.

Lemma strip_id s c1 s1 c2 s2 :
  s = c1 :: s1 -> s = s2 ++ [c2] ->
  isspace c1 = false -> isspace c2 = false -> strip s = s.
Proof.
  intros E1 E2 H1 H2. unfold strip, rstrip.
  rewrite E1, lstrip_id, <- E1, E2 by assumption.
  rewrite rev_app_distr. simpl. rewrite H2. simpl.
  now rewrite rev_involutive.
Qed.

(** Replacing a one-character string is a character-wise substitution. *)
Lemma replace_char x new s :
  replace [x] new s = flat_map (fun c => if x =? c then new else [c]) s.
Proof.
  unfold replace. induction s as [| c s IH]; [reflexivity |].
  simpl. rewrite andb_true_r. destruct (x =? c); simpl; now rewrite IH.
Qed.

Lemma replace_char_absent x new s :
  Forall (fun c => c <> x) s -> replace [x] new s = s.
Proof.
  rewrite replace_char. induction 1 as [| c s Hc _ IH]; [reflexivity |].
  simpl. rewrite IH. destruct (N.eqb_spec x c); [congruence | reflexivity].
Qed.

Lemma span_all p s :
  Forall (fun c => p c = true) s -> span p s = (s, []).
Proof.
  induction 1 as [| c s Hc _ IH]; [reflexivity |].
  simpl. now rewrite Hc, IH.
Qed.

Lemma span_until p a x r :
  Forall (fun c => p c = true) a -> p x = false ->
  span p (a ++ x :: r) = (a, x :: r).
Proof.
  intros Ha Hx. induction Ha as [| c s Hc _ IH]; simpl.
  - now rewrite Hx.
  - now rewrite Hc, IH.
Qed.

(** *** A number written as digits, a separator, digits *)

(** The strings of the form [\d+,\d+]. *)
Definition decimal_comma (s : str) : Prop :=
  exists a b, s = a ++ [44] ++ b /\ a <> [] /\ b <> []
              /\ Forall (fun c => isdecimal c = true) a
              /\ Forall (fun c => isdecimal c = true) b.

(** The float that the digits [a], a full stop and the digits [b] denote. *)
Definition decimal_value (a b : str) : float :=
  FNum false (int_of_digits (a ++ b)) (- Z.of_nat (length b)).

Lemma digits_first_last a b x :
  a <> [] -> b <> [] ->
  Forall (fun c => isdecimal c = true) a ->
  Forall (fun c => isdecimal c = true) b ->
  exists c1 s1 c2 s2,
    a ++ [x] ++ b = c1 :: s1 /\ a ++ [x] ++ b = s2 ++ [c2]
    /\ isdecimal c1 = true /\ isdecimal c2 = true.
Proof.
  intros Ha Hb Fa Fb.
  destruct a as [| c1 a']; [congruence |].
  destruct (exists_last Hb) as [b' [c2 ->]].
  exists c1, (a' ++ [x] ++ b' ++ [c2]), c2, ((c1 :: a') ++ [x] ++ b').
  repeat split.
  - now rewrite <- !app_assoc.
  - now inversion Fa.
  - apply List.Forall_app in Fb as [_ Fb]. now inversion Fb.
Qed.

Lemma span_none p c s : p c = false -> span p (c :: s) = ([], c :: s).
Proof. intros H. simpl. now rewrite H. Qed.

Lemma float_unstripped s c1 s1 c2 s2 :
  s = c1 :: s1 -> s = s2 ++ [c2] ->
  float_space c1 = false -> float_space c2 = false ->
  rev (snd (span float_space (rev (snd (span float_space s))))) = s.
Proof.
  intros E1 E2 H1 H2.
  rewrite E1 at 1. rewrite span_none by assumption. cbn [snd].
  rewrite <- E1, E2, rev_app_distr. cbn [rev app].
  rewrite span_none by assumption. cbn [snd].
  change (c2 :: rev s2) with (rev [c2] ++ rev s2).
  now rewrite <- rev_app_distr, rev_involutive.
Qed.

Lemma is_ascii_digit_bounds c : is_ascii_digit c = true -> 48 <= c <= 57.
Proof.
  unfold is_ascii_digit. intros H. apply andb_true_iff in H.
  now rewrite !N.leb_le in H.
Qed.

Lemma ascii_digits_no_underscore l :
  Forall (fun c => is_ascii_digit c = true) l -> existsb (N.eqb 95) l = false.
Proof.
  induction 1 as [| c l Hc _ IH]; [reflexivity |]. cbn [existsb].
  rewrite IH, orb_false_r. apply is_ascii_digit_bounds in Hc.
  apply N.eqb_neq. lia.
Qed.

Lemma take_sign_digit c s :
  is_ascii_digit c = true -> take_sign (c :: s) = (false, c :: s).
Proof.
  intros H. apply is_ascii_digit_bounds in H. unfold take_sign.
  destruct (N.eqb_spec c 45); [lia |]. destruct (N.eqb_spec c 43); [lia |].
  reflexivity.
Qed.

Lemma float_of_decimal a b :
  a <> [] -> b <> [] ->
  Forall (fun c => isdecimal c = true) a ->
  Forall (fun c => isdecimal c = true) b ->
  float_of_str (a ++ [46] ++ b) = Some (decimal_value a b).
Proof.
  intros Ha Hb Fa Fb.
  destruct (digits_first_last a b 46 Ha Hb Fa Fb)
    as (c1 & s1 & c2 & s2 & E1 & E2 & D1 & D2).
  unfold float_of_str.
  rewrite (float_unstripped _ c1 s1 c2 s2 E1 E2)
    by now apply isdecimal_not_float_space.
  (* the digits become ASCII digits *)
  change (fun c => if isdecimal c then 48 + digit_value c else c)
    with to_ascii_digit.
  rewrite !map_app. change (map to_ascii_digit [46]) with [46].
  set (a' := map to_ascii_digit a). set (b' := map to_ascii_digit b).
  assert (Fa' : Forall (fun c => is_ascii_digit c = true) a').
  { subst a'. apply List.Forall_map. eapply List.Forall_impl; [| exact Fa].
    apply to_ascii_digit_ok. }
  assert (Fb' : Forall (fun c => is_ascii_digit c = true) b').
  { subst b'. apply List.Forall_map. eapply List.Forall_impl; [| exact Fb].
    apply to_ascii_digit_ok. }
  assert (Hno : existsb (N.eqb 95) (a' ++ [46] ++ b') = false).
  { rewrite !existsb_app, !(ascii_digits_no_underscore _ Fa'),
      !(ascii_digits_no_underscore _ Fb'). reflexivity. }
  rewrite Hno.
  destruct a' as [| d a''] eqn:Ea'.
  { subst a'. destruct a; [congruence | discriminate]. }
  assert (Hd : is_ascii_digit d = true) by now inversion Fa'.
  rewrite <- app_comm_cons, (take_sign_digit d _ Hd), app_comm_cons.
  unfold parse_number.
  change ((d :: a'') ++ [46] ++ b') with ((d :: a'') ++ 46 :: b').
  rewrite (span_until is_ascii_digit (d :: a'') 46 b' Fa' eq_refl).
  change (46 =? 46) with true. cbv iota beta.
  rewrite (span_all is_ascii_digit b' Fb').
  cbn [app]. unfold decimal_value. f_equal. f_equal.
  - rewrite app_comm_cons, <- Ea'. subst a' b'. rewrite <- map_app.
    apply int_of_digits_to_ascii. now apply List.Forall_app.
  - subst b'. now rewrite length_map.
Qed.

(** ** The matcher *)

(** A greedy repetition of one character class runs to the end of a
    subject made of that class, if the rest of the pattern accepts that. *)
Lemma rep_iter_all_body body p lo k s res :
  (forall st k, body st k = rmatch (Chr p) st k) ->
  Forall (fun c => p c = true) s ->
  forall n ps cs,
    (lo <= n + length s)%nat ->
    k (MState (ps + length s) [] cs) = Some res ->
    rep_iter body true lo None k (length s) n (MState ps s cs) = Some res.
Proof.
  intros Hbody. induction 1 as [| c s Hc _ IH]; intros n ps cs Hlo Hk.
  - cbn [rep_iter length]. cbn [length] in Hlo, Hk.
    rewrite Nat.add_0_r in Hlo, Hk.
    destruct (Nat.leb_spec lo n); [assumption | lia].
  - cbn [rep_iter length below]. rewrite Hbody. cbn [rmatch rest pos caps].
    rewrite Hc. destruct (Nat.ltb_spec ps (S ps)); [| lia].
    rewrite (IH (S n) (S ps) cs); [reflexivity | cbn [length] in Hlo; lia |].
    cbn [length] in Hk.
    now replace (S ps + length s)%nat with (ps + S (length s))%nat by lia.
Qed.

Lemma rep_iter_all p lo k s res :
  Forall (fun c => p c = true) s ->
  forall n ps cs,
    (lo <= n + length s)%nat ->
    k (MState (ps + length s) [] cs) = Some res ->
    rep_iter (rmatch (Chr p)) true lo None k (length s) n (MState ps s cs)
    = Some res.
Proof. now apply rep_iter_all_body. Qed.

(** The characters a pattern can consume. *)
Fixpoint accepts (r : regex) (c : char) : bool :=
  match r with
  | Chr p => p c
  | Cat a b | Alt a b => accepts a c || accepts b c
  | Rep _ _ _ a | Grp _ a => accepts a c
  | _ => false
  end.

(** What a successful match has done when it hands over to [k]. *)
Definition consumed (q : char -> bool) (st st' : mstate) : Prop :=
  exists w, rest st = w ++ rest st'
            /\ pos st' = (pos st + length w)%nat
            /\ Forall (fun c => q c = true) w.

Lemma consumed_refl q st : consumed q st st.
Proof. exists []. cbn. rewrite Nat.add_0_r. auto. Qed.

Lemma consumed_trans q st1 st2 st3 :
  consumed q st1 st2 -> consumed q st2 st3 -> consumed q st1 st3.
Proof.
  intros (w1 & R1 & P1 & F1) (w2 & R2 & P2 & F2). exists (w1 ++ w2).
  rewrite length_app, <- app_assoc, <- R2. repeat split; try assumption.
  - lia.
  - now apply List.Forall_app.
Qed.

Lemma consumed_weaken (q q' : char -> bool) st st' :
  (forall c, q c = true -> q' c = true) ->
  consumed q st st' -> consumed q' st st'.
Proof.
  intros Hq (w & R & P & F). exists w. repeat split; try assumption.
  eapply List.Forall_impl; [| exact F]. exact Hq.
Qed.

Definition sound (q : char -> bool)
  (body : mstate -> (mstate -> option mstate) -> option mstate) : Prop :=
  forall st k res,
    body st k = Some res -> exists st', consumed q st st' /\ k st' = Some res.

Lemma rep_iter_sound q body g lo hi :
  sound q body ->
  forall fuel n, sound q (fun st k => rep_iter body g lo hi k fuel n st).
Proof.
  intros Hb fuel.
  induction fuel as [| fuel IH]; intros n st k res H.
  - cbn [rep_iter] in H. destruct g.
    + destruct (lo <=? n)%nat; [| discriminate].
      exists st. split; [apply consumed_refl | assumption].
    + destruct (lo <=? n)%nat; [| discriminate].
      destruct (k st) eqn:E; [| discriminate].
      exists st. split; [apply consumed_refl | congruence].
  - cbn [rep_iter] in H.
    assert (Hmore :
      (if below hi n
       then body st (fun st' => if (pos st <? pos st')%nat
                                then rep_iter body g lo hi k fuel (S n) st'
                                else None)
       else None) = Some res ->
      exists st', consumed q st st' /\ k st' = Some res).
    { destruct (below hi n); [| discriminate]. intros Hm.
      apply Hb in Hm as (st1 & C1 & Hm).
      destruct (pos st <? pos st1)%nat; [| discriminate].
      apply IH in Hm as (st2 & C2 & Hm).
      exists st2. split; [eapply consumed_trans; eassumption | assumption]. }
    assert (Hstop :
      (if (lo <=? n)%nat then k st else None) = Some res ->
      exists st', consumed q st st' /\ k st' = Some res).
    { destruct (lo <=? n)%nat; [| discriminate]. intros Hs.
      exists st. split; [apply consumed_refl | assumption]. }
    destruct g.
    + destruct (if below hi n then _ else None) eqn:E.
      * apply Hmore. congruence.
      * now apply Hstop.
    + destruct (if (lo <=? n)%nat then k st else None) eqn:E.
      * apply Hstop. congruence.
      * now apply Hmore.
Qed.

Lemma rmatch_sound r : sound (accepts r) (rmatch r).
Proof.
  induction r as [| p | a IHa b IHb | a IHa b IHb | g lo hi a IHa | i a IHa | |];
    intros st k res H; cbn [rmatch] in H.
  - exists st. split; [apply consumed_refl | assumption].
  - destruct st as [ps [| c s'] cs]; cbn [rest pos caps] in H; [discriminate |].
    destruct (p c) eqn:Hp; [| discriminate].
    exists (MState (S ps) s' cs). split; [| assumption].
    exists [c]. cbn. repeat split; [lia |]. constructor; [assumption | constructor].
  - apply IHa in H as (st1 & C1 & H). apply IHb in H as (st2 & C2 & H).
    exists st2. split; [| assumption].
    eapply consumed_trans; eapply consumed_weaken; try eassumption;
      cbn [accepts]; intros c Hc; rewrite Hc; auto using orb_true_r.
  - destruct (rmatch a st k) eqn:E.
    + injection H as ->. apply IHa in E as (st1 & C1 & E).
      exists st1. split; [| assumption].
      eapply consumed_weaken; [| eassumption].
      cbn [accepts]. intros c Hc. now rewrite Hc.
    + apply IHb in H as (st1 & C1 & H).
      exists st1. split; [| assumption].
      eapply consumed_weaken; [| eassumption].
      cbn [accepts]. intros c Hc. rewrite Hc. apply orb_true_r.
  - eapply (rep_iter_sound (accepts a) (rmatch a) g lo hi IHa); eassumption.
  - apply IHa in H as (st1 & C1 & H).
    exists (MState (pos st1) (rest st1) ((i, (pos st, pos st1)) :: caps st1)).
    split; [| assumption]. destruct C1 as (w & R & P & F). now exists w.
  - destruct (pos st =? 0)%nat; [| discriminate].
    exists st. split; [apply consumed_refl | assumption].
  - destruct (eqb (rest st) [] || eqb (rest st) [10]); [| discriminate].
    exists st. split; [apply consumed_refl | assumption].
Qed.

(** The text of a match is made of characters the pattern accepts. *)
Lemma match_at_accepts r s p m :
  match_at r s p (skipn p s) = Some m ->
  Forall (fun c => accepts r c = true) (group0 m).
Proof.
  unfold match_at. destruct (rmatch _ _ _) as [st |] eqn:E; [| discriminate].
  intros [= <-]. apply rmatch_sound in E as (st' & (w & R & P & F) & [= ->]).
  cbn [rest pos] in R, P. unfold group0, slice. cbn [subject m_start m_end].
  rewrite P, R. replace (p + length w - p)%nat with (length w) by lia.
  now rewrite firstn_app, Nat.sub_diag, firstn_all, app_nil_r.
Qed.

Lemma search_from_accepts r s m :
  forall sfx p,
    sfx = skipn p s ->
    search_from r s p sfx = Some m ->
    Forall (fun c => accepts r c = true) (group0 m).
Proof.
  induction sfx as [| c sfx IH]; intros p Hs H; cbn [search_from] in H.
  - destruct (match_at r s p []) eqn:E; [| discriminate].
    injection H as ->. rewrite Hs in E. eapply match_at_accepts; eassumption.
  - destruct (match_at r s p (c :: sfx)) eqn:E.
    + injection H as ->. rewrite Hs in E. eapply match_at_accepts; eassumption.
    + apply (IH (S p)); [| assumption].
      change (S p) with (1 + p)%nat. rewrite <- skipn_skipn, <- Hs. reflexivity.
Qed.

Lemma matches_from_accepts r s fuel :
  forall p, Forall (fun m => Forall (fun c => accepts r c = true) (group0 m))
              (matches_from fuel r s p).
Proof.
  induction fuel as [| fuel IH]; intros p; cbn [matches_from]; [constructor |].
  destruct (search_from r s p (skipn p s)) as [m |] eqn:E; [| constructor].
  constructor.
  - eapply search_from_accepts; [reflexivity | eassumption].
  - destruct (m_end m <=? p)%nat; [destruct (p <? length s)%nat |];
      auto; constructor.
Qed.

Lemma findall_accepts r s :
  Forall (Forall (fun c => accepts r c = true)) (findall r s).
Proof.
  unfold findall, finditer. apply List.Forall_map. apply matches_from_accepts.
Qed.

(** A subject made of one character class is found whole by the class
    repeated. *)
Lemma findall_class_all p s :
  s <> [] -> Forall (fun c => p c = true) s ->
  exists more, findall (plus (Chr p)) s = s :: more.
Proof.
  intros Hne Hs. unfold findall, finditer.
  assert (E : match_at (plus (Chr p)) s 0 s = Some (MObj s 0 (length s) [])).
  { unfold match_at, plus. cbn [rmatch rest].
    rewrite (rep_iter_all p 1 Some s (MState (length s) [] []) Hs); [reflexivity | |].
    - destruct s; [congruence | cbn; lia].
    - reflexivity. }
  destruct s as [| c s']; [congruence |].
  cbn [matches_from skipn search_from]. rewrite E.
  cbn [map]. eexists. f_equal. unfold group0, slice. cbn [subject m_start m_end].
  now rewrite Nat.sub_0_r, firstn_all.
Qed.

(** A pattern that has to go on with something that fails, fails: [Q]
    holds of what is left of the subject, and stays true as characters are
    consumed. *)
Lemma rmatch_dead_end (Q : str -> Prop) :
  (forall c s, Q (c :: s) -> Q s) ->
  forall r st k,
    Q (rest st) ->
    (forall st', Q (rest st') -> k st' = None) ->
    rmatch r st k = None.
Proof.
  intros Htl r.
  induction r as [| p | a IHa b IHb | a IHa b IHb | g lo hi a IHa | i a IHa | |];
    intros st k HQ Hk; cbn [rmatch].
  - now apply Hk.
  - destruct st as [ps [| c s'] cs]; cbn [rest pos caps] in *; [reflexivity |].
    destruct (p c); [| reflexivity]. apply Hk. cbn [rest]. eapply Htl, HQ.
  - apply IHa; [assumption |]. intros st' HQ'. now apply IHb.
  - rewrite IHa by assumption. now apply IHb.
  - generalize 0%nat at 1. generalize (length (rest st)). intros fuel. revert st HQ.
    induction fuel as [| fuel IHf]; intros st HQ n; cbn [rep_iter].
    + rewrite (Hk st HQ). now destruct g, (lo <=? n)%nat.
    + rewrite (Hk st HQ).
      assert (Hmore :
        (if below hi n
         then rmatch a st (fun st' => if (pos st <? pos st')%nat
                                      then rep_iter (rmatch a) g lo hi k fuel (S n) st'
                                      else None)
         else None) = None).
      { destruct (below hi n); [| reflexivity]. apply IHa; [assumption |].
        intros st' HQ'. destruct (pos st <? pos st')%nat; [| reflexivity].
        now apply IHf. }
      rewrite Hmore. now destruct g, (lo <=? n)%nat.
  - apply IHa; [assumption |]. intros st' HQ'. now apply Hk.
  - destruct (pos st =? 0)%nat; [now apply Hk | reflexivity].
  - destruct (eqb (rest st) [] || eqb (rest st) [10]); [now apply Hk | reflexivity].
Qed.

(** ** C3: the numeric normalizers on [\d+,\d+] *)

Lemma decimal_not c x :
  isdecimal c = true -> isdecimal x = false -> c <> x.
Proof. intros Hc Hx ->. congruence. Qed.

Lemma replace_absent_digits x new s :
  isdecimal x = false ->
  Forall (fun c => isdecimal c = true) s -> replace [x] new s = s.
Proof.
  intros Hx Hs. apply replace_char_absent.
  eapply List.Forall_impl; [| exact Hs]. intros c Hc. now apply decimal_not.
Qed.

Lemma replace_app_char x new a b :
  replace [x] new (a ++ b) = replace [x] new a ++ replace [x] new b.
Proof. rewrite !replace_char. apply flat_map_app. Qed.

(** The comma of a [\d+,\d+] string becomes a full stop, and nothing else
    changes. *)
Lemma replace_comma a b :
  Forall (fun c => isdecimal c = true) a ->
  Forall (fun c => isdecimal c = true) b ->
  replace [44] [46] (a ++ [44] ++ b) = a ++ [46] ++ b.
Proof.
  intros Fa Fb. rewrite !replace_app_char.
  rewrite (replace_absent_digits 44 _ a), (replace_absent_digits 44 _ b)
    by (assumption || reflexivity).
  reflexivity.
Qed.

Lemma strip_digits a b x :
  a <> [] -> b <> [] ->
  Forall (fun c => isdecimal c = true) a ->
  Forall (fun c => isdecimal c = true) b ->
  strip (a ++ [x] ++ b) = a ++ [x] ++ b.
Proof.
  intros Ha Hb Fa Fb.
  destruct (digits_first_last a b x Ha Hb Fa Fb)
    as (c1 & s1 & c2 & s2 & E1 & E2 & D1 & D2).
  apply (strip_id _ c1 s1 c2 s2 E1 E2); now apply isdecimal_not_space.
Qed.

Lemma upper_keeps_full_stop a b : In 46 (upper (a ++ [46] ++ b)).
Proof.
  unfold upper. rewrite !flat_map_app. apply in_or_app. right.
  apply in_or_app. left. now left.
Qed.

(** C3. For every numeric string of the form [\d+,\d+], each numeric
    normalizer ([clean_num] of catchment_data_km2.py, [clean_num] of
    table_arranger.py, [_normalize_number] of the structured extractor)
    returns a float, and it is the float that [float] reads from the same
    string with its comma replaced by a full stop. *)
Theorem comma_decimal_normalized (s : str) :
  decimal_comma s ->
  exists x,
    float_of_str (replace (u ",") (u ".") s) = Some x
    /\ CatchmentDataKm2.clean_num s = ([], inr x)
    /\ TableArranger.clean_num (VStr s) = Some x
    /\ DsiFinalStructuredExtractor._normalize_number s = Some x.
Proof.
  intros (a & b & -> & Ha & Hb & Fa & Fb).
  exists (decimal_value a b).
  change (u ",") with [44]. change (u ".") with [46].
  assert (Hf : float_of_str (replace [44] [46] (a ++ [44] ++ b))
               = Some (decimal_value a b))
    by (rewrite replace_comma by assumption; now apply float_of_decimal).
  split; [exact Hf |]. split; [| split].
  - unfold CatchmentDataKm2.clean_num.
    change (u ",") with [44]. change (u ".") with [46].
    rewrite strip_digits by assumption. now rewrite Hf.
  - unfold TableArranger.clean_num.
    change (u ",") with [44]. change (u ".") with [46].
    rewrite strip_digits by assumption. rewrite replace_comma in * by assumption.
    pose proof (upper_keeps_full_stop a b) as Hu.
    unfold eqb.
    rewrite !bool_decide_eq_false_2; [exact Hf | | |].
    + destruct a; [congruence | discriminate].
    + intros E. assert (Hi : In 46 (a ++ [46] ++ b))
        by (apply in_or_app; right; now left).
      rewrite E in Hi. vm_compute in Hi. intuition discriminate.
    + intros E. rewrite E in Hu. vm_compute in Hu. intuition discriminate.
  - unfold DsiFinalStructuredExtractor._normalize_number.
    change (u ",") with [44]. change (u ".") with [46]. change (u " ") with [32].
    rewrite strip_digits by assumption. rewrite replace_comma in * by assumption.
    unfold eqb. rewrite !bool_decide_eq_false_2;
      [| destruct a; [congruence | discriminate] ..].
    cbn [orb].
    rewrite !replace_app_char, (replace_absent_digits 32 _ a),
      (replace_absent_digits 32 _ b) by (assumption || reflexivity).
    change (replace [32] [] [46]) with [46].
    destruct (findall_class_all
                (set_ [ICat isdecimal; IChr 46]) (a ++ [46] ++ b))
      as [more E].
    + destruct a; [congruence | discriminate].
    + apply List.Forall_app. split; [| apply List.Forall_app; split].
      * eapply List.Forall_impl; [| exact Fa]. intros c Hc.
        unfold set_. cbn [existsb item_match]. now rewrite Hc.
      * now constructor.
      * eapply List.Forall_impl; [| exact Fb]. intros c Hc.
        unfold set_. cbn [existsb item_match]. now rewrite Hc.
    + unfold DsiFinalStructuredExtractor.digits_dots_re. rewrite E. exact Hf.
Qed.

Lemma comma_decimal_normalized_witness :
  decimal_comma (u "210,00")
  /\ exists x,
       float_of_str (replace (u ",") (u ".") (u "210,00")) = Some x
       /\ CatchmentDataKm2.clean_num (u "210,00") = ([], inr x)
       /\ TableArranger.clean_num (VStr (u "210,00")) = Some x
       /\ DsiFinalStructuredExtractor._normalize_number (u "210,00") = Some x.
Proof.
  assert (H : decimal_comma (u "210,00")).
  { exists (u "210"), (u "00"). repeat split; try discriminate;
      repeat constructor. }
  split; [exact H | exact (comma_decimal_normalized (u "210,00") H)].
Defined.

(** ** C10: [extract_number] *)

(** The characters of a number as [extract_number] looks for it, and what
    [float] turns them into. *)
Definition numeric (c : char) : Prop :=
  c = 45 \/ c = 46 \/ isdecimal c = true.

Definition ascii_numeric (c : char) : Prop :=
  c = 45 \/ c = 46 \/ 48 <= c <= 57.

Lemma number_re_accepts c :
  accepts NewPdfReader2020.number_re c = true -> numeric c.
Proof.
  unfold numeric. cbn [NewPdfReader2020.number_re seq_ fold_right accepts opt
                       plus star d]. unfold lit.
  rewrite !orb_true_iff, !N.eqb_eq. intuition (auto || discriminate).
Qed.

Lemma span_snd_Forall (P : char -> Prop) p s :
  Forall P s -> Forall P (snd (span p s)).
Proof.
  induction 1 as [| c s Hc Hs IH]; cbn [span]; [constructor |].
  destruct (p c); [| now constructor].
  destruct (span p s). exact IH.
Qed.

Lemma drop_underscores_Forall (P : char -> Prop) s :
  forall prev t,
    drop_underscores prev s = Some t -> Forall P s -> Forall P t.
Proof.
  induction s as [| c s IH]; intros prev t H Hs; cbn [drop_underscores] in H.
  - destruct (prev =? 95); [discriminate |]. injection H as <-. constructor.
  - inversion Hs; subst. destruct (c =? 95).
    + destruct (is_ascii_digit prev); [| discriminate]. eauto.
    + destruct ((prev =? 95) && negb (is_ascii_digit c)); [discriminate |].
      destruct (drop_underscores c s) eqn:E; [| discriminate].
      injection H as <-. constructor; eauto.
Qed.

Lemma take_sign_Forall (P : char -> Prop) s :
  Forall P s -> Forall P (snd (take_sign s)).
Proof.
  intros H. unfold take_sign. destruct s as [| c s]; [assumption |].
  inversion H; subst. destruct (c =? 45); [assumption |].
  now destruct (c =? 43).
Qed.

Lemma numeric_to_ascii c : numeric c -> ascii_numeric (to_ascii_digit c).
Proof.
  unfold numeric, ascii_numeric, to_ascii_digit.
  intros [-> | [-> | H]]; [now left | right; now left |].
  rewrite H. pose proof (digit_value_lt c). right. right. lia.
Qed.

Lemma parse_number_finite neg s x :
  parse_number neg s = Some x -> exists m e, x = FNum neg m e.
Proof.
  unfold parse_number. destruct (span is_ascii_digit s) as [ip r1].
  destruct (match r1 with
            | [] => ([], r1)
            | c :: r => if c =? 46 then span is_ascii_digit r else ([], r1)
            end) as [fp r2].
  destruct (ip ++ fp); [discriminate |].
  destruct r2.
  - intros [= <-]. eauto.
  - destruct (take_exponent _) as [[e [| ? ?]] |]; try discriminate.
    intros [= <-]. eauto.
Qed.

(** Neither infinity nor a NaN is written with numeric characters. *)
Lemma parse_inf_nan_letter neg s x :
  parse_inf_nan neg s = Some x -> Forall ascii_numeric s -> False.
Proof.
  unfold parse_inf_nan, eqb. intros H Hs.
  assert (Hw : exists c w, s = c :: w
                           /\ (ascii_lower c = 105 \/ ascii_lower c = 110)).
  { destruct s as [| c w].
    - vm_compute in H. discriminate.
    - exists c, w. split; [reflexivity |]. cbn [map] in H.
      repeat case_bool_decide; try discriminate;
        match goal with
        | E : _ :: _ = _ |- _ => vm_compute in E; injection E; intros; auto
        end. }
  destruct Hw as (c & w & -> & Hc). inversion Hs as [| ? ? Hn _]; subst.
  unfold ascii_numeric in Hn. unfold ascii_lower in Hc.
  destruct ((65 <=? c) && (c <=? 90)) eqn:E.
  - apply andb_true_iff in E. rewrite !N.leb_le in E. lia.
  - lia.
Qed.

Lemma float_of_numeric s x :
  Forall numeric s -> float_of_str s = Some x ->
  exists neg m e, x = FNum neg m e.
Proof.
  intros Hs. unfold float_of_str.
  change (fun c => if isdecimal c then 48 + digit_value c else c)
    with to_ascii_digit.
  set (t := map to_ascii_digit _).
  assert (Ht : Forall ascii_numeric t).
  { subst t. apply List.Forall_map.
    eapply List.Forall_impl; [apply numeric_to_ascii |].
    apply Forall_rev, span_snd_Forall, Forall_rev, span_snd_Forall, Hs. }
  destruct (if existsb (N.eqb 95) t then drop_underscores 0 t else Some t)
    as [t' |] eqn:E; [| discriminate].
  assert (Ht' : Forall ascii_numeric t').
  { destruct (existsb (N.eqb 95) t).
    - eapply drop_underscores_Forall; eassumption.
    - now injection E as <-. }
  pose proof (take_sign_Forall _ _ Ht') as Hr.
  destruct (take_sign t') as [neg r]. cbn [snd] in Hr.
  destruct (parse_number neg r) eqn:Ep.
  - intros [= <-]. apply parse_number_finite in Ep as (m & e & ->). eauto.
  - intros Hi. exfalso. eapply parse_inf_nan_letter; eassumption.
Qed.

Lemma findall_number_numeric text n more :
  findall NewPdfReader2020.number_re text = n :: more -> Forall numeric n.
Proof.
  intros E. pose proof (findall_accepts NewPdfReader2020.number_re text) as H.
  rewrite E in H. inversion H as [| ? ? Hn _]; subst.
  eapply List.Forall_impl; [| exact Hn]. apply number_re_accepts.
Qed.

(** Without a digit, nothing is found. *)
Definition digitless (s : str) : Prop := Forall (fun c => isdecimal c = false) s.

Lemma number_re_needs_digit st :
  digitless (rest st) -> rmatch NewPdfReader2020.number_re st Some = None.
Proof.
  intros HQ. unfold NewPdfReader2020.number_re.
  cbn [seq_ fold_right]. cbn [rmatch].
  change (rep_iter (rmatch (Chr (lit 45))) true 0 (Some 1%nat) ?k ?f 0%nat st)
    with (rmatch (opt (Chr (lit 45))) st k).
  apply (rmatch_dead_end digitless); [| assumption |].
  - intros c s H. now inversion H.
  - intros st' HQ'. unfold plus, d. cbn [rmatch].
    destruct st' as [ps [| c s] cs]; cbn [rest length rep_iter below] in *.
    + reflexivity.
    + cbn [rmatch rest]. inversion HQ'; subst.
      now replace (isdecimal c) with false.
Qed.

Lemma search_number_digitless s :
  forall sfx p,
    digitless sfx -> search_from NewPdfReader2020.number_re s p sfx = None.
Proof.
  induction sfx as [| c sfx IH]; intros p H; cbn [search_from]; unfold match_at.
  - now rewrite number_re_needs_digit.
  - rewrite number_re_needs_digit by assumption. apply IH. now inversion H.
Qed.

Lemma findall_number_digitless s :
  digitless s -> findall NewPdfReader2020.number_re s = [].
Proof.
  intros H. unfold findall, finditer. cbn [matches_from skipn].
  now rewrite search_number_digitless.
Qed.

Lemma replace_comma_digitless s :
  digitless s -> digitless (replace [44] [46] s).
Proof.
  rewrite replace_char. unfold digitless.
  induction 1 as [| c s Hc _ IH]; [constructor |].
  cbn [flat_map]. apply List.Forall_app. split; [| exact IH].
  destruct (44 =? c); now repeat constructor.
Qed.

(** [extract_number] returns a float, and one that is not below zero. *)
Lemma extract_number_value text :
  exists v, NewPdfReader2020.extract_number text false = ([], inr (Some v))
            /\ ge_zero v = true.
Proof.
  unfold NewPdfReader2020.extract_number.
  destruct (eqb text [] || existsb (eqb (strip text)) _);
    [exists zero; split; reflexivity |].
  destruct (findall _ _) as [| n more] eqn:E;
    [exists zero; split; reflexivity |].
  destruct (float_of_str n) as [v |] eqn:Hf;
    [| exists zero; split; reflexivity].
  cbn. destruct (lt_zero v) eqn:Hlt; [exists zero; split; reflexivity |].
  exists v. split; [reflexivity |].
  apply findall_number_numeric in E.
  destruct (float_of_numeric n v E Hf) as (neg & m & e & ->).
  unfold ge_zero. now rewrite Hlt.
Qed.

(** C10. [extract_number], with [allow_negative] at its default, returns
    on every string: it never raises and never gives [None], and the float
    it gives is [>= 0.0].  "KURU", "-----", the empty string and strings
    without a digit give 0.0, and a number read as negative is replaced by
    0.0. *)
Theorem extract_number_total_nonneg :
  (forall text,
     exists v, NewPdfReader2020.extract_number text false = ([], inr (Some v))
               /\ ge_zero v = true)
  /\ (forall text,
        In (strip text) [u "KURU"; u "-----"; []] \/ digitless text ->
        NewPdfReader2020.extract_number text false = ([], inr (Some zero)))
  /\ (forall text n more v,
        findall NewPdfReader2020.number_re (replace (u ",") (u ".") text)
        = n :: more ->
        float_of_str n = Some v -> lt_zero v = true ->
        NewPdfReader2020.extract_number text false = ([], inr (Some zero)))
  /\ NewPdfReader2020.extract_number (u "-5") false = ([], inr (Some zero))
  /\ NewPdfReader2020.extract_number (u "-0,25") false = ([], inr (Some zero)).
Proof.
  assert (Hclamp : forall text n more v,
    findall NewPdfReader2020.number_re (replace (u ",") (u ".") text)
    = n :: more ->
    float_of_str n = Some v -> lt_zero v = true ->
    NewPdfReader2020.extract_number text false = ([], inr (Some zero))).
  { intros text n more v E Hf Hlt. unfold NewPdfReader2020.extract_number.
    destruct (eqb text [] || existsb (eqb (strip text)) _); [reflexivity |].
    rewrite E, Hf. cbn. now rewrite Hlt. }
  split; [| split; [| split; [exact Hclamp | split; vm_compute; reflexivity]]].
  - exact extract_number_value.
  - intros text [Hin | Hd]; unfold NewPdfReader2020.extract_number.
    + replace (existsb (eqb (strip text)) [u "KURU"; u "-----"; []]) with true;
        [now rewrite orb_true_r |].
      symmetry. apply existsb_exists. exists (strip text). split; [exact Hin |].
      unfold eqb. now apply bool_decide_eq_true_2.
    + destruct (eqb text [] || existsb (eqb (strip text)) _); [reflexivity |].
      change (u ",") with [44]. change (u ".") with [46].
      now rewrite findall_number_digitless by now apply replace_comma_digitless.
Qed.

Lemma extract_number_total_nonneg_witness :
  (In (strip (u " KURU ")) [u "KURU"; u "-----"; []] \/ digitless (u " KURU "))
  /\ NewPdfReader2020.extract_number (u " KURU ") false = ([], inr (Some zero))
  /\ digitless (u "yok")
  /\ NewPdfReader2020.extract_number (u "yok") false = ([], inr (Some zero))
  /\ findall NewPdfReader2020.number_re (replace (u ",") (u ".") (u "x -3,5 7"))
     = [u "-3.5"; u "7"]
  /\ float_of_str (u "-3.5") = Some (FNum true 35 (-1))
  /\ lt_zero (FNum true 35 (-1)) = true
  /\ NewPdfReader2020.extract_number (u "x -3,5 7") false
     = ([], inr (Some zero)).
Proof.
  destruct extract_number_total_nonneg as (_ & Hzero & Hclamp & _).
  assert (H1 : In (strip (u " KURU ")) [u "KURU"; u "-----"; []]
               \/ digitless (u " KURU ")) by (left; left; reflexivity).
  assert (H2 : digitless (u "yok")) by (repeat constructor).
  assert (H3 : findall NewPdfReader2020.number_re
                 (replace (u ",") (u ".") (u "x -3,5 7")) = [u "-3.5"; u "7"])
    by reflexivity.
  assert (H4 : float_of_str (u "-3.5") = Some (FNum true 35 (-1)))
    by reflexivity.
  assert (H5 : lt_zero (FNum true 35 (-1)) = true) by reflexivity.
  exact (conj H1 (conj (Hzero _ H1) (conj H2 (conj (Hzero _ (or_intror H2))
           (conj H3 (conj H4 (conj H5 (Hclamp _ _ _ _ H3 H4 H5)))))))).
Defined.

(** ** C5: the allow-list *)

(** The station code of a record is in the set [S]. *)
Definition station_code_in (S : gset str) (r : record) : Prop :=
  exists c, r !! "station_code"%string = Some (VStr c) /\ c ∈ S.

(** Every record handed to [to_csv] satisfies [P]. *)
Definition frames_ok (P : record -> Prop) (ev : event) : Prop :=
  match ev with
  | DataFrameToCsv _ rows => Forall P rows
  | CsvAppend _ _ => False
  | _ => True
  end.

Lemma print_frames_ok P ev : is_print ev -> frames_ok P ev.
Proof. destruct ev; cbn; intros H; try contradiction; auto. Qed.

Lemma frames_ok_rows P t : Forall (frames_ok P) t -> Forall P (frame_rows t).
Proof.
  induction 1 as [| ev t Hev _ IH]; [constructor |].
  unfold frame_rows in *. cbn [flat_map]. apply List.Forall_app.
  split; [| exact IH]. destruct ev; cbn in Hev; try constructor; assumption.
Qed.

(** Silent computations: no event, and no failure but [ValueError]. *)
Definition silent {A} (m : io A) : Prop :=
  trace m = [] /\ forall e, outcome m = inl e -> e = ValueError.

Lemma silent_ret {A} (a : A) : silent (mret a : io A).
Proof. split; [reflexivity | discriminate]. Qed.

Lemma silent_lift {A} (o : option A) : silent (lift ValueError o).
Proof. destruct o; split; try reflexivity; try discriminate. now intros ? [= <-]. Qed.

Lemma silent_bind {A B} (m : io A) (f : A -> io B) :
  silent m -> (forall a, silent (f a)) -> silent (m ≫= f).
Proof.
  intros [Ht He] Hf. split.
  - rewrite trace_bind, Ht. destruct (outcome m); [reflexivity | apply Hf].
  - intros e. rewrite outcome_bind. destruct (outcome m) eqn:E.
    + intros [= <-]. now apply He.
    + apply Hf.
Qed.

Lemma silent_mapM {A B} (f : A -> io B) l :
  (forall a, silent (f a)) -> silent (mapM f l).
Proof.
  intros Hf. induction l as [| a l IH]; cbn [mapM]; [apply silent_ret |].
  apply silent_bind; [apply Hf |]. intros b.
  apply silent_bind; [exact IH |]. intros bs. apply silent_ret.
Qed.

Lemma silent_foldM {A S} (f : S -> A -> io S) l :
  (forall s a, silent (f s a)) -> forall s, silent (foldM f s l).
Proof.
  intros Hf. induction l as [| a l IH]; intros s; cbn [foldM].
  - apply silent_ret.
  - apply (silent_bind (f s a)); [apply Hf | apply IH].
Qed.

Lemma silent_holds {A} (T : event -> Prop) (m : io A) :
  silent m -> holds T (fun _ => True) m.
Proof. intros [Ht _]. split; [rewrite Ht; constructor | auto]. Qed.

Lemma silent_holds_self {A} (T : event -> Prop) (m : io A) :
  silent m -> holds T (fun a => exists t, m = (t, inr a)) m.
Proof.
  intros [Ht _]. destruct m as [t [e | a]]; cbn in Ht; subst t.
  - split; [constructor | discriminate].
  - split; [constructor |]. intros ? [= <-]. now exists [].
Qed.

(** *** catchment_data_km2.py *)

Lemma station_code_of_target line code :
  CatchmentDataKm2.station_code_of line = Some code ->
  code ∈ CatchmentDataKm2.TARGET_STATIONS.
Proof.
  unfold CatchmentDataKm2.station_code_of.
  destruct (re_match _ line); [| discriminate].
  case_bool_decide; [| discriminate]. now intros [= <-].
Qed.

Lemma area_scan_holds code pno window :
  code ∈ CatchmentDataKm2.TARGET_STATIONS ->
  holds is_print (Forall (station_code_in CatchmentDataKm2.TARGET_STATIONS))
    (CatchmentDataKm2.area_scan code pno window).
Proof.
  intros Hc. induction window as [| l w IH]; cbn [CatchmentDataKm2.area_scan].
  - now apply holds_ret.
  - destruct (_ || _); [| exact IH].
    destruct (re_search _ l); [| now apply holds_ret].
    eapply (holds_bind is_print (fun _ => True));
      [now apply holds_lift |]. intros val _.
    eapply holds_bind; [now apply holds_emit' |]. intros _ _.
    apply holds_ret. constructor; [| constructor].
    exists code. split; [apply lookup_insert_eq | exact Hc].
Qed.

Lemma scan_lines_holds lines pno todo :
  forall i,
    holds is_print (Forall (station_code_in CatchmentDataKm2.TARGET_STATIONS))
      (CatchmentDataKm2.scan_lines lines pno i todo).
Proof.
  induction todo as [| line todo IH]; intros i;
    cbn [CatchmentDataKm2.scan_lines].
  - now apply holds_ret.
  - destruct (CatchmentDataKm2.station_code_of line) as [code |] eqn:E;
      [| apply IH].
    eapply holds_bind; [apply area_scan_holds; eapply station_code_of_target, E |].
    intros found Hf. eapply holds_bind; [apply IH |]. intros more Hm.
    apply holds_ret. now apply List.Forall_app.
Qed.

Lemma extract_catchments_holds doc :
  holds is_print (Forall (station_code_in CatchmentDataKm2.TARGET_STATIONS))
    (CatchmentDataKm2.extract_catchments doc).
Proof.
  unfold CatchmentDataKm2.extract_catchments. generalize 0%nat.
  induction doc as [| text doc IH]; intros pno;
    cbn [CatchmentDataKm2.scan_pages].
  - now apply holds_ret.
  - destruct (eqb (strip text) []); [apply IH |].
    eapply holds_bind; [apply scan_lines_holds |]. intros found Hf.
    eapply holds_bind; [apply IH |]. intros more Hm.
    apply holds_ret. now apply List.Forall_app.
Qed.

Lemma catchment_main_frames P O pdf :
  Forall (frames_ok (station_code_in CatchmentDataKm2.TARGET_STATIONS))
    (trace (CatchmentDataKm2.main P O pdf)).
Proof.
  assert (H : holds (frames_ok (station_code_in CatchmentDataKm2.TARGET_STATIONS))
                (fun _ => True) (CatchmentDataKm2.main P O pdf)); [| apply H].
  unfold CatchmentDataKm2.main. destruct pdf as [doc |];
    [| now apply holds_emit'].
  eapply holds_bind.
  - eapply holds_weaken; [apply print_frames_ok | | apply extract_catchments_holds].
    intros a Ha. exact Ha.
  - intros df Hdf. destruct df as [| r df]; [now apply holds_emit' |].
    eapply holds_bind; [apply holds_emit'; exact Hdf |].
    intros _ _. now apply holds_emit'.
Qed.

(** *** new_pdf_reader_2020.py *)

Lemma silent_float_group m : silent (NewPdfReader2020.float_group m).
Proof.
  unfold NewPdfReader2020.float_group. destruct m; [| apply silent_ret].
  apply silent_bind; [apply silent_lift |]. intros. apply silent_ret.
Qed.

Lemma silent_extract_catchment_info lines :
  silent (NewPdfReader2020.extract_catchment_info lines).
Proof.
  induction lines as [| line lines IH];
    cbn [NewPdfReader2020.extract_catchment_info]; [apply silent_ret |].
  destruct (_ || _); [| exact IH].
  apply silent_bind; [apply silent_float_group |]. intros.
  apply silent_bind; [apply silent_float_group |]. intros. apply silent_ret.
Qed.

Lemma silent_extract_avg_annual_flow lines :
  silent (NewPdfReader2020.extract_avg_annual_flow lines).
Proof.
  induction lines as [| line lines IH];
    cbn [NewPdfReader2020.extract_avg_annual_flow]; [apply silent_ret |].
  destruct (_ || _); [| exact IH].
  destruct (re_search _ line); [apply silent_float_group | exact IH].
Qed.

Lemma silent_extract_annual_totals lines :
  silent (NewPdfReader2020.extract_annual_totals lines).
Proof.
  induction lines as [| line lines IH];
    cbn [NewPdfReader2020.extract_annual_totals]; [apply silent_ret |].
  destruct (_ && _); [| exact IH].
  repeat (apply silent_bind; [apply silent_float_group |]; intros).
  apply silent_ret.
Qed.

Lemma silent_extract_number text :
  silent (NewPdfReader2020.extract_number text false).
Proof.
  destruct (extract_number_value text) as (v & -> & _).
  split; [reflexivity | discriminate].
Qed.

Lemma silent_numbers_of text : silent (NewPdfReader2020.numbers_of text).
Proof.
  unfold NewPdfReader2020.numbers_of. apply silent_mapM. intros n.
  apply silent_bind; [apply silent_extract_number |]. intros. apply silent_ret.
Qed.

Lemma silent_monthly_step st line :
  silent (NewPdfReader2020.monthly_step st line).
Proof.
  unfold NewPdfReader2020.monthly_step.
  destruct (eqb (strip line) []); [apply silent_ret |].
  destruct (find _ _).
  - apply silent_bind; [apply silent_numbers_of |]. intros. apply silent_ret.
  - destruct (NewPdfReader2020.current_label st); [| apply silent_ret].
    apply silent_bind; [apply silent_numbers_of |]. intros. apply silent_ret.
Qed.

Lemma silent_extract_monthly_data lines :
  silent (NewPdfReader2020.extract_monthly_data lines).
Proof.
  unfold NewPdfReader2020.extract_monthly_data.
  apply silent_bind; [| intros; apply silent_ret].
  apply silent_foldM. apply silent_monthly_step.
Qed.

(** The keys of the monthly table all start with a month. *)
Lemma fold_insert_lookup {A} (key : A -> string) (v : A -> val) k l :
  forall (r : record),
    Forall (fun a => key a <> k) l ->
    fold_left (fun r a => <[key a := v a]> r) l r !! k = r !! k.
Proof.
  induction l as [| a l IH]; intros r H; cbn [fold_left]; [reflexivity |].
  inversion H; subst. rewrite IH by assumption. now apply lookup_insert_ne.
Qed.

Definition not_monthly (k : string) : Prop :=
  forall suffix,
    Forall (fun month => NewPdfReader2020.field_name month suffix <> k)
      NewPdfReader2020.month_short.

Lemma save_label_lookup k st :
  not_monthly k ->
  NewPdfReader2020.save_label st !! k = NewPdfReader2020.monthly_data st !! k.
Proof.
  intros Hk. unfold NewPdfReader2020.save_label.
  destruct (NewPdfReader2020.current_label st) as [s |]; [| reflexivity].
  destruct (NewPdfReader2020.current_values st); [reflexivity |].
  apply (fold_insert_lookup
           (fun im => NewPdfReader2020.field_name (snd im) _)
           (fun im => nth (fst im) _ _)).
  specialize (Hk (nth (NewPdfReader2020.index_of s NewPdfReader2020.labels)
                    NewPdfReader2020.suffixes ""%string)).
  revert Hk. generalize NewPdfReader2020.month_short.
  intros months Hk. generalize 0%nat.
  induction Hk as [| m months Hm _ IH]; intros n; cbn; constructor; auto.
Qed.

Lemma monthly_step_lookup k st line t st' :
  not_monthly k ->
  NewPdfReader2020.monthly_step st line = (t, inr st') ->
  NewPdfReader2020.monthly_data st' !! k = NewPdfReader2020.monthly_data st !! k.
Proof.
  intros Hk. unfold NewPdfReader2020.monthly_step.
  destruct (eqb (strip line) []); [now intros [= _ <-] |].
  destruct (find _ _).
  - intros H. apply bind_ok in H as (t1 & vs & t2 & _ & [= _ <-] & _).
    cbn. now apply save_label_lookup.
  - destruct (NewPdfReader2020.current_label st); [| now intros [= _ <-]].
    intros H. apply bind_ok in H as (t1 & vs & t2 & _ & [= _ <-] & _).
    reflexivity.
Qed.

Lemma extract_monthly_data_lookup k lines t data :
  not_monthly k ->
  NewPdfReader2020.extract_monthly_data lines = (t, inr data) ->
  data !! k = None.
Proof.
  intros Hk. unfold NewPdfReader2020.extract_monthly_data. intros H.
  apply bind_ok in H as (t1 & st & t2 & Hfold & [= _ <-] & _).
  rewrite save_label_lookup by assumption.
  assert (G : forall st0 t st,
             foldM NewPdfReader2020.monthly_step st0 lines = (t, inr st) ->
             NewPdfReader2020.monthly_data st !! k
             = NewPdfReader2020.monthly_data st0 !! k).
  { clear - Hk. induction lines as [| l lines IH];
      intros st0 t st; cbn [foldM].
    - now intros [= _ <-].
    - intros H. change (bind ?m ?f) with (m ≫= f) in H.
      apply bind_ok in H as (t1 & st1 & t2 & H1 & H2 & _).
      rewrite (IH _ _ _ H2). eapply monthly_step_lookup; eassumption. }
  rewrite (G _ _ _ Hfold). reflexivity.
Qed.

Lemma station_code_not_monthly : not_monthly "station_code".
Proof. intros suffix. repeat constructor; discriminate. Qed.

Lemma parse_station_page_holds text n f y :
  holds is_print
    (fun o => forall r, o = Some r ->
                        station_code_in NewPdfReader2020.ALLOWED_STATIONS r)
    (NewPdfReader2020.parse_station_page text n f y).
Proof.
  unfold NewPdfReader2020.parse_station_page.
  destruct (NewPdfReader2020.page_lines text) as [| first rest] eqn:El;
    [now apply holds_ret |].
  destruct (negb _); [now apply holds_ret |].
  destruct (NewPdfReader2020.extract_station_info _) as [info |];
    [| now apply holds_ret].
  case_bool_decide as Hin; cbn [negb].
  - eapply (holds_bind is_print (fun _ => True));
      [apply silent_holds, silent_extract_catchment_info |]. intros ce _.
    eapply (holds_bind is_print (fun _ => True));
      [apply silent_holds, silent_extract_avg_annual_flow |]. intros af _.
    eapply holds_bind;
      [apply silent_holds_self, silent_extract_monthly_data |].
    intros monthly [tm Em].
    eapply (holds_bind is_print (fun _ => True));
      [apply silent_holds, silent_extract_annual_totals |].
    intros [[tf mm] lt] _. apply holds_ret. intros r [= <-].
    exists (NewPdfReader2020.str_field info "station_code"). split; [| exact Hin].
    rewrite lookup_union_r
      by (eapply extract_monthly_data_lookup;
          [apply station_code_not_monthly | exact Em]).
    now simplify_map_eq.
  - eapply holds_bind; [now apply holds_emit' |]. intros _ _.
    now apply holds_ret.
Qed.

Lemma process_pages_holds p y pages :
  forall n,
    holds is_print (Forall (station_code_in NewPdfReader2020.ALLOWED_STATIONS))
      (NewPdfReader2020.process_pages p y n pages).
Proof.
  induction pages as [| text pages IH]; intros n;
    cbn [NewPdfReader2020.process_pages]; [now apply holds_ret |].
  eapply (holds_bind is_print
            (Forall (station_code_in NewPdfReader2020.ALLOWED_STATIONS))).
  - destruct (NewPdfReader2020.page_lines text) as [| first rest].
    + eapply holds_bind; [now apply holds_emit' |]. intros _ _.
      now apply holds_ret.
    + destruct (negb _).
      * eapply holds_bind; [now apply holds_emit' |]. intros _ _.
        now apply holds_ret.
      * eapply holds_bind; [apply parse_station_page_holds |].
        intros [r |] Hr.
        -- eapply holds_bind; [now apply holds_emit' |]. intros _ _.
           apply holds_ret. constructor; [now apply Hr | constructor].
        -- eapply holds_bind; [now apply holds_emit' |]. intros _ _.
           now apply holds_ret.
  - intros found Hf. eapply holds_bind; [apply IH |]. intros more Hm.
    apply holds_ret. now apply List.Forall_app.
Qed.

Lemma new_pdf_reader_main_frames p o pdf :
  Forall (frames_ok (station_code_in NewPdfReader2020.ALLOWED_STATIONS))
    (trace (NewPdfReader2020.main p o pdf)).
Proof.
  assert (H : holds (frames_ok (station_code_in NewPdfReader2020.ALLOWED_STATIONS))
                (fun _ => True) (NewPdfReader2020.main p o pdf)); [| apply H].
  unfold NewPdfReader2020.main, NewPdfReader2020.process_pdf.
  apply holds_catch.
  - eapply (holds_bind _ (fun _ => True)); [| intros; now apply holds_ret].
    eapply holds_bind; [now apply holds_emit' |]. intros _ _.
    eapply (holds_bind _ (fun _ => True)); [now apply holds_lift |].
    intros doc _.
    eapply holds_bind; [now apply holds_emit' |]. intros _ _.
    eapply holds_bind.
    { eapply holds_weaken; [apply print_frames_ok | | apply process_pages_holds].
      intros a Ha. exact Ha. }
    intros res Hres.
    eapply (holds_bind _ (fun _ => True)); [| intros; now apply holds_ret].
    destruct res as [| r res]; [now apply holds_emit' |].
    eapply holds_bind; [apply holds_emit'; exact Hres |]. intros _ _.
    eapply holds_bind; [now apply holds_emit' |]. intros _ _.
    now apply holds_emit'.
  - intros e. eapply holds_bind; [now apply holds_emit' |]. intros _ _.
    now apply holds_emit'.
Qed.

(** *** dsi_final_structured_extractor.py *)

Import DsiFinalStructuredExtractor.

(** What every record of a file of year [y] carries. *)
Definition station_year (self : DSIFinalExtractor) (y : N) (r : record)
  : Prop :=
  r !! "year"%string = Some (VInt (Z.of_N y))
  /\ exists c, r !! "station_code"%string = Some (VStr c)
               /\ c ∈ target_stations self.

(** The monthly columns leave the eleven leading ones alone. *)
Definition leading_kept (self : DSIFinalExtractor) : Prop :=
  Forall (fun k => k <> "year"%string /\ k <> "station_code"%string)
    (monthly_keys self).

Lemma find_station_target self lines rows code name :
  find_station self lines rows = Some (code, name) ->
  code ∈ target_stations self.
Proof.
  induction rows as [| i rows IH]; cbn [find_station]; [discriminate |].
  destruct (_extract_station_code _) as [c |]; [| exact IH].
  destruct (negb (eqb c [])); cbn [andb]; [| exact IH].
  case_bool_decide; [| exact IH]. now intros [= <- _].
Qed.

Lemma monthly_line_quiet self data line :
  holds quiet (fun _ => True) (monthly_line self data line).
Proof.
  unfold monthly_line. destruct (find _ _) as [[metric kws] |];
    [| now apply holds_ret].
  eapply holds_bind; [now apply holds_emit' |]. intros _ _.
  destruct (12 <=? _)%nat.
  - eapply holds_bind; [now apply holds_emit' |]. intros _ _.
    apply (holds_foldM quiet (fun _ => True)); [| exact I].
    intros md [j month] _ _. destruct (_ !! j); [| now apply holds_ret].
    destruct (_normalize_number _); [| now apply holds_ret].
    eapply holds_bind; [now apply holds_emit' |]. intros _ _.
    now apply holds_ret.
  - eapply holds_bind; [now apply holds_emit' |]. intros _ _.
    now apply holds_ret.
Qed.

Lemma monthly_data_quiet self text :
  holds quiet (fun _ => True) (_extract_monthly_data_structured self text).
Proof.
  unfold _extract_monthly_data_structured.
  apply (holds_foldM quiet (fun _ => True)); [| exact I].
  intros. apply monthly_line_quiet.
Qed.

Lemma cells_keys (months metrics : list string) :
  map (fun mm : string * string => month_metric_key (fst mm) (snd mm))
    (flat_map (fun metric => map (fun month => (month, metric)) months)
       metrics)
  = flat_map (fun metric => map (fun month => month_metric_key month metric)
                              months)
      metrics.
Proof.
  induction metrics as [| metric metrics IH]; [reflexivity |].
  cbn [flat_map]. rewrite map_app, IH, map_map. reflexivity.
Qed.

Lemma station_data_holds self text n f y :
  leading_kept self ->
  holds quiet (fun o => forall r, o = Some r -> station_year self y r)
    (_extract_station_data_structured self text n f y).
Proof.
  intros Hkeys. unfold _extract_station_data_structured.
  destruct (find_station _ _ _) as [[code name] |] eqn:Ef;
    [| now apply holds_ret].
  apply find_station_target in Ef.
  eapply holds_bind; [now apply holds_emit' |]. intros _ _.
  destruct (fold_left _ _ _) as [[coordinates area] flow].
  eapply holds_bind; [apply monthly_data_quiet |]. intros md _.
  destruct (_extract_annual_totals text) as [[total mm] lt].
  eapply holds_bind; [now apply holds_emit' |]. intros _ _.
  eapply (holds_bind quiet (fun _ => True)).
  { destruct (_ <? _)%nat; [| now apply holds_ret].
    eapply holds_bind; [now apply holds_emit' |]. intros _ _.
    now apply holds_emit'. }
  intros _ _. apply holds_ret. intros r [= <-].
  assert (Hk : forall k,
            k = "year"%string \/ k = "station_code"%string ->
            Forall (fun mm : string * string =>
                      month_metric_key (fst mm) (snd mm) <> k)
              (flat_map (fun metric => map (fun month => (month, metric))
                                         (months self))
                 (metrics self))).
  { intros k Hk. apply List.Forall_map with
      (f := fun mm : string * string => month_metric_key (fst mm) (snd mm))
      (P := fun key => key <> k).
    rewrite cells_keys. eapply List.Forall_impl; [| exact Hkeys].
    intros key [H1 H2]. destruct Hk; congruence. }
  split.
  - rewrite (fold_insert_lookup
               (fun mm : string * string => month_metric_key (fst mm) (snd mm)))
      by (apply Hk; now left).
    now simplify_map_eq.
  - exists code. split; [| exact Ef].
    rewrite (fold_insert_lookup
               (fun mm : string * string => month_metric_key (fst mm) (snd mm)))
      by (apply Hk; now right).
    now simplify_map_eq.
Qed.

Lemma structured_pages_holds self f y pages :
  leading_kept self ->
  forall n,
    holds quiet (fun res => Forall (station_year self y) (fst res))
      (DsiFinalStructuredExtractor.process_pages self f y n pages).
Proof.
  intros Hkeys. induction pages as [| text pages IH]; intros n;
    cbn [DsiFinalStructuredExtractor.process_pages].
  - apply holds_ret. constructor.
  - eapply holds_bind; [now apply station_data_holds |]. intros o Ho.
    eapply holds_bind; [apply IH |]. intros [results [np ns]] Hres.
    destruct o as [r |]; apply holds_ret; cbn [fst] in *; [| assumption].
    constructor; [now apply Ho | assumption].
Qed.

Lemma process_pdf_holds self filename pdf y :
  leading_kept self -> year_of filename = Some y ->
  holds quiet (Forall (station_year self y))
    (_process_pdf_structured self filename pdf).
Proof.
  intros Hkeys Hy. unfold _process_pdf_structured. rewrite Hy.
  apply holds_catch.
  - eapply (holds_bind quiet (fun _ => True)); [now apply holds_lift |].
    intros doc _.
    eapply holds_bind; [now apply holds_emit' |]. intros _ _.
    eapply holds_bind; [now apply structured_pages_holds |].
    intros [results [np ns]] Hres.
    eapply holds_bind; [now apply holds_emit' |]. intros _ _.
    now apply holds_ret.
  - intros e. eapply holds_bind; [now apply holds_emit' |]. intros _ _.
    apply holds_ret. constructor.
Qed.

Lemma process_pdf_returns self filename pdf :
  returns (_process_pdf_structured self filename pdf).
Proof.
  unfold _process_pdf_structured. destruct (year_of filename).
  - apply returns_catch. intros e.
    apply returns_bind; [apply returns_emit | intros; apply returns_ret].
  - apply returns_bind; [apply returns_emit | intros; apply returns_ret].
Qed.

(** The station and the year of a written row, its fourth and third
    cells. *)
Definition row_key (row : list val) : option val * option val :=
  (row !! 3%nat, row !! 2%nat).

(** The rows written so far, against the set of processed pairs. *)
Definition rows_inv (targets : gset str) (S : gset (str * N))
  (rows : list (list val)) : Prop :=
  NoDup (map row_key rows)
  /\ Forall (fun row =>
               exists c y,
                 row_key row = (Some (VStr c), Some (VInt (Z.of_N y)))
                 /\ (c, y) ∈ S /\ c ∈ targets)
       rows.

Lemma csv_rows_app t1 t2 : csv_rows (t1 ++ t2) = csv_rows t1 ++ csv_rows t2.
Proof. apply flat_map_app. Qed.

Lemma append_result_inv self y S n result rows :
  station_year self y result ->
  rows_inv (target_stations self) S rows ->
  exists t S' n',
    append_result self y (S, n) result = (t, inr (S', n'))
    /\ rows_inv (target_stations self) S' (rows ++ csv_rows t).
Proof.
  intros (Hyear & c & Hcode & Hc) [Hnd Hrows].
  unfold append_result, str_field. rewrite Hcode.
  case_bool_decide as Hin.
  - exists [Log WARNING "⚠️ {result['station_code']} skipped (duplicate)"
              [VStr c]], S, n.
    split; [reflexivity |]. cbn. rewrite app_nil_r. now split.
  - eexists [CsvAppend (output_file self) _], ({[(c, y)]} ∪ S), (Datatypes.S n).
    split; [reflexivity |]. cbn [csv_rows flat_map app].
    set (row := map _ _ ++ _).
    assert (Hkey : row_key row = (Some (VStr c), Some (VInt (Z.of_N y)))).
    { subst row. unfold row_key. cbn. now rewrite Hcode, Hyear. }
    split.
    + rewrite map_app. cbn [map]. apply NoDup_app. split; [exact Hnd |].
      split; [| apply NoDup_singleton].
      intros k Hk Hk'. apply list_elem_of_singleton in Hk'. subst k.
      apply list_elem_of_fmap in Hk as (row0 & Hk0 & Hin0).
      rewrite List.Forall_forall in Hrows.
      apply list_elem_of_In in Hin0.
      destruct (Hrows row0 Hin0) as (c0 & y0 & Hk1 & HS & _).
      rewrite Hkey, Hk1 in Hk0. injection Hk0 as -> Hy.
      apply N2Z.inj in Hy. subst y0. contradiction.
    + apply List.Forall_app. split.
      * eapply List.Forall_impl; [| exact Hrows].
        intros row0 (c0 & y0 & ? & ? & ?). exists c0, y0.
        repeat split; try assumption. set_solver.
      * constructor; [| constructor]. exists c, y.
        repeat split; try assumption. set_solver.
Qed.

Lemma append_results_inv self y results :
  Forall (station_year self y) results ->
  forall S n rows,
    rows_inv (target_stations self) S rows ->
    exists t st',
      foldM (append_result self y) (S, n) results = (t, inr st')
      /\ rows_inv (target_stations self) (fst st') (rows ++ csv_rows t).
Proof.
  induction 1 as [| r results Hr _ IH]; intros S n rows Hinv; cbn [foldM].
  - exists [], (S, n). split; [reflexivity |]. cbn. now rewrite app_nil_r.
  - destruct (append_result_inv self y S n r rows Hr Hinv)
      as (t1 & S1 & n1 & E1 & Hinv1).
    destruct (IH S1 n1 _ Hinv1) as (t2 & st2 & E2 & Hinv2).
    exists (t1 ++ t2), st2. rewrite E1. cbn [bind]. rewrite E2.
    split; [reflexivity |]. now rewrite csv_rows_app, app_assoc.
Qed.

Lemma process_file_inv self st entry rows :
  leading_kept self ->
  rows_inv (target_stations self) (fst st) rows ->
  exists t st',
    process_file self st entry = (t, inr st')
    /\ rows_inv (target_stations self) (fst st') (rows ++ csv_rows t).
Proof.
  intros Hkeys Hinv. destruct entry as [pdf_file pdf]. unfold process_file.
  destruct (year_of pdf_file) as [y |] eqn:Hy.
  - destruct (process_pdf_holds self pdf_file pdf y Hkeys Hy) as [Hq Hres].
    destruct (process_pdf_returns self pdf_file pdf) as [results Hret].
    destruct (_process_pdf_structured self pdf_file pdf) as [t1 o] eqn:E.
    cbn in Hret, Hq, Hres. subst o. specialize (Hres results eq_refl).
    destruct st as [S n]. cbn [fst] in Hinv.
    destruct (append_results_inv self y results Hres S n rows Hinv)
      as (t2 & st2 & E2 & Hinv2).
    exists (t1 ++ t2), st2. rewrite bind_unfold. cbn [bind]. rewrite E2.
    split; [reflexivity |].
    rewrite csv_rows_app. destruct (quiet_rows t1 Hq) as [_ ->]. exact Hinv2.
  - exists [], st. split; [reflexivity |]. cbn. now rewrite app_nil_r.
Qed.

Lemma process_files_inv self files :
  leading_kept self ->
  forall st rows,
    rows_inv (target_stations self) (fst st) rows ->
    exists t st',
      foldM (process_file self) st files = (t, inr st')
      /\ rows_inv (target_stations self) (fst st') (rows ++ csv_rows t).
Proof.
  intros Hkeys. induction files as [| entry files IH]; intros st rows Hinv;
    cbn [foldM].
  - exists [], st. split; [reflexivity |]. cbn. now rewrite app_nil_r.
  - destruct (process_file_inv self st entry rows Hkeys Hinv)
      as (t1 & st1 & E1 & Hinv1).
    destruct (IH st1 _ Hinv1) as (t2 & st2 & E2 & Hinv2).
    exists (t1 ++ t2), st2. rewrite E1. cbn [bind]. rewrite E2.
    split; [reflexivity |]. now rewrite csv_rows_app, app_assoc.
Qed.

Lemma new_self_leading_kept d o : leading_kept (new_self d o).
Proof. unfold leading_kept. cbn. repeat constructor; discriminate. Qed.

(** A run of the structured extractor returns, and its rows keep the
    invariant. *)
Lemma structured_main_inv d o directory :
  outcome (DsiFinalStructuredExtractor.main d o directory) = inr tt
  /\ exists S,
       rows_inv (target_stations (new_self d o)) S
         (csv_rows (trace (DsiFinalStructuredExtractor.main d o directory))).
Proof.
  unfold DsiFinalStructuredExtractor.main, init, _initialize_csv,
    process_all_pdfs_structured.
  set (self := new_self d o).
  destruct directory as [entries |].
  - destruct (process_files_inv self
                (sorted_by_name
                   (List.filter (fun e => endswith (u ".pdf") (fst e)) entries))
                (new_self_leading_kept d o) (∅, 0%nat) [])
      as (t & st & E & Hinv).
    { split; constructor. }
    rewrite !bind_unfold. cbn [bind emit ret mret io_ret app]. rewrite E.
    cbn. split; [reflexivity |]. exists (fst st).
    rewrite csv_rows_app. cbn in Hinv |- *. now rewrite app_nil_r.
  - cbn. split; [reflexivity |]. exists ∅. split; constructor.
Qed.

(** *** Pages without a target station *)

Lemma scan_lines_nothing lines pno todo :
  Forall (fun line => CatchmentDataKm2.station_code_of line = None) todo ->
  forall i, CatchmentDataKm2.scan_lines lines pno i todo = ([], inr []).
Proof.
  induction 1 as [| line todo Hl _ IH]; intros i;
    cbn [CatchmentDataKm2.scan_lines]; [reflexivity |].
  rewrite Hl. apply IH.
Qed.

Lemma station_code_of_outside line :
  (forall m, re_match CatchmentDataKm2.station_line_re line = Some m ->
             upper (default [] (group 1 m))
             ∉ CatchmentDataKm2.TARGET_STATIONS) ->
  CatchmentDataKm2.station_code_of line = None.
Proof.
  intros H. unfold CatchmentDataKm2.station_code_of.
  destruct (re_match _ line) as [m |]; [| reflexivity].
  specialize (H m eq_refl). now case_bool_decide.
Qed.

Lemma find_station_nothing self lines rows :
  (forall i code,
     In i rows -> _extract_station_code (default [] (lines !! i)) = Some code ->
     code ∉ target_stations self) ->
  find_station self lines rows = None.
Proof.
  induction rows as [| i rows IH]; intros H; cbn [find_station];
    [reflexivity |].
  destruct (_extract_station_code _) as [code |] eqn:E.
  - pose proof (H i code (or_introl eq_refl) E) as Hc.
    case_bool_decide; [contradiction |]. rewrite andb_false_r.
    apply IH. intros j c Hj. apply H. now right.
  - apply IH. intros j c Hj. apply H. now right.
Qed.

(** C5. Every record that a run appends to its output has a station code
    of the allow-list of its script: the records handed to [to_csv] by
    catchment_data_km2.py and new_pdf_reader_2020.py, and the rows written
    by the structured extractor, whose fourth cell is the station code.
    A page whose station codes are all outside the list yields no record.
    (The lists themselves are constants: a module-level set, and an
    attribute set once by [__init__]; no function assigns them.) *)
Theorem allow_list_respected :
  (forall P O pdf,
     Forall (station_code_in CatchmentDataKm2.TARGET_STATIONS)
       (frame_rows (trace (CatchmentDataKm2.main P O pdf))))
  /\ (forall p o pdf,
        Forall (station_code_in NewPdfReader2020.ALLOWED_STATIONS)
          (frame_rows (trace (NewPdfReader2020.main p o pdf))))
  /\ (forall d o directory,
        Forall (fun row => exists c, row !! 3%nat = Some (VStr c)
                                     /\ c ∈ target_stations (new_self d o))
          (csv_rows (trace (DsiFinalStructuredExtractor.main d o directory))))
  /\ (forall text pno,
        Forall (fun line =>
                  forall m,
                    re_match CatchmentDataKm2.station_line_re line = Some m ->
                    upper (default [] (group 1 m))
                    ∉ CatchmentDataKm2.TARGET_STATIONS)
          (CatchmentDataKm2.page_lines text) ->
        CatchmentDataKm2.scan_lines (CatchmentDataKm2.page_lines text) pno 0
          (CatchmentDataKm2.page_lines text) = ([], inr []))
  /\ (forall text n f y info,
        NewPdfReader2020.extract_station_info
          (NewPdfReader2020.next_lines (NewPdfReader2020.page_lines text))
        = Some info ->
        NewPdfReader2020.str_field info "station_code"
        ∉ NewPdfReader2020.ALLOWED_STATIONS ->
        outcome (NewPdfReader2020.parse_station_page text n f y) = inr None)
  /\ (forall self text n f y,
        (forall i code,
           In i (rows_to_check (split_on 10 text)) ->
           _extract_station_code (default [] (split_on 10 text !! i))
           = Some code ->
           code ∉ target_stations self) ->
        _extract_station_data_structured self text n f y = ([], inr None)).
Proof.
  repeat apply conj.
  - intros. apply frames_ok_rows, catchment_main_frames.
  - intros. apply frames_ok_rows, new_pdf_reader_main_frames.
  - intros d o directory.
    destruct (structured_main_inv d o directory) as (_ & S & _ & Hrows).
    eapply List.Forall_impl; [| exact Hrows].
    intros row (c & y & Hk & _ & Hc). exists c. split; [| exact Hc].
    unfold row_key in Hk. congruence.
  - intros text pno H. apply scan_lines_nothing.
    eapply List.Forall_impl; [| exact H]. apply station_code_of_outside.
  - intros text n f y info Hinfo Hout.
    unfold NewPdfReader2020.parse_station_page.
    destruct (NewPdfReader2020.page_lines text) as [| first rest];
      [reflexivity |].
    destruct (negb _); [reflexivity |]. rewrite Hinfo.
    case_bool_decide; [contradiction | reflexivity].
  - intros self text n f y H. unfold _extract_station_data_structured.
    now rewrite find_station_nothing.
Qed.

Lemma allow_list_respected_witness :
  let page := u "D99A999 BASKA ISTASYON" in
  let region_page := u "14. Yeşilırmak Havzası
D99A999 BASKA ISTASYON" in
  CatchmentDataKm2.scan_lines (CatchmentDataKm2.page_lines page) 0 0
    (CatchmentDataKm2.page_lines page) = ([], inr [])
  /\ outcome (NewPdfReader2020.parse_station_page region_page 1 (u "dsi_2020.pdf")
                (u "2020")) = inr None
  /\ _extract_station_data_structured (new_self [] []) page 1 (u "dsi_2020.pdf")
       2020 = ([], inr None).
Proof.
  intros page region_page.
  destruct allow_list_respected as (_ & _ & _ & H1 & H2 & H3).
  refine (conj (H1 page 0%nat _) (conj (H2 region_page 1%Z (u "dsi_2020.pdf")
            (u "2020") {[ "station_code"%string := VStr (u "D99A999");
                          "station_name"%string := VStr (u "BASKA ISTASYON") ]}
            _ _) (H3 (new_self [] []) page 1%Z (u "dsi_2020.pdf") 2020 _))).
  - repeat constructor. intros m Hm. vm_compute in Hm. injection Hm as <-.
    refine (bool_decide_unpack _ _). vm_compute. exact I.
  - reflexivity.
  - refine (bool_decide_unpack _ _). vm_compute. exact I.
  - intros i code [<- | []] Hc. vm_compute in Hc. injection Hc as <-.
    refine (bool_decide_unpack _ _). vm_compute. exact I.
Defined.

(** C7. The rows that a run of the structured extractor writes are one
    per (station code, year) at most: no two of them agree on the station
    cell and the year cell.  A record whose pair has been processed is not
    appended: a warning is logged and nothing else happens. *)
Theorem one_row_per_station_year :
  (forall d o directory,
     NoDup (map row_key
              (csv_rows
                 (trace (DsiFinalStructuredExtractor.main d o directory)))))
  /\ (forall self year S n result,
        (str_field result "station_code", year) ∈ S ->
        append_result self year (S, n) result
        = ([Log WARNING "⚠️ {result['station_code']} skipped (duplicate)"
              [VStr (str_field result "station_code")]],
           inr (S, n))).
Proof.
  split.
  - intros d o directory.
    destruct (structured_main_inv d o directory) as (_ & S & Hnd & _).
    exact Hnd.
  - intros self year S n result Hin. unfold append_result.
    now rewrite bool_decide_eq_true_2.
Qed.

Lemma one_row_per_station_year_witness :
  let result : record := {[ "station_code"%string := VStr (u "D22A093") ]} in
  append_result (new_self [] []) 2020 ({[(u "D22A093", 2020)]}, 1%nat) result
  = ([Log WARNING "⚠️ {result['station_code']} skipped (duplicate)"
        [VStr (u "D22A093")]],
     inr ({[(u "D22A093", 2020)]}, 1%nat)).
Proof.
  intros result.
  refine (proj2 one_row_per_station_year (new_self [] []) 2020
            {[(u "D22A093", 2020)]} 1%nat result _).
  refine (bool_decide_unpack _ _). vm_compute. exact I.
Defined.

(** ** C9, C4: what a run writes, and how it ends *)

(** Events that put something on disk, and events that warn. *)
Definition writes_file (ev : event) : bool :=
  match ev with
  | DataFrameToCsv _ _ | CsvCreate _ _ | CsvAppend _ _ => true
  | _ => false
  end.

Definition warns (ev : event) : bool :=
  match ev with
  | Log WARNING _ _ => true
  | Print template _ =>
      String.prefix "[WARN]" template
      || String.eqb template "\nNo data extracted!"
  | _ => false
  end.

Lemma print_no_file t :
  Forall is_print t -> existsb writes_file t = false.
Proof.
  induction 1 as [| ev t Hev _ IH]; [reflexivity |].
  cbn [existsb]. rewrite IH. now destruct ev.
Qed.

(** C9 (as stated, it fails). The input is there, and the run still ends
    in a fatal error: on a page of a target station whose catchment area
    reads "1.2.3", catchment_data_km2.py raises a [ValueError] that nothing
    catches, and new_pdf_reader_2020.py ends with exit status 1. *)
Lemma malformed_number_is_fatal :
  outcome
    (CatchmentDataKm2.main (u "dsi_2020.pdf") (u "out.csv")
       (Some [u "D22A093 TURNASUYU CUMHURİYET KÖYÜ
YAĞIŞ ALANI : 1.2.3 km2"]))
  = inl ValueError
  /\ last (trace
             (NewPdfReader2020.main (u "dsi_2020.pdf") (u "out.csv")
                (Some [u "14. Yeşilırmak Havzası
D22A093 TURNASUYU CUMHURİYET KÖYÜ
YAĞIŞ ALANI : 1.2.3 km2"])))
     = Some (SysExit 1).
Proof. split; vm_compute; reflexivity. Qed.

(** C9 (amended). When the input is missing the run prints a message and
    ends early, with no page processed and no record written:
    catchment_data_km2.py prints that the file is not found, the structured
    extractor logs that the directory is not found, and
    new_pdf_reader_2020.py reports the error and ends with exit status 1,
    as it does for every exception out of [process_pdf].  A run of the
    structured extractor never ends in an exception. *)
Theorem missing_input_ends_early :
  (forall P O,
     CatchmentDataKm2.main P O None
     = ([Print "[ERROR] {pdf_path} not found." [VStr P]], inr tt))
  /\ (forall self,
        process_all_pdfs_structured self None
        = ([Log ERROR "PDF directory not found: {self.pdf_directory}"
              [VStr (pdf_directory self)]], inr tt))
  /\ (forall d o,
        csv_rows (trace (DsiFinalStructuredExtractor.main d o None)) = [])
  /\ (forall d o directory,
        outcome (DsiFinalStructuredExtractor.main d o directory) = inr tt)
  /\ (forall p o,
        NewPdfReader2020.main p o None
        = ([Print "Opening PDF: {pdf_path}" [VStr p]; Print "Error: {e}" [];
            SysExit 1], inr tt))
  /\ (forall p o pdf e,
        outcome (NewPdfReader2020.process_pdf p o pdf) = inl e ->
        NewPdfReader2020.main p o pdf
        = (trace (NewPdfReader2020.process_pdf p o pdf)
           ++ [Print "Error: {e}" []; SysExit 1], inr tt)).
Proof.
  repeat apply conj; try reflexivity.
  - intros d o directory. apply structured_main_inv.
  - intros p o pdf e H. unfold NewPdfReader2020.main.
    destruct (NewPdfReader2020.process_pdf p o pdf) as [t [e' | rs]];
      [reflexivity | discriminate].
Qed.

Lemma missing_input_ends_early_witness :
  let pdf := Some [u "14. Yeşilırmak Havzası
D22A093 TURNASUYU CUMHURİYET KÖYÜ
YAĞIŞ ALANI : 1.2.3 km2"] in
  outcome (NewPdfReader2020.process_pdf (u "dsi_2020.pdf") (u "out.csv") pdf)
  = inl ValueError
  /\ NewPdfReader2020.main (u "dsi_2020.pdf") (u "out.csv") pdf
     = (trace (NewPdfReader2020.process_pdf (u "dsi_2020.pdf") (u "out.csv") pdf)
        ++ [Print "Error: {e}" []; SysExit 1], inr tt).
Proof.
  intros pdf.
  assert (H : outcome (NewPdfReader2020.process_pdf (u "dsi_2020.pdf")
                         (u "out.csv") pdf) = inl ValueError)
    by (vm_compute; reflexivity).
  destruct missing_input_ends_early as (_ & _ & _ & _ & _ & Hm).
  exact (conj H (Hm (u "dsi_2020.pdf") (u "out.csv") pdf ValueError H)).
Defined.

(** The year that [process_pdf] reads off the path. *)
Definition pdf_year (p : str) : str :=
  match re_search NewPdfReader2020.year_re p with
  | Some m => default [] (group 1 m)
  | None => u "2020"
  end.

Lemma process_pdf_shape p o doc :
  NewPdfReader2020.process_pdf p o (Some doc)
  = let '(t1, r1) := NewPdfReader2020.process_pages p (pdf_year p) 0 doc in
    let head := [Print "Opening PDF: {pdf_path}" [VStr p];
                 Print "Processing {total_pages} pages..."
                   [VInt (Z.of_nat (length doc))]] in
    match r1 with
    | inl e => (head ++ t1, inl e)
    | inr [] => (head ++ t1 ++ [Print "\nNo data extracted!" []], inr [])
    | inr rs =>
        (head ++ t1
         ++ [DataFrameToCsv o rs;
             Print "\nExtracted {len(all_results)} stations"
               [VInt (Z.of_nat (length rs))];
             Print "Saved to: {output_csv}" [VStr o]], inr rs)
    end.
Proof.
  unfold NewPdfReader2020.process_pdf. fold (pdf_year p).
  unfold mbind, io_bind, mret, io_ret. cbn [bind emit lift ret app].
  destruct (NewPdfReader2020.process_pages p (pdf_year p) 0 doc)
    as [t1 [e | [| r rs]]]; cbn [bind emit lift ret app];
    rewrite ?app_nil_r; reflexivity.
Qed.

(** C4 (as stated, it fails). A run of the structured extractor over a
    yearbook without a target station extracts zero records; it has
    written the output file, with its header row, when it started, and it
    logs no warning. *)
Lemma zero_records_file_written :
  let t := trace (DsiFinalStructuredExtractor.main (u "pdfs") (u "out.csv")
                    (Some [(u "dsi_2020.pdf", Some [u "BOS SAYFA"])])) in
  csv_rows t = [] /\ frame_rows t = []
  /\ existsb warns t = false /\ existsb writes_file t = true.
Proof. repeat split; vm_compute; reflexivity. Qed.

(** The columns of the structured extractor's file. *)
Definition columns (self : DSIFinalExtractor) : list string :=
  (["file"; "page"; "year"; "station_code"; "station_name"; "coordinates";
    "catchment_area_km2"; "annual_avg_flow_m3s"; "annual_total_m3";
    "mm_total"; "avg_ltsnkm2"]%string) ++ monthly_keys self.

Lemma cell_of_default (o : option val) :
  cell_of (Some (default VNone o)) = cell_of o.
Proof. now destruct o. Qed.

(** C4 (amended). In catchment_data_km2.py and new_pdf_reader_2020.py a
    run that extracts zero records prints a warning and writes no file,
    and a run with at least one record hands all of them to [to_csv] as
    they are, absent fields included.  The structured extractor creates
    its file with the header row before anything is read, whatever
    follows, and writes a record as one cell per column, empty where the
    record has nothing or [None]. *)
Theorem zero_records_and_partial_records :
  (forall P O doc df,
     outcome (CatchmentDataKm2.extract_catchments doc) = inr df ->
     let t := trace (CatchmentDataKm2.main P O (Some doc)) in
     match df with
     | [] => existsb writes_file t = false
             /\ last t = Some (Print "[WARN] No YAĞIŞ ALANI found." [])
     | _ => In (DataFrameToCsv O df) t
     end)
  /\ (forall p o doc rs,
        outcome (NewPdfReader2020.process_pdf p o (Some doc)) = inr rs ->
        let t := trace (NewPdfReader2020.process_pdf p o (Some doc)) in
        match rs with
        | [] => existsb writes_file t = false
                /\ last t = Some (Print "\nNo data extracted!" [])
        | _ => In (DataFrameToCsv o rs) t
        end)
  /\ (forall d o directory,
        exists rest,
          trace (DsiFinalStructuredExtractor.main d o directory)
          = CsvCreate o (columns (new_self d o)) :: rest)
  /\ (forall self data,
        exists row,
          _append_to_csv self data = ([CsvAppend (output_file self) row], inr tt)
          /\ Forall2 (fun key v => cell_of (Some v) = cell_of (data !! key))
               (columns self) row).
Proof.
  repeat apply conj.
  - intros P O doc df Hdf t. subst t. unfold CatchmentDataKm2.main.
    destruct (extract_catchments_holds doc) as [Hq _].
    destruct (CatchmentDataKm2.extract_catchments doc) as [t1 o1].
    cbn in Hdf, Hq. subst o1. rewrite bind_unfold. cbn [bind].
    destruct df as [| r df]; cbn [trace fst emit].
    + split.
      * rewrite existsb_app, (print_no_file t1 Hq). reflexivity.
      * now rewrite last_snoc.
    + apply in_or_app. right. now left.
  - intros p o doc rs Hrs t. subst t. rewrite process_pdf_shape in *.
    destruct (process_pages_holds p (pdf_year p) doc 0%Z) as [Hq _].
    destruct (NewPdfReader2020.process_pages p (pdf_year p) 0 doc)
      as [t1 [e | [| r res]]]; cbn [trace outcome fst snd] in *;
      try discriminate; injection Hrs as <-.
    + split.
      * rewrite !existsb_app, (print_no_file t1 Hq). reflexivity.
      * rewrite !app_assoc. apply last_snoc.
    + apply in_or_app. right. apply in_or_app. right. now left.
  - intros d o directory.
    unfold DsiFinalStructuredExtractor.main, init, _initialize_csv.
    unfold mbind, io_bind, mret, io_ret. cbn [bind emit ret app].
    destruct (process_all_pdfs_structured (new_self d o) directory) as [t r].
    eexists. reflexivity.
  - intros self data. eexists. split; [reflexivity |].
    unfold columns. apply Forall2_app.
    + repeat constructor; apply cell_of_default.
    + induction (monthly_keys self); constructor;
        [apply cell_of_default | assumption].
Qed.

Lemma zero_records_and_partial_records_witness :
  let doc := [u "14. Yeşilırmak Havzası
D99A999 BASKA ISTASYON"] in
  (existsb writes_file
     (trace (CatchmentDataKm2.main (u "dsi_2020.pdf") (u "out.csv") (Some doc)))
   = false
   /\ last (trace (CatchmentDataKm2.main (u "dsi_2020.pdf") (u "out.csv")
                     (Some doc)))
      = Some (Print "[WARN] No YAĞIŞ ALANI found." []))
  /\ (existsb writes_file
        (trace (NewPdfReader2020.process_pdf (u "dsi_2020.pdf") (u "out.csv")
                  (Some doc)))
      = false
      /\ last (trace (NewPdfReader2020.process_pdf (u "dsi_2020.pdf")
                        (u "out.csv") (Some doc)))
         = Some (Print "\nNo data extracted!" [])).
Proof.
  intros doc.
  destruct zero_records_and_partial_records as (H1 & H2 & _).
  split.
  - refine (H1 (u "dsi_2020.pdf") (u "out.csv") doc [] _).
    vm_compute. reflexivity.
  - refine (H2 (u "dsi_2020.pdf") (u "out.csv") doc [] _).
    vm_compute. reflexivity.
Defined.

(** ** C1: the station locator *)

(** The locator as the specification words it: the non-empty stripped
    lines, the first of them that matches [^[DE]\d{2}A\d{3}], and its code
    if the target set has it. *)
Definition code_prefix_re : regex :=
  seq_ [Bol;
        Grp 1 (seq_ [Chr (set_ [IChr 68; IChr 69]); times 2 d; Chr (lit 65);
                     times 3 d])].

Definition claimed_locator (targets : gset str) (text : str) : option str :=
  let lines :=
    map strip
      (List.filter (fun ln => negb (eqb (strip ln) [])) (splitlines text)) in
  match find (fun l => matched (re_match code_prefix_re l)) lines with
  | Some l =>
      match re_match code_prefix_re l with
      | Some m =>
          let code := default [] (group 1 m) in
          if bool_decide (code ∈ targets) then Some code else None
      | None => None
      end
  | None => None
  end.

(** What a checked row of the structured extractor gives: its first
    code-like token, if that is a target station. *)
Definition target_code_at (self : DSIFinalExtractor) (lines : list str)
  (i : nat) : option str :=
  match _extract_station_code (default [] (lines !! i)) with
  | Some code =>
      if negb (eqb code []) && bool_decide (code ∈ target_stations self)
      then Some code else None
  | None => None
  end.

(** C1 (as stated, it fails). The first line with a station code names a
    station outside the target set, and the claimed locator skips the
    page; [extract_catchments] goes on to the next line and returns the
    record of D22A093, and so does the locator of the structured
    extractor on the rows it checks, the first, the third and so on. *)
Lemma later_target_station_found :
  let page := u "D99A999 BASKA ISTASYON
D22A093 TURNASUYU CUMHURİYET KÖYÜ
YAĞIŞ ALANI : 210,00 km2 YAKLAŞIK KOT : 404 m" in
  let rows := u "D99A999 BASKA ISTASYON

D22A093 TURNASUYU CUMHURİYET KÖYÜ" in
  claimed_locator CatchmentDataKm2.TARGET_STATIONS page = None
  /\ match outcome (CatchmentDataKm2.extract_catchments [page]) with
     | inr [r] => r !! "station_code"%string = Some (VStr (u "D22A093"))
     | _ => False
     end
  /\ claimed_locator (target_stations (new_self [] [])) rows = None
  /\ find_station (new_self [] []) (split_on 10 rows)
       (rows_to_check (split_on 10 rows))
     = Some (u "D22A093", Some (u "TURNASUYU CUMHURİYET KÖYÜ")).
Proof. split; [| split; [| split]]; vm_compute; reflexivity. Qed.

Lemma scan_lines_skip lines pno pre rest :
  Forall (fun line => CatchmentDataKm2.station_code_of line = None) pre ->
  forall i,
    CatchmentDataKm2.scan_lines lines pno i (pre ++ rest)
    = CatchmentDataKm2.scan_lines lines pno (i + length pre) rest.
Proof.
  induction 1 as [| line pre Hl _ IH]; intros i; cbn [app length].
  - now rewrite Nat.add_0_r.
  - cbn [CatchmentDataKm2.scan_lines]. rewrite Hl, IH. f_equal. lia.
Qed.

Lemma find_station_skip self lines pre rest :
  Forall (fun j => target_code_at self lines j = None) pre ->
  find_station self lines (pre ++ rest) = find_station self lines rest.
Proof.
  induction 1 as [| j pre Hj _ IH]; [reflexivity |].
  cbn [app find_station]. unfold target_code_at in Hj.
  destruct (_extract_station_code _) as [code |]; [| exact IH].
  destruct (negb (eqb code []) && bool_decide (code ∈ target_stations self));
    [discriminate | exact IH].
Qed.

(** C1 (amended). The locator scans the lines from the top and proceeds
    with the first one whose code is in the target set; lines with a code
    outside the set are passed over, and the page is skipped exactly when
    no scanned line has a target code.  In [extract_catchments] the lines
    are the non-empty stripped lines, a line has a code when it matches
    [^([DE]\d{2}A\d{3})\s], and the search for the catchment area starts
    at that line (the scan then goes on below it).  In the structured
    extractor the lines are the raw lines, every second one of the first
    twenty is checked, and the code is the first [[A-Z]\d{2}[A-Z]\d{3}]
    in it. *)
Theorem locator_first_target_line :
  (forall line code,
     CatchmentDataKm2.station_code_of line = Some code <->
     exists m, re_match CatchmentDataKm2.station_line_re line = Some m
               /\ code = upper (default [] (group 1 m))
               /\ code ∈ CatchmentDataKm2.TARGET_STATIONS)
  /\ (forall text pno pre line post code,
        CatchmentDataKm2.page_lines text = pre ++ line :: post ->
        Forall (fun l => CatchmentDataKm2.station_code_of l = None) pre ->
        CatchmentDataKm2.station_code_of line = Some code ->
        CatchmentDataKm2.scan_lines (CatchmentDataKm2.page_lines text) pno 0
          (CatchmentDataKm2.page_lines text)
        = (found ← CatchmentDataKm2.area_scan code pno
                     (firstn 10 (line :: post));
           more ← CatchmentDataKm2.scan_lines
                    (CatchmentDataKm2.page_lines text) pno (S (length pre))
                    post;
           mret (found ++ more)))
  /\ (forall text pno,
        Forall (fun l => CatchmentDataKm2.station_code_of l = None)
          (CatchmentDataKm2.page_lines text) ->
        CatchmentDataKm2.scan_lines (CatchmentDataKm2.page_lines text) pno 0
          (CatchmentDataKm2.page_lines text) = ([], inr []))
  /\ (forall self text pre i post code,
        rows_to_check (split_on 10 text) = pre ++ i :: post ->
        Forall (fun j => target_code_at self (split_on 10 text) j = None) pre ->
        target_code_at self (split_on 10 text) i = Some code ->
        exists name,
          find_station self (split_on 10 text)
            (rows_to_check (split_on 10 text)) = Some (code, name))
  /\ (forall self text n f y,
        Forall (fun j => target_code_at self (split_on 10 text) j = None)
          (rows_to_check (split_on 10 text)) ->
        _extract_station_data_structured self text n f y = ([], inr None)).
Proof.
  repeat apply conj.
  - intros line code. unfold CatchmentDataKm2.station_code_of. split.
    + destruct (re_match _ line) as [m |]; [| discriminate].
      case_bool_decide as Hin; [| discriminate]. intros [= <-].
      exists m. auto.
    + intros (m & -> & -> & Hin). now rewrite bool_decide_eq_true_2.
  - intros text pno pre line post code Hl Hpre Hline.
    set (lines := CatchmentDataKm2.page_lines text) in *.
    transitivity (CatchmentDataKm2.scan_lines lines pno 0 (pre ++ line :: post));
      [now rewrite <- Hl |].
    rewrite scan_lines_skip by assumption.
    cbn [CatchmentDataKm2.scan_lines Nat.add]. rewrite Hline.
    replace (skipn (length pre) lines) with (line :: post); [reflexivity |].
    rewrite Hl, skipn_app, Nat.sub_diag, skipn_all. reflexivity.
  - intros text pno H. now apply scan_lines_nothing.
  - intros self text pre i post code Hr Hpre Hi. rewrite Hr.
    rewrite find_station_skip by assumption. cbn [find_station].
    unfold target_code_at in Hi.
    destruct (_extract_station_code _) as [c |]; [| discriminate].
    destruct (negb (eqb c []) && bool_decide (c ∈ target_stations self));
      [| discriminate].
    injection Hi as ->. eexists. reflexivity.
  - intros self text n f y H. unfold _extract_station_data_structured.
    replace (find_station self (split_on 10 text)
               (rows_to_check (split_on 10 text))) with
      (@None (str * option str)); [reflexivity |].
    symmetry. rewrite <- (app_nil_r (rows_to_check _)).
    now rewrite find_station_skip.
Qed.

Lemma locator_first_target_line_witness :
  let page := u "D99A999 BASKA ISTASYON
D22A093 TURNASUYU CUMHURİYET KÖYÜ
YAĞIŞ ALANI : 210,00 km2 YAKLAŞIK KOT : 404 m" in
  let pre := [u "D99A999 BASKA ISTASYON"] in
  let line := u "D22A093 TURNASUYU CUMHURİYET KÖYÜ" in
  let post := [u "YAĞIŞ ALANI : 210,00 km2 YAKLAŞIK KOT : 404 m"] in
  CatchmentDataKm2.scan_lines (CatchmentDataKm2.page_lines page) 0 0
    (CatchmentDataKm2.page_lines page)
  = (found ← CatchmentDataKm2.area_scan (u "D22A093") 0
               (firstn 10 (line :: post));
     more ← CatchmentDataKm2.scan_lines (CatchmentDataKm2.page_lines page) 0
              (S (length pre)) post;
     mret (found ++ more)).
Proof.
  intros page pre line post.
  refine (proj1 (proj2 locator_first_target_line) page 0%nat pre line post
            (u "D22A093") _ _ _).
  - vm_compute. reflexivity.
  - repeat constructor.
  - vm_compute. reflexivity.
Defined.

(** ** C6, C2: the worked examples *)

(** C6. For the input line "D22A093 TURNASUYU CUMHURİYET KÖYÜ" the
    station-info extractors, [extract_station_info] of
    new_pdf_reader_2020.py and [parse_station_info] of
    pdf_flow_extractor.py, return the station code "D22A093" and the
    station name "TURNASUYU CUMHURİYET KÖYÜ". *)
Theorem station_info_example :
  let line := u "D22A093 TURNASUYU CUMHURİYET KÖYÜ" in
  (exists info,
     NewPdfReader2020.extract_station_info [line] = Some info
     /\ info !! "station_code"%string = Some (VStr (u "D22A093"))
     /\ info !! "station_name"%string
        = Some (VStr (u "TURNASUYU CUMHURİYET KÖYÜ")))
  /\ PdfFlowExtractor.parse_station_info line
     = (Some (u "D22A093"), Some (u "TURNASUYU CUMHURİYET KÖYÜ")).
Proof.
  intros line. split; [| vm_compute; reflexivity].
  assert (H : fields ["station_code"; "station_name"]%string
                <$> NewPdfReader2020.extract_station_info [line]
              = Some [Some (VStr (u "D22A093"));
                      Some (VStr (u "TURNASUYU CUMHURİYET KÖYÜ"))])
    by (vm_compute; reflexivity).
  destruct (NewPdfReader2020.extract_station_info [line]) as [info |];
    [| discriminate].
  exists info. injection H as H1 H2. auto.
Qed.

(** C2 (the code departs from the claim). On the row
    "Maks. 0,54 1,32 0,62 KURU 2,10 ..." both extractors give October
    0.54.  [parse_block] of table_arranger.py keeps the token KURU and
    leaves January absent.  [extract_monthly_data] of
    new_pdf_reader_2020.py collects its tokens with [[\d,\.]+], which never
    yields KURU: the later numbers move one month up and January gets
    2.10, the number of February. *)
Theorem monthly_row_kuru_shift :
  let row := u "Maks. 0,54 1,32 0,62 KURU 2,10 ..." in
  (TableArranger.parse_block_monthly row !! "oct_max"%string
     = Some (VFloat (FNum false 54 (-2)))
   /\ TableArranger.parse_block_monthly row !! "jan_max"%string = Some VNone
   /\ TableArranger.parse_block_monthly row !! "feb_max"%string
      = Some (VFloat (FNum false 210 (-2))))
  /\ exists data,
       NewPdfReader2020.extract_monthly_data [row] = ([], inr data)
       /\ data !! "oct_max_flow_m3s"%string = Some (VFloat (FNum false 54 (-2)))
       /\ data !! "jan_max_flow_m3s"%string = Some (VFloat (FNum false 210 (-2)))
       /\ data !! "feb_max_flow_m3s"%string = Some (VFloat zero).
Proof.
  intros row. split.
  - repeat split; vm_compute; reflexivity.
  - assert (H : returned (fields ["oct_max_flow_m3s"; "jan_max_flow_m3s";
                                   "feb_max_flow_m3s"]%string)
                   (NewPdfReader2020.extract_monthly_data [row])
                 = ([], Some [Some (VFloat (FNum false 54 (-2)));
                              Some (VFloat (FNum false 210 (-2)));
                              Some (VFloat zero)]))
      by (vm_compute; reflexivity).
    destruct (NewPdfReader2020.extract_monthly_data [row]) as [t [e | data]];
      unfold returned in H; simpl in H; [discriminate |].
    exists data. injection H as -> H1 H2 H3. auto.
Qed.

(** * Further properties of the scripts *)

(** ** pdf_flow_extractor.py: the monthly values of a line *)




(** ** new_pdf_reader_2020.py: [normalize_text] *)

(** One replacement, at one character. *)
Definition sub1 (x y c : char) : char := if x =? c then y else c.

(** What [normalize_text] does to one character: the twelve replacements
    in the order of the source. *)
Definition normalize_char (c : char) : char :=
  sub1 199 67 (sub1 231 99 (sub1 214 79 (sub1 246 111 (sub1 350 83
    (sub1 351 115 (sub1 220 85 (sub1 252 117 (sub1 286 71 (sub1 287 103
      (sub1 304 73 (sub1 305 105 c))))))))))).

Definition turkish_letters : list char :=
  [305; 304; 287; 286; 252; 220; 351; 350; 246; 214; 231; 199].

Lemma replace_char_map x y s : replace [x] [y] s = map (sub1 x y) s.
Proof.
  rewrite replace_char. induction s as [| c s IH]; [reflexivity |].
  cbn [flat_map map]. rewrite IH. unfold sub1. now destruct (x =? c).
Qed.

Lemma normalize_text_map text :
  NewPdfReader2020.normalize_text text = map normalize_char text.
Proof.
  unfold NewPdfReader2020.normalize_text.
  change (u "ı") with [305]. change (u "i") with [105].
  change (u "İ") with [304]. change (u "I") with [73].
  change (u "ğ") with [287]. change (u "g") with [103].
  change (u "Ğ") with [286]. change (u "G") with [71].
  change (u "ü") with [252]. change (u "u") with [117].
  change (u "Ü") with [220]. change (u "U") with [85].
  change (u "ş") with [351]. change (u "s") with [115].
  change (u "Ş") with [350]. change (u "S") with [83].
  change (u "ö") with [246]. change (u "o") with [111].
  change (u "Ö") with [214]. change (u "O") with [79].
  change (u "ç") with [231]. change (u "c") with [99].
  change (u "Ç") with [199]. change (u "C") with [67].
  rewrite !replace_char_map, !map_map. reflexivity.
Qed.

Lemma sub1_ne x y c : c <> x -> sub1 x y c = c.
Proof. unfold sub1. destruct (N.eqb_spec x c); congruence. Qed.

Lemma normalize_char_other c :
  ~ In c turkish_letters -> normalize_char c = c.
Proof.
  intros H. unfold normalize_char.
  rewrite (sub1_ne 305 105 c), (sub1_ne 304 73 c), (sub1_ne 287 103 c),
    (sub1_ne 286 71 c), (sub1_ne 252 117 c), (sub1_ne 220 85 c),
    (sub1_ne 351 115 c), (sub1_ne 350 83 c), (sub1_ne 246 111 c),
    (sub1_ne 214 79 c), (sub1_ne 231 99 c), (sub1_ne 199 67 c);
    try reflexivity; intros ->; apply H; cbn; tauto.
Qed.

(** A Turkish letter goes to an ASCII letter. *)
Lemma normalize_char_letter c :
  In c turkish_letters -> (normalize_char c < 128)%N.
Proof.
  intros H. cbn in H.
  repeat (destruct H as [<- | H]; [vm_compute; reflexivity |]).
  contradiction.
Qed.

Lemma turkish_letters_high c : In c turkish_letters -> (128 <= c)%N.
Proof.
  intros H. cbn in H.
  repeat (destruct H as [<- | H]; [vm_compute; discriminate |]).
  contradiction.
Qed.

Lemma normalize_char_plain c : ~ In (normalize_char c) turkish_letters.
Proof.
  destruct (in_dec N.eq_dec c turkish_letters) as [Hin | Hout].
  - intros H. apply turkish_letters_high in H.
    apply normalize_char_letter in Hin. lia.
  - now rewrite normalize_char_other.
Qed.

Lemma normalize_char_idempotent c :
  normalize_char (normalize_char c) = normalize_char c.
Proof. apply normalize_char_other, normalize_char_plain. Qed.

(** X2. [normalize_text] is idempotent, it keeps the length of the text,
    and none of the twelve Turkish letters it replaces (ı İ ğ Ğ ü Ü ş Ş ö Ö
    ç Ç) is left in its result. *)
Theorem normalize_text_idempotent (text : str) :
  NewPdfReader2020.normalize_text (NewPdfReader2020.normalize_text text)
  = NewPdfReader2020.normalize_text text
  /\ length (NewPdfReader2020.normalize_text text) = length text
  /\ Forall (fun c => ~ In c (u "ıİğĞüÜşŞöÖçÇ"))
       (NewPdfReader2020.normalize_text text).
Proof.
  rewrite !normalize_text_map. repeat split.
  - rewrite map_map. apply map_ext. apply normalize_char_idempotent.
  - apply length_map.
  - change (u "ıİğĞüÜşŞöÖçÇ") with turkish_letters.
    apply List.Forall_map. apply List.Forall_forall. intros c _.
    apply normalize_char_plain.
Qed.

(** ** pdf_flow_extractor.py: the records of one yearbook *)

Definition flow_code (r : record) : option val := r !! "station_code"%string.

(** What holds of [results] and [found_stations] all along [process_pdf]. *)
Definition flow_inv (year : N) (st : PdfFlowExtractor.state) : Prop :=
  NoDup (map flow_code (fst st))
  /\ Forall (fun r =>
               (exists c, flow_code r = Some (VStr c)
                          /\ In c PdfFlowExtractor.TARGET_STATIONS)
               /\ r !! "year"%string = Some (VInt (Z.of_N year)))
       (fst st)
  /\ (forall c, In (Some (VStr c)) (map flow_code (fst st)) ->
                (year, c) ∈ snd st).

Lemma loop_inv {A S} (I : S -> Prop) (Q : A -> Prop)
  (f : S -> A -> PdfFlowExtractor.step S) l :
  (forall s a, Q a -> I s -> I (fst (snd (f s a)))) ->
  Forall Q l ->
  forall s, I s -> I (fst (snd (PdfFlowExtractor.loop f s l))).
Proof.
  intros Hf. induction 1 as [| a l Ha _ IH]; intros s Hs; [exact Hs |].
  cbn [PdfFlowExtractor.loop]. specialize (Hf s a Ha Hs).
  destruct (f s a) as [t [s' [e |]]]; cbn [fst snd] in *; [exact Hf |].
  specialize (IH s' Hf). now destruct (PdfFlowExtractor.loop f s' l).
Qed.

Lemma add_monthly_lookup k suffix values (data : record) :
  Forall (fun month => String.append month suffix <> k)
    PdfFlowExtractor.MONTHS ->
  PdfFlowExtractor.add_monthly suffix values data !! k = data !! k.
Proof.
  intros Hk. unfold PdfFlowExtractor.add_monthly.
  apply (fold_insert_lookup (fun im => String.append (snd im) suffix)
           (fun im => PdfFlowExtractor.of_option
                        (default None (values !! fst im)))).
  revert Hk. generalize PdfFlowExtractor.MONTHS. intros months Hk.
  generalize 0%nat. generalize (length months) at 1.
  induction Hk as [| m months Hm _ IH]; intros len n.
  - destruct len; constructor.
  - destruct len as [| len]; cbn; constructor; auto.
Qed.

Ltac months_apart :=
  repeat constructor; discriminate.

Lemma ret_some_pair {A B} (a a' : A) (b b' : B) t :
  (mret (Some (a, b)) : io (option (A * B))) = (t, inr (Some (a', b'))) ->
  a = a'.
Proof. now intros [= _ -> _]. Qed.

Lemma station_record_fields lines year code t data name :
  PdfFlowExtractor.station_record lines year code
  = (t, inr (Some (data, name))) ->
  flow_code data = Some (VStr code)
  /\ data !! "year"%string = Some (VInt (Z.of_N year)).
Proof.
  unfold PdfFlowExtractor.station_record, flow_code.
  destruct (PdfFlowExtractor.station_line code 0 lines) as [[idx nm] |];
    [| discriminate].
  intros H. apply bind_ok in H as (t1 & header & t2 & _ & H & _).
  destruct header as [[[ca el] op] af].
  apply bind_ok in H as (t3 & annual & t4 & _ & H & _).
  destruct annual as [[a b] c]. apply ret_some_pair in H as <-.
  split.
  - rewrite !lookup_insert_ne by discriminate.
    rewrite !add_monthly_lookup by months_apart.
    now simplify_map_eq.
  - rewrite !lookup_insert_ne by discriminate.
    rewrite !add_monthly_lookup by months_apart.
    now simplify_map_eq.
Qed.

Lemma station_step_inv lines page_text year st code :
  In code PdfFlowExtractor.TARGET_STATIONS ->
  flow_inv year st ->
  flow_inv year
    (fst (snd (PdfFlowExtractor.station_step lines page_text year st code))).
Proof.
  intros Hc Hinv. destruct st as [results found].
  unfold PdfFlowExtractor.station_step.
  case_bool_decide as Hin; [exact Hinv |].
  destruct (negb _); [exact Hinv |].
  destruct (PdfFlowExtractor.station_record lines year code)
    as [t [e | [[data name] |]]] eqn:E; cbn [fst snd]; try exact Hinv.
  apply station_record_fields in E as [Ecode Eyear].
  destruct Hinv as (Hnd & Hall & Hfound). unfold flow_inv. cbn [fst snd] in *.
  split; [| split].
  - rewrite map_app. apply NoDup_app. repeat split; [exact Hnd | |].
    + intros x Hx Hx'. cbn in Hx'. apply list_elem_of_singleton in Hx'.
      subst x. rewrite Ecode in Hx. apply list_elem_of_In in Hx.
      apply Hin, Hfound, Hx.
    + cbn. apply NoDup_singleton.
  - apply Forall_app. split; [exact Hall |]. repeat constructor; eauto.
  - intros c Hin'. rewrite map_app in Hin'. apply in_app_or in Hin' as [H | H].
    + apply elem_of_union_r. now apply Hfound.
    + cbn in H. destruct H as [H | []]. rewrite Ecode in H.
      injection H as ->. apply elem_of_union_l. now apply elem_of_singleton.
Qed.

Lemma page_step_inv year total st page :
  flow_inv year st ->
  flow_inv year (fst (snd (PdfFlowExtractor.page_step year total st page))).
Proof.
  intros Hinv. destruct page as [page_num text].
  unfold PdfFlowExtractor.page_step.
  destruct (eqb text []); [exact Hinv |].
  destruct (negb _); [exact Hinv |].
  destruct (negb _); [exact Hinv |].
  pose proof (loop_inv (flow_inv year)
                (fun c => In c PdfFlowExtractor.TARGET_STATIONS)
                (PdfFlowExtractor.station_step (split_on 10 text)
                   (join (u " ") (split_on 10 text)) year)
                PdfFlowExtractor.TARGET_STATIONS
                (fun s a => station_step_inv _ _ year s a)
                (proj2 (List.Forall_forall _ _) (fun _ H => H)) st Hinv) as H.
  now destruct (PdfFlowExtractor.loop _ st PdfFlowExtractor.TARGET_STATIONS).
Qed.

(** X3. [process_pdf] returns a list of records whatever the document is,
    also when a page makes an extractor raise: the list holds at most one
    record for a station, every record is of a station of TARGET_STATIONS
    and carries the year the function was called with, so that there are
    37 records at most. *)
Theorem flow_records_one_per_target_station (name : str) (year : N)
  (pdf : option (list str)) :
  exists results,
    outcome (PdfFlowExtractor.process_pdf name year pdf) = inr results
    /\ NoDup (map flow_code results)
    /\ Forall (fun r =>
                 (exists c, flow_code r = Some (VStr c)
                            /\ In c PdfFlowExtractor.TARGET_STATIONS)
                 /\ r !! "year"%string = Some (VInt (Z.of_N year)))
         results
    /\ (length results <= 37)%nat.
Proof.
  assert (G : exists results found,
             outcome (PdfFlowExtractor.process_pdf name year pdf) = inr results
             /\ flow_inv year (results, found)).
  { unfold PdfFlowExtractor.process_pdf. destruct pdf as [pages |].
    - pose proof (loop_inv (flow_inv year) (fun _ => True)
                    (PdfFlowExtractor.page_step year (length pages))
                    (combine (seq 1 (length pages)) pages)
                    (fun s a _ => page_step_inv year _ s a)
                    (proj2 (List.Forall_forall _ _) (fun _ _ => I))
                    ([], ∅)) as H.
      destruct (PdfFlowExtractor.loop _ _ _) as [t [[results found] e]].
      exists results, found. split.
      + destruct e; reflexivity.
      + apply H. split; [constructor | split; [constructor | intros c []]].
    - exists [], ∅. split; [reflexivity |].
      split; [constructor | split; [constructor | intros c []]]. }
  destruct G as (results & found & E & Hnd & Hall & _). cbn [fst] in *.
  exists results. repeat (split; [assumption |]).
  change 37%nat
    with (length (map (fun c => Some (VStr c))
                    PdfFlowExtractor.TARGET_STATIONS)).
  rewrite <- (length_map flow_code results).
  apply NoDup_incl_length; [now apply NoDup_ListNoDup |].
  intros x Hx. apply in_map_iff in Hx as (r & <- & Hr).
  rewrite List.Forall_forall in Hall.
  destruct (Hall r Hr) as [(c & -> & Hc) _].
  apply (in_map (fun c => Some (VStr c))). exact Hc.
Qed.

(** ** new_pdf_reader_2020.py: the monthly table *)

(** A computation that prints nothing, does not raise, and returns
    something with [R]. *)
Definition yields {A} (R : A -> Prop) (m : io A) : Prop :=
  exists a, m = ([], inr a) /\ R a.

Lemma yields_ret {A} (R : A -> Prop) a : R a -> yields R (mret a).
Proof. intros H. now exists a. Qed.

Lemma yields_bind {A B} (R1 : A -> Prop) (R2 : B -> Prop) (m : io A)
  (f : A -> io B) :
  yields R1 m -> (forall a, R1 a -> yields R2 (f a)) -> yields R2 (m ≫= f).
Proof.
  intros (a & -> & Ha) Hf. destruct (Hf a Ha) as (b & E & Hb).
  exists b. split; [| exact Hb]. rewrite bind_unfold. cbn [bind]. now rewrite E.
Qed.

Lemma yields_mapM {A B} (R : B -> Prop) (f : A -> io B) l :
  (forall a, yields R (f a)) -> yields (Forall R) (mapM f l).
Proof.
  intros Hf. induction l as [| a l IH]; cbn [mapM].
  - apply yields_ret. constructor.
  - eapply yields_bind; [apply Hf |]. intros b Hb.
    eapply yields_bind; [exact IH |]. intros bs Hbs.
    apply yields_ret. now constructor.
Qed.

Lemma yields_foldM {A S} (I : S -> Prop) (f : S -> A -> io S) l :
  (forall s a, I s -> yields I (f s a)) ->
  forall s, I s -> yields I (foldM f s l).
Proof.
  intros Hf. induction l as [| a l IH]; intros s Hs; cbn [foldM].
  - now apply (yields_ret I).
  - apply (yields_bind I I (f s a)); [now apply Hf | exact IH].
Qed.

(** A float that is not below zero, under a key made of a month and the
    suffix of a row. *)
Definition monthly_entry (k : string) (v : val) : Prop :=
  (exists x, v = VFloat x /\ ge_zero x = true)
  /\ exists month sfx,
       In month NewPdfReader2020.month_short
       /\ In sfx NewPdfReader2020.suffixes
       /\ k = NewPdfReader2020.field_name month sfx.

Definition not_negative (v : val) : Prop :=
  exists x, v = VFloat x /\ ge_zero x = true.

Definition monthly_ok (st : NewPdfReader2020.monthly_state) : Prop :=
  map_Forall monthly_entry (NewPdfReader2020.monthly_data st)
  /\ Forall not_negative (NewPdfReader2020.current_values st)
  /\ forall l, NewPdfReader2020.current_label st = Some l ->
               In l NewPdfReader2020.labels.

Lemma fold_insert_Forall {A} (P : string -> val -> Prop) (key : A -> string)
  (v : A -> val) l :
  Forall (fun a => P (key a) (v a)) l ->
  forall r : record,
    map_Forall P r ->
    map_Forall P (fold_left (fun r a => <[key a := v a]> r) l r).
Proof.
  induction 1 as [| a l Ha _ IH]; intros r Hr; cbn [fold_left]; [exact Hr |].
  apply IH. now apply map_Forall_insert_2.
Qed.

Lemma index_of_label l :
  In l NewPdfReader2020.labels ->
  In (nth (NewPdfReader2020.index_of l NewPdfReader2020.labels)
        NewPdfReader2020.suffixes ""%string)
    NewPdfReader2020.suffixes.
Proof.
  intros H. apply nth_In.
  change (length NewPdfReader2020.suffixes)
    with (length NewPdfReader2020.labels).
  induction NewPdfReader2020.labels as [| x ls IH]; [contradiction |].
  cbn [NewPdfReader2020.index_of length]. destruct (eqb x l) eqn:E; [lia |].
  destruct H as [-> | H].
  - unfold eqb in E. now rewrite bool_decide_eq_true_2 in E.
  - apply IH in H. lia.
Qed.

Lemma save_label_ok st :
  monthly_ok st -> map_Forall monthly_entry (NewPdfReader2020.save_label st).
Proof.
  intros (Hd & Hv & Hl). unfold NewPdfReader2020.save_label.
  destruct (NewPdfReader2020.current_label st) as [l |]; [| exact Hd].
  destruct (NewPdfReader2020.current_values st) as [| v0 vs] eqn:Ev;
    [exact Hd |].
  apply (fold_insert_Forall monthly_entry
           (fun im => NewPdfReader2020.field_name (snd im) _)
           (fun im => nth (fst im) (v0 :: vs) (VFloat zero)));
    [| exact Hd].
  apply List.Forall_forall. intros [i month] Him. cbn [fst snd]. split.
  - destruct (nth_in_or_default i (v0 :: vs) (VFloat zero)) as [Hin | ->].
    + rewrite List.Forall_forall in Hv. now apply Hv.
    + now exists zero.
  - exists month, (nth (NewPdfReader2020.index_of l NewPdfReader2020.labels)
                     NewPdfReader2020.suffixes ""%string).
    split; [| split; [| reflexivity]].
    + now apply in_combine_r in Him.
    + now apply index_of_label, Hl.
Qed.

Lemma numbers_of_not_negative text :
  yields (Forall not_negative) (NewPdfReader2020.numbers_of text).
Proof.
  unfold NewPdfReader2020.numbers_of. apply yields_mapM. intros n.
  destruct (extract_number_value n) as (v & E & Hv).
  eapply (yields_bind (fun o => o = Some v)); [now exists (Some v) |].
  intros o ->. apply yields_ret. now exists v.
Qed.

Lemma monthly_step_ok st line :
  monthly_ok st -> yields monthly_ok (NewPdfReader2020.monthly_step st line).
Proof.
  intros Hst. unfold NewPdfReader2020.monthly_step.
  destruct (eqb (strip line) []); [now apply yields_ret |].
  destruct (find _ _) as [label |] eqn:Ef.
  - eapply yields_bind; [apply numbers_of_not_negative |]. intros vs Hvs.
    apply yields_ret. split; [now apply save_label_ok | split; [exact Hvs |]].
    cbn. intros l [= <-]. now apply find_some in Ef.
  - destruct (NewPdfReader2020.current_label st) as [l |] eqn:El;
      [| now apply yields_ret].
    eapply yields_bind; [apply numbers_of_not_negative |]. intros vs Hvs.
    apply yields_ret. destruct Hst as (Hd & Hv & Hl).
    split; [exact Hd | split].
    + cbn. apply List.Forall_app. now split.
    + cbn. intros l' E. apply Hl. congruence.
Qed.

(** X4. [extract_monthly_data] prints nothing and raises on no input, and
    every entry of the dictionary it returns is a float that is not below
    zero, under a key made of one of the twelve months and one of the six
    row suffixes: no entry is [None], negative or NaN. *)
Theorem monthly_data_entries_not_negative (lines : list str) :
  exists data,
    NewPdfReader2020.extract_monthly_data lines = ([], inr data)
    /\ forall k v,
         data !! k = Some v ->
         (exists x, v = VFloat x /\ ge_zero x = true)
         /\ exists month sfx,
              In month NewPdfReader2020.month_short
              /\ In sfx NewPdfReader2020.suffixes
              /\ k = NewPdfReader2020.field_name month sfx.
Proof.
  assert (H : yields (map_Forall monthly_entry)
                (NewPdfReader2020.extract_monthly_data lines)).
  { unfold NewPdfReader2020.extract_monthly_data.
    eapply yields_bind.
    - apply (yields_foldM monthly_ok); [intros; now apply monthly_step_ok |].
      split; [apply map_Forall_empty | split; [constructor | discriminate]].
    - intros st Hst. apply yields_ret. now apply save_label_ok. }
  destruct H as (data & E & Hd). exists data. split; [exact E |].
  intros k v Hk. exact (Hd k v Hk).
Qed.

Lemma monthly_data_entries_not_negative_witness :
  exists data x,
    NewPdfReader2020.extract_monthly_data [u "Min. 0,54 -1,32"] = ([], inr data)
    /\ data !! "nov_min_flow_m3s"%string = Some (VFloat x)
    /\ ge_zero x = true.
Proof.
  destruct (monthly_data_entries_not_negative [u "Min. 0,54 -1,32"])
    as (data & E & H).
  assert (Hl : returned (fields ["nov_min_flow_m3s"%string])
                 (NewPdfReader2020.extract_monthly_data [u "Min. 0,54 -1,32"])
               = ([], Some [Some (VFloat (FNum false 132 (-2)))]))
    by (vm_compute; reflexivity).
  rewrite E in Hl. cbn [returned trace outcome fst snd fields map] in Hl.
  injection Hl as Hl.
  destruct (H _ _ Hl) as [(x & Hx & Hge) _].
  exists data, x. rewrite Hl, Hx. auto.
Defined.

(** ** table_arranger.py: the monthly part of [parse_block] *)













(** ** dsi_final_structured_extractor.py: the file that a run writes *)

Definition is_log (ev : event) : Prop :=
  match ev with
  | Log _ _ _ => True
  | _ => False
  end.

(** A message of the logger, or a row appended to the output file with as
    many cells as the header has columns. *)
Definition row_event (self : DSIFinalExtractor) (ev : event) : Prop :=
  match ev with
  | Log _ _ _ => True
  | CsvAppend path row =>
      path = output_file self /\ length row = length (columns self)
  | _ => False
  end.

Lemma log_row_event self ev : is_log ev -> row_event self ev.
Proof. now destruct ev. Qed.

Lemma monthly_line_logs self data line :
  holds is_log (fun _ => True) (monthly_line self data line).
Proof.
  unfold monthly_line. destruct (find _ _) as [[metric kws] |];
    [| now apply holds_ret].
  eapply holds_bind; [now apply holds_emit' |]. intros _ _.
  destruct (12 <=? _)%nat.
  - eapply holds_bind; [now apply holds_emit' |]. intros _ _.
    apply (holds_foldM is_log (fun _ => True)); [| exact I].
    intros md [j month] _ _. destruct (_ !! j); [| now apply holds_ret].
    destruct (_normalize_number _); [| now apply holds_ret].
    eapply holds_bind; [now apply holds_emit' |]. intros _ _.
    now apply holds_ret.
  - eapply holds_bind; [now apply holds_emit' |]. intros _ _.
    now apply holds_ret.
Qed.

Lemma station_data_logs self text n f y :
  holds is_log (fun _ => True)
    (_extract_station_data_structured self text n f y).
Proof.
  unfold _extract_station_data_structured.
  destruct (find_station _ _ _) as [[code name] |]; [| now apply holds_ret].
  eapply holds_bind; [now apply holds_emit' |]. intros _ _.
  destruct (fold_left _ _ _) as [[coordinates area] flow].
  eapply (holds_bind is_log (fun _ => True)).
  { unfold _extract_monthly_data_structured.
    apply (holds_foldM is_log (fun _ => True)); [| exact I].
    intros. apply monthly_line_logs. }
  intros md _. destruct (_extract_annual_totals text) as [[total mm] lt].
  eapply holds_bind; [now apply holds_emit' |]. intros _ _.
  eapply (holds_bind is_log (fun _ => True)).
  { destruct (_ <? _)%nat; [| now apply holds_ret].
    eapply holds_bind; [now apply holds_emit' |]. intros _ _.
    now apply holds_emit'. }
  intros _ _. now apply holds_ret.
Qed.

Lemma structured_pages_logs self f y pages :
  forall n,
    holds is_log (fun _ => True)
      (DsiFinalStructuredExtractor.process_pages self f y n pages).
Proof.
  induction pages as [| text pages IH]; intros n;
    cbn [DsiFinalStructuredExtractor.process_pages].
  - now apply holds_ret.
  - eapply holds_bind; [apply station_data_logs |]. intros o _.
    eapply holds_bind; [apply IH |]. intros [results [np ns]] _.
    destruct o; now apply holds_ret.
Qed.

Lemma process_pdf_logs self filename pdf :
  holds is_log (fun _ => True) (_process_pdf_structured self filename pdf).
Proof.
  unfold _process_pdf_structured. destruct (year_of filename).
  - apply holds_catch.
    + eapply (holds_bind is_log (fun _ => True)); [now apply holds_lift |].
      intros doc _.
      eapply holds_bind; [now apply holds_emit' |]. intros _ _.
      eapply holds_bind; [apply structured_pages_logs |].
      intros [results [np ns]] _.
      eapply holds_bind; [now apply holds_emit' |]. intros _ _.
      now apply holds_ret.
    + intros e. eapply holds_bind; [now apply holds_emit' |]. intros _ _.
      now apply holds_ret.
  - eapply holds_bind; [now apply holds_emit' |]. intros _ _.
    now apply holds_ret.
Qed.

Lemma append_result_rows self y st result :
  holds (row_event self) (fun _ => True) (append_result self y st result).
Proof.
  destruct st as [S n]. unfold append_result.
  case_bool_decide.
  - eapply holds_bind; [now apply holds_emit' |]. intros _ _.
    now apply holds_ret.
  - eapply holds_bind; [| intros _ _; now apply holds_ret].
    unfold _append_to_csv. apply holds_emit'. split; [reflexivity |].
    unfold columns. now rewrite !length_app, !length_map.
Qed.

Lemma process_file_rows self st entry :
  holds (row_event self) (fun _ => True) (process_file self st entry).
Proof.
  destruct entry as [pdf_file pdf]. unfold process_file.
  destruct (year_of pdf_file); [| now apply holds_ret].
  eapply (holds_bind _ (fun _ => True)).
  - eapply holds_weaken; [apply log_row_event | | apply process_pdf_logs].
    auto.
  - intros results _. apply (holds_foldM _ (fun _ => True)); [| exact I].
    intros. apply append_result_rows.
Qed.

(** X6. A run of the structured extractor creates the output file with
    its header of 83 columns before anything else, and only once; from
    then on it logs, or appends to that file a row that has one cell for
    each column of the header. *)
Theorem structured_rows_fit_header (d o : str)
  (directory : option (list (str * option (list str)))) :
  exists rest,
    trace (DsiFinalStructuredExtractor.main d o directory)
    = CsvCreate o (columns (new_self d o)) :: rest
    /\ length (columns (new_self d o)) = 83%nat
    /\ Forall (fun ev =>
                 match ev with
                 | Log _ _ _ => True
                 | CsvAppend path row => path = o /\ length row = 83%nat
                 | _ => False
                 end) rest.
Proof.
  assert (H : holds (row_event (new_self d o)) (fun _ => True)
                (process_all_pdfs_structured (new_self d o) directory)).
  { unfold process_all_pdfs_structured. destruct directory as [entries |];
      [| now apply holds_emit'].
    eapply holds_bind; [now apply holds_emit' |]. intros _ _.
    eapply (holds_bind _ (fun _ => True)).
    - apply (holds_foldM _ (fun _ => True)); [| exact I].
      intros. apply process_file_rows.
    - intros st _. eapply holds_bind; [now apply holds_emit' |]. intros _ _.
      now apply holds_emit'. }
  destruct H as [Ht _].
  unfold DsiFinalStructuredExtractor.main, init, _initialize_csv.
  unfold mbind, io_bind, mret, io_ret. cbn [bind emit ret app].
  destruct (process_all_pdfs_structured (new_self d o) directory) as [t r].
  cbn [trace fst] in *. eexists. split; [reflexivity |].
  split; [reflexivity |].
  repeat (constructor; [exact I |]).
  eapply List.Forall_impl; [| exact Ht].
  intros [] Hev; cbn in Hev |- *; auto.
Qed.

Lemma foldM_count {A S} (count : S -> nat) (f : S -> A -> io S) l :
  (forall s a t s',
     f s a = (t, inr s') -> count s' = (count s + length (csv_rows t))%nat) ->
  forall s t s',
    foldM f s l = (t, inr s') ->
    count s' = (count s + length (csv_rows t))%nat.
Proof.
  intros Hf. induction l as [| a l IH]; intros s t s'; cbn [foldM].
  - intros [= <- <-]. cbn. lia.
  - intros H. change (bind ?m ?g) with (m ≫= g) in H.
    apply bind_ok in H as (t1 & s1 & t2 & H1 & H2 & ->).
    rewrite (IH _ _ _ H2), (Hf _ _ _ _ H1), csv_rows_app, length_app. lia.
Qed.

Lemma append_result_count self y st result t st' :
  append_result self y st result = (t, inr st') ->
  snd st' = (snd st + length (csv_rows t))%nat.
Proof.
  destruct st as [S n]. unfold append_result. case_bool_decide.
  - intros [= <- <-]. cbn. lia.
  - intros [= <- <-]. cbn. lia.
Qed.

Lemma process_file_count self st entry t st' :
  process_file self st entry = (t, inr st') ->
  snd st' = (snd st + length (csv_rows t))%nat.
Proof.
  destruct entry as [pdf_file pdf]. unfold process_file.
  destruct (year_of pdf_file) as [y |].
  - intros H. apply bind_ok in H as (t1 & results & t2 & H1 & H2 & ->).
    apply (foldM_count snd) in H2; [| intros; eapply append_result_count; eassumption].
    rewrite H2, csv_rows_app, length_app.
    destruct (process_pdf_logs self pdf_file pdf) as [Hlog _].
    rewrite H1 in Hlog. cbn [trace fst] in Hlog.
    assert (E : csv_rows t1 = []).
    { clear - Hlog. induction Hlog as [| ev t Hev _ IH]; [reflexivity |].
      destruct ev; try contradiction. exact IH. }
    rewrite E. reflexivity.
  - intros [= <- <-]. cbn. lia.
Qed.

Lemma last_two_after {A} (pre t : list A) y z :
  last (pre ++ t ++ [y; z]) = Some z.
Proof.
  replace (pre ++ t ++ [y; z]) with ((pre ++ t ++ [y]) ++ [z])
    by (rewrite <- !app_assoc; reflexivity).
  apply last_snoc.
Qed.

(** X7. The total that a run of the structured extractor logs in its last
    message is the number of rows that the run has appended to the output
    file. *)
Theorem structured_total_is_row_count (d o : str)
  (entries : list (str * option (list str))) :
  let t := trace (DsiFinalStructuredExtractor.main d o (Some entries)) in
  last t
  = Some (Log INFO "Total stations extracted: {total_extracted}"
            [VInt (Z.of_nat (length (csv_rows t)))]).
Proof.
  intros t. subst t.
  unfold DsiFinalStructuredExtractor.main, init, _initialize_csv,
    process_all_pdfs_structured.
  set (self := new_self d o).
  set (files := sorted_by_name
                  (List.filter (fun e => endswith (u ".pdf") (fst e)) entries)).
  destruct (process_files_inv self files (new_self_leading_kept d o)
              (∅, 0%nat) []) as (t & st & E & _).
  { split; constructor. }
  apply (foldM_count snd) in E as Hn;
    [| intros; eapply process_file_count; eassumption].
  unfold mbind, io_bind, mret, io_ret. cbn [bind emit ret app]. rewrite E.
  cbn [bind emit ret app trace fst snd]. cbn [snd Nat.add] in Hn.
  unfold csv_rows at 1. cbn [flat_map app]. fold (csv_rows (t ++ [
    Log INFO "[OK] CSV updated: {self.output_file}" [VStr (output_file self)];
    Log INFO "Total stations extracted: {total_extracted}"
      [VInt (Z.of_nat (snd st))]])).
  rewrite csv_rows_app. cbn [csv_rows flat_map app]. rewrite app_nil_r, <- Hn.
  match goal with
  | |- last (?a :: ?b :: ?c :: ?e :: t ++ [?y; ?z]) = _ =>
      exact (last_two_after [a; b; c; e] t y z)
  end.
Qed.

(** ** dsi_final_structured_extractor.py: the order of the files *)

Lemma str_le_total a : forall b, str_le a b = true \/ str_le b a = true.
Proof.
  induction a as [| x a IH]; intros [| y b]; cbn; auto.
  destruct (N.ltb_spec x y); [now left |].
  destruct (N.ltb_spec y x); [now right |].
  assert (x = y) as -> by lia. rewrite N.eqb_refl. cbn. apply IH.
Qed.

Lemma str_le_antisym a :
  forall b, str_le a b = true -> str_le b a = true -> a = b.
Proof.
  induction a as [| x a IH]; intros [| y b]; cbn; try discriminate; auto.
  destruct (N.ltb_spec x y), (N.ltb_spec y x); cbn; try lia.
  - destruct (N.eqb_spec y x); [lia | discriminate].
  - destruct (N.eqb_spec x y); [lia | discriminate].
  - destruct (N.eqb_spec x y); [| discriminate].
    destruct (N.eqb_spec y x); [| discriminate].
    cbn. intros H1 H2. subst. f_equal. now apply IH.
Qed.

Lemma str_le_trans a :
  forall b c, str_le a b = true -> str_le b c = true -> str_le a c = true.
Proof.
  induction a as [| x a IH]; intros [| y b] [| z c]; cbn;
    try discriminate; auto.
  destruct (N.ltb_spec x y), (N.ltb_spec y z), (N.ltb_spec x z);
    cbn; auto; try lia.
  - destruct (N.eqb_spec y z); [lia | discriminate].
  - destruct (N.eqb_spec x y); [lia | discriminate].
  - destruct (N.eqb_spec x y); [| discriminate].
    destruct (N.eqb_spec y z); [| discriminate].
    destruct (N.eqb_spec x z); [| lia]. cbn. apply IH.
Qed.

Abbreviation entry := (str * option (list str))%type.

Definition name_le (x y : entry) : Prop := str_le (fst x) (fst y) = true.

Fixpoint sorted_names (l : list entry) : Prop :=
  match l with
  | [] => True
  | x :: l' => Forall (name_le x) l' /\ sorted_names l'
  end.

Lemma insert_sorted_perm x l : Permutation (insert_sorted x l) (x :: l).
Proof.
  induction l as [| y l IH]; cbn [insert_sorted]; [reflexivity |].
  destruct (str_le (fst x) (fst y)); [reflexivity |].
  rewrite IH. apply perm_swap.
Qed.

Lemma insert_sorted_sorted x l :
  sorted_names l -> sorted_names (insert_sorted x l).
Proof.
  induction l as [| y l IH]; cbn [insert_sorted sorted_names].
  - intros _. split; [constructor | exact I].
  - intros [Hy Hl]. destruct (str_le (fst x) (fst y)) eqn:E.
    + cbn [sorted_names]. repeat split; try assumption.
      constructor; [exact E |].
      eapply List.Forall_impl; [| exact Hy].
      intros z Hz. unfold name_le in *. eapply str_le_trans; eassumption.
    + cbn [sorted_names]. split; [| now apply IH].
      rewrite (insert_sorted_perm x l). constructor; [| exact Hy].
      destruct (str_le_total (fst x) (fst y)); [congruence | assumption].
Qed.

Lemma sorted_by_name_spec l :
  sorted_names (sorted_by_name l) /\ Permutation (sorted_by_name l) l.
Proof.
  induction l as [| x l [IH1 IH2]]; cbn [sorted_by_name fold_right].
  - split; [exact I | reflexivity].
  - split; [now apply insert_sorted_sorted |].
    fold (sorted_by_name l). rewrite insert_sorted_perm. now constructor.
Qed.

(** Two sorted lists of entries with the same entries, no name twice, are
    the same list. *)
Lemma sorted_names_unique l1 :
  forall l2,
    sorted_names l1 -> sorted_names l2 -> Permutation l1 l2 ->
    NoDup (map fst l1) -> l1 = l2.
Proof.
  induction l1 as [| a l1 IH]; intros l2 S1 S2 P Hnd.
  - now apply Permutation_nil in P.
  - destruct l2 as [| b l2];
      [now apply Permutation_sym, Permutation_nil in P |].
    destruct S1 as [Ha S1], S2 as [Hb S2].
    assert (a = b) as <-.
    { assert (Hin_a : In a (b :: l2))
        by (eapply Permutation_in; [exact P | now left]).
      assert (Hin_b : In b (a :: l1))
        by (eapply Permutation_in; [symmetry; exact P | now left]).
      destruct Hin_b as [-> | Hin_b]; [reflexivity |].
      destruct Hin_a as [-> | Hin_a]; [reflexivity |].
      rewrite List.Forall_forall in Ha, Hb.
      pose proof (str_le_antisym _ _ (Ha b Hin_b) (Hb a Hin_a)) as E.
      cbn [map] in Hnd. apply NoDup_cons in Hnd as [Hnot _].
      exfalso. apply Hnot. rewrite E. apply list_elem_of_In.
      now apply in_map. }
    f_equal. apply IH; try assumption.
    + now apply Permutation_cons_inv in P.
    + cbn [map] in Hnd. now apply NoDup_cons in Hnd.
Qed.

Lemma filter_perm {A} (p : A -> bool) l1 l2 :
  Permutation l1 l2 -> Permutation (List.filter p l1) (List.filter p l2).
Proof.
  induction 1 as [| x l1 l2 _ IH | x y l | l1 l2 l3 _ IH1 _ IH2];
    cbn [List.filter].
  - reflexivity.
  - destruct (p x); [now constructor | exact IH].
  - destruct (p x), (p y); try reflexivity. apply perm_swap.
  - now rewrite IH1.
Qed.

Lemma filter_names_nodup (p : entry -> bool) l :
  NoDup (map fst l) -> NoDup (map fst (List.filter p l)).
Proof.
  induction l as [| x l IH]; cbn [map List.filter]; [auto |].
  intros H. apply NoDup_cons in H as [Hx Hl].
  destruct (p x); [| now apply IH]. cbn [map]. apply NoDup_cons.
  split; [| now apply IH]. intros Hin. apply Hx.
  apply list_elem_of_In in Hin. apply list_elem_of_In.
  apply in_map_iff in Hin as (y & Ey & Hy). apply filter_In in Hy as [Hy _].
  apply in_map_iff. now exists y.
Qed.

(** X8. A run of the structured extractor does not depend on the order
    in which the directory lists its entries (the names in a directory
    are distinct): the files are sorted by name before they are read, so
    two listings of the same entries give the same messages, the same
    rows in the same order, and the same total. *)
Theorem structured_listing_order_irrelevant (d o : str) (l1 l2 : list entry) :
  Permutation l1 l2 -> NoDup (map fst l1) ->
  DsiFinalStructuredExtractor.main d o (Some l1)
  = DsiFinalStructuredExtractor.main d o (Some l2).
Proof.
  intros P Hnd.
  assert (E : sorted_by_name
                (List.filter (fun e => endswith (u ".pdf") (fst e)) l1)
              = sorted_by_name
                  (List.filter (fun e => endswith (u ".pdf") (fst e)) l2)).
  { set (p := fun e : entry => endswith (u ".pdf") (fst e)).
    destruct (sorted_by_name_spec (List.filter p l1)) as [S1 P1].
    destruct (sorted_by_name_spec (List.filter p l2)) as [S2 P2].
    apply sorted_names_unique; try assumption.
    - rewrite P1, P2. now apply filter_perm.
    - rewrite P1. now apply filter_names_nodup. }
  unfold DsiFinalStructuredExtractor.main, process_all_pdfs_structured.
  now rewrite E.
Qed.

Lemma structured_listing_order_irrelevant_witness :
  let a := (u "dsi_2019.pdf", Some [u "D22A093 TURNASUYU"]) in
  let b := (u "dsi_2020.pdf", None) in
  DsiFinalStructuredExtractor.main (u "pdfs") (u "out.csv") (Some [b; a])
  = DsiFinalStructuredExtractor.main (u "pdfs") (u "out.csv") (Some [a; b]).
Proof.
  intros a b.
  apply (structured_listing_order_irrelevant (u "pdfs") (u "out.csv")
           [b; a] [a; b]).
  - apply perm_swap.
  - apply NoDup_cons. split; [| apply NoDup_singleton].
    intros H. apply list_elem_of_singleton in H. vm_compute in H.
    discriminate.
Defined.

(** ** dsi_final_structured_extractor.py: [_normalize_number] *)

(** The characters of the number that [_normalize_number] hands to
    [float]: digits and full stops. *)
Definition plain (c : char) : Prop := c = 46 \/ isdecimal c = true.

Definition ascii_plain (c : char) : Prop := c = 46 \/ 48 <= c <= 57.

Lemma plain_to_ascii c : plain c -> ascii_plain (to_ascii_digit c).
Proof.
  unfold plain, ascii_plain, to_ascii_digit. intros [-> | H]; [now left |].
  rewrite H. pose proof (digit_value_lt c). right. lia.
Qed.

Lemma ascii_plain_numeric c : ascii_plain c -> ascii_numeric c.
Proof. unfold ascii_plain, ascii_numeric. tauto. Qed.

Lemma take_sign_plain t : Forall ascii_plain t -> take_sign t = (false, t).
Proof.
  intros H. unfold take_sign. destruct H as [| c t Hc _]; [reflexivity |].
  destruct (N.eqb_spec c 45); [unfold ascii_plain in Hc; lia |].
  destruct (N.eqb_spec c 43); [unfold ascii_plain in Hc; lia |].
  reflexivity.
Qed.

Lemma float_of_plain s x :
  Forall plain s -> float_of_str s = Some x -> exists m e, x = FNum false m e.
Proof.
  intros Hs. unfold float_of_str.
  change (fun c => if isdecimal c then 48 + digit_value c else c)
    with to_ascii_digit.
  set (t := map to_ascii_digit _).
  assert (Ht : Forall ascii_plain t).
  { subst t. apply List.Forall_map.
    eapply List.Forall_impl; [apply plain_to_ascii |].
    apply Forall_rev, span_snd_Forall, Forall_rev, span_snd_Forall, Hs. }
  destruct (if existsb (N.eqb 95) t then drop_underscores 0 t else Some t)
    as [t' |] eqn:E; [| discriminate].
  assert (Ht' : Forall ascii_plain t').
  { destruct (existsb (N.eqb 95) t).
    - eapply drop_underscores_Forall; eassumption.
    - now injection E as <-. }
  rewrite (take_sign_plain t' Ht').
  destruct (parse_number false t') eqn:Ep.
  - intros [= <-]. now apply parse_number_finite in Ep.
  - intros Hi. exfalso. eapply parse_inf_nan_letter; [eassumption |].
    eapply List.Forall_impl; [apply ascii_plain_numeric | exact Ht'].
Qed.





(** ** Records and the pages they come from *)

(** What a computation returns has [R], and if it raises, it raises
    [ValueError]. *)
Definition checked {A} (R : A -> Prop) (m : io A) : Prop :=
  match outcome m with
  | inr a => R a
  | inl e => e = ValueError
  end.

Lemma checked_ret {A} (R : A -> Prop) a : R a -> checked R (mret a).
Proof. intros H. exact H. Qed.

Lemma checked_bind {A B} (R1 : A -> Prop) (R2 : B -> Prop) (m : io A)
  (f : A -> io B) :
  checked R1 m -> (forall a, R1 a -> checked R2 (f a)) -> checked R2 (m ≫= f).
Proof.
  unfold checked. rewrite outcome_bind. intros H Hf.
  destruct (outcome m); [exact H | now apply Hf].
Qed.


Lemma checked_emit ev : checked (fun _ => True) (emit ev).
Proof. exact I. Qed.



(** *** new_pdf_reader_2020.py *)









(** ** What a group of a pattern captures *)

(** The characters that group [i] of a pattern can capture. *)
Fixpoint group_accepts (i : nat) (r : regex) (c : char) : bool :=
  match r with
  | Grp j a => ((j =? i)%nat && accepts a c) || group_accepts i a c
  | Cat a b | Alt a b => group_accepts i a c || group_accepts i b c
  | Rep _ _ _ a => group_accepts i a c
  | _ => false
  end.

(** [Q] allows what the groups of [r] capture. *)
Fixpoint groups_ok (Q : nat -> char -> bool) (r : regex) : Prop :=
  match r with
  | Grp j a => (forall c, accepts a c = true -> Q j c = true) /\ groups_ok Q a
  | Cat a b | Alt a b => groups_ok Q a /\ groups_ok Q b
  | Rep _ _ _ a => groups_ok Q a
  | _ => True
  end.

Lemma groups_ok_weaken (Q Q' : nat -> char -> bool) r :
  (forall i c, Q i c = true -> Q' i c = true) ->
  groups_ok Q r -> groups_ok Q' r.
Proof.
  intros HQ. induction r; cbn [groups_ok]; intuition auto.
Qed.

Lemma groups_ok_self r : groups_ok (fun i c => group_accepts i r c) r.
Proof.
  induction r as [| p | a IHa b IHb | a IHa b IHb | g lo hi a IHa | j a IHa | |];
    cbn [groups_ok]; auto.
  - split; (eapply groups_ok_weaken; [| eassumption]);
      intros i c H; cbn [group_accepts]; rewrite H; auto using orb_true_r.
  - split; (eapply groups_ok_weaken; [| eassumption]);
      intros i c H; cbn [group_accepts]; rewrite H; auto using orb_true_r.
  - split.
    + intros c H. cbn [group_accepts]. now rewrite Nat.eqb_refl, H.
    + eapply groups_ok_weaken; [| exact IHa].
      intros i c H. cbn [group_accepts]. rewrite H. apply orb_true_r.
Qed.

(** A state of the matcher on the subject [s]: what is left is what
    follows the position, and the groups closed so far hold characters
    that [Q] allows. *)
Definition inside (s : str) (Q : nat -> char -> bool) (st : mstate) : Prop :=
  rest st = skipn (pos st) s
  /\ Forall (fun e => Forall (fun c => Q (fst e) c = true)
                        (slice s (fst (snd e)) (snd (snd e))))
       (caps st).

Definition sound_inside (s : str) (Q : nat -> char -> bool) (q : char -> bool)
  (body : mstate -> (mstate -> option mstate) -> option mstate) : Prop :=
  forall st k res,
    inside s Q st -> body st k = Some res ->
    exists st', inside s Q st' /\ consumed q st st' /\ k st' = Some res.

Lemma rep_iter_sound_inside s Q q body g lo hi :
  sound_inside s Q q body ->
  forall fuel n,
    sound_inside s Q q (fun st k => rep_iter body g lo hi k fuel n st).
Proof.
  intros Hb fuel.
  induction fuel as [| fuel IH]; intros n st k res Hin H.
  - cbn [rep_iter] in H. destruct g.
    + destruct (lo <=? n)%nat; [| discriminate].
      exists st. split; [exact Hin | split; [apply consumed_refl | assumption]].
    + destruct (lo <=? n)%nat; [| discriminate].
      destruct (k st) eqn:E; [| discriminate].
      exists st. split; [exact Hin | split; [apply consumed_refl | congruence]].
  - cbn [rep_iter] in H.
    assert (Hmore :
      (if below hi n
       then body st (fun st' => if (pos st <? pos st')%nat
                                then rep_iter body g lo hi k fuel (S n) st'
                                else None)
       else None) = Some res ->
      exists st', inside s Q st' /\ consumed q st st' /\ k st' = Some res).
    { destruct (below hi n); [| discriminate]. intros Hm.
      apply Hb in Hm as (st1 & I1 & C1 & Hm); [| exact Hin].
      destruct (pos st <? pos st1)%nat; [| discriminate].
      apply IH in Hm as (st2 & I2 & C2 & Hm); [| exact I1].
      exists st2. split; [exact I2 | split; [| assumption]].
      eapply consumed_trans; eassumption. }
    assert (Hstop :
      (if (lo <=? n)%nat then k st else None) = Some res ->
      exists st', inside s Q st' /\ consumed q st st' /\ k st' = Some res).
    { destruct (lo <=? n)%nat; [| discriminate]. intros Hs.
      exists st. split; [exact Hin | split; [apply consumed_refl | assumption]]. }
    destruct g.
    + destruct (if below hi n then _ else None) eqn:E.
      * apply Hmore. congruence.
      * now apply Hstop.
    + destruct (if (lo <=? n)%nat then k st else None) eqn:E.
      * apply Hstop. congruence.
      * now apply Hmore.
Qed.

Lemma skipn_S_tail {A} n (s : list A) c s' :
  skipn n s = c :: s' -> skipn (S n) s = s'.
Proof.
  revert s. induction n as [| n IH]; intros [| x s] H; cbn in *;
    try discriminate.
  - now injection H.
  - now apply IH.
Qed.

Lemma consumed_slice s q st st' :
  rest st = skipn (pos st) s -> consumed q st st' ->
  Forall (fun c => q c = true) (slice s (pos st) (pos st')).
Proof.
  intros Hr (w & R & P & F). unfold slice. rewrite <- Hr, R, P.
  replace (pos st + length w - pos st)%nat with (length w) by lia.
  now rewrite firstn_app, Nat.sub_diag, firstn_all, app_nil_r.
Qed.

Lemma rmatch_sound_inside s Q r :
  groups_ok Q r -> sound_inside s Q (accepts r) (rmatch r).
Proof.
  induction r as [| p | a IHa b IHb | a IHa b IHb | g lo hi a IHa | i a IHa | |];
    intros Hg st k res Hin H; cbn [rmatch] in H; cbn [groups_ok] in Hg.
  - exists st. split; [exact Hin | split; [apply consumed_refl | assumption]].
  - destruct st as [ps [| c s'] cs]; cbn [rest pos caps] in H; [discriminate |].
    destruct (p c) eqn:Hp; [| discriminate].
    exists (MState (S ps) s' cs). destruct Hin as [Hr Hc]. cbn [rest pos caps] in *.
    split; [split; [symmetry; apply (skipn_S_tail ps s c s'); symmetry; exact Hr | exact Hc] |].
    split; [| assumption].
    exists [c]. cbn. repeat split; [lia |]. constructor; [assumption | constructor].
  - destruct Hg as [Ha Hb].
    apply (IHa Ha) in H as (st1 & I1 & C1 & H); [| exact Hin].
    apply (IHb Hb) in H as (st2 & I2 & C2 & H); [| exact I1].
    exists st2. split; [exact I2 | split; [| assumption]].
    eapply consumed_trans; eapply consumed_weaken; try eassumption;
      cbn [accepts]; intros c Hc; rewrite Hc; auto using orb_true_r.
  - destruct Hg as [Ha Hb]. destruct (rmatch a st k) eqn:E.
    + injection H as ->. apply (IHa Ha) in E as (st1 & I1 & C1 & E); [| exact Hin].
      exists st1. split; [exact I1 | split; [| assumption]].
      eapply consumed_weaken; [| eassumption].
      cbn [accepts]. intros c Hc. now rewrite Hc.
    + apply (IHb Hb) in H as (st1 & I1 & C1 & H); [| exact Hin].
      exists st1. split; [exact I1 | split; [| assumption]].
      eapply consumed_weaken; [| eassumption].
      cbn [accepts]. intros c Hc. rewrite Hc. apply orb_true_r.
  - eapply (rep_iter_sound_inside s Q (accepts a) (rmatch a) g lo hi (IHa Hg));
      eassumption.
  - destruct Hg as [Hi Ha].
    apply (IHa Ha) in H as (st1 & I1 & C1 & H); [| exact Hin].
    exists (MState (pos st1) (rest st1) ((i, (pos st, pos st1)) :: caps st1)).
    split; [| split; [| assumption]].
    + destruct I1 as [Hr1 Hc1]. split; [exact Hr1 |].
      cbn [caps]. constructor; [| exact Hc1]. cbn [fst snd].
      eapply List.Forall_impl; [| eapply consumed_slice; [apply Hin | exact C1]].
      exact Hi.
    + destruct C1 as (w & R & P & F). now exists w.
  - destruct (pos st =? 0)%nat; [| discriminate].
    exists st. split; [exact Hin | split; [apply consumed_refl | assumption]].
  - destruct (eqb (rest st) [] || eqb (rest st) [10]); [| discriminate].
    exists st. split; [exact Hin | split; [apply consumed_refl | assumption]].
Qed.

(** What group [i] of a match holds. *)
Definition group_in (r : regex) (m : mobj) : Prop :=
  forall i w, group i m = Some w ->
              Forall (fun c => group_accepts i r c = true) w.

Lemma match_at_group r s p m :
  match_at r s p (skipn p s) = Some m -> group_in r m.
Proof.
  unfold match_at. destruct (rmatch _ _ _) as [st |] eqn:E; [| discriminate].
  intros [= <-].
  apply (rmatch_sound_inside s (fun i c => group_accepts i r c) r
           (groups_ok_self r)) in E as (st' & [_ Hc] & _ & [= ->]).
  - intros i w. unfold group. cbn [m_caps subject].
    destruct (find _ (caps st)) as [[j [a b]] |] eqn:Ef; [| discriminate].
    intros [= <-]. apply find_some in Ef as [Hin Hj].
    cbn [fst] in Hj. apply Nat.eqb_eq in Hj. subst j.
    rewrite List.Forall_forall in Hc. exact (Hc _ Hin).
  - split; [reflexivity | constructor].
Qed.

Lemma search_from_group r s m :
  forall sfx p,
    sfx = skipn p s -> search_from r s p sfx = Some m -> group_in r m.
Proof.
  induction sfx as [| c sfx IH]; intros p Hs H; cbn [search_from] in H.
  - destruct (match_at r s p []) eqn:E; [| discriminate].
    injection H as ->. rewrite Hs in E. eapply match_at_group; eassumption.
  - destruct (match_at r s p (c :: sfx)) eqn:E.
    + injection H as ->. rewrite Hs in E. eapply match_at_group; eassumption.
    + apply (IH (S p)); [| assumption].
      symmetry. apply (skipn_S_tail p s c sfx). symmetry. exact Hs.
Qed.

Lemma re_search_group r s m : re_search r s = Some m -> group_in r m.
Proof. apply (search_from_group r s m s 0 eq_refl). Qed.



(** ** Numbers that are finite and carry no sign *)

(** The characters of a number as the extractors capture it: digits,
    commas and full stops. *)
Definition number_char (c : char) : Prop :=
  c = 44 \/ c = 46 \/ isdecimal c = true.

Definition unsigned (x : float) : Prop := exists m e, x = FNum false m e.

Definition unsigned_opt (o : option float) : Prop :=
  forall x, o = Some x -> unsigned x.


Lemma comma_to_stop_plain w :
  Forall number_char w -> Forall plain (replace (u ",") (u ".") w).
Proof.
  intros H. change (u ",") with [44]. change (u ".") with [46].
  rewrite replace_char_map. apply List.Forall_map.
  eapply List.Forall_impl; [| exact H].
  intros c Hc. unfold sub1, plain.
  destruct (N.eqb_spec 44 c); [now left |].
  destruct Hc as [-> | Hc]; [congruence | exact Hc].
Qed.

Lemma float_of_number w x :
  Forall number_char w ->
  float_of_str (replace (u ",") (u ".") w) = Some x -> unsigned x.
Proof.
  intros Hw Hf. eapply float_of_plain; [| exact Hf].
  now apply comma_to_stop_plain.
Qed.

Lemma set_i_uncased items :
  existsb (fun it => existsb iscased (item_chars it)) items = false ->
  set_i items = set_ items.
Proof. intros H. unfold set_i. now rewrite H. Qed.


Lemma group_accepts_str_i i s c : group_accepts i (str_i s) c = false.
Proof.
  unfold str_i. induction s as [| x s IH]; [reflexivity |].
  cbn [map seq_ fold_right group_accepts]. exact IH.
Qed.

Lemma group_accepts_str i s c : group_accepts i (str_ s) c = false.
Proof.
  unfold str_. induction s as [| x s IH]; [reflexivity |].
  cbn [map seq_ fold_right group_accepts]. exact IH.
Qed.




Lemma num_set_number c : NewPdfReader2020.num_set c = true -> number_char c.
Proof.
  unfold NewPdfReader2020.num_set.
  rewrite set_i_uncased by (vm_compute; reflexivity).
  unfold set_, number_char. cbn [existsb item_match].
  rewrite !orb_true_iff, !N.eqb_eq.
  intros [H | [-> | [-> | H]]]; auto. discriminate.
Qed.



Ltac group_one :=
  cbn [seq_ fold_right group_accepts accepts star plus opt s_ d any
         lazy_star];
  rewrite ?group_accepts_str_i, ?group_accepts_str;
  cbn [orb andb Nat.eqb];
  rewrite ?orb_false_r.

Lemma checked_lift {A} (R : A -> Prop) (o : option A) :
  (forall a, o = Some a -> R a) -> checked R (lift ValueError o).
Proof. intros H. destruct o; cbn; auto. Qed.

(** [float] of a captured number, its commas turned to full stops. *)
Lemma checked_float_of_group r line m :
  (forall c, group_accepts 1 r c = true -> number_char c) ->
  re_search r line = Some m ->
  checked unsigned
    (lift ValueError
       (float_of_str (replace (u ",") (u ".") (default [] (group 1 m))))).
Proof.
  intros Hr E. apply checked_lift. intros x Hx.
  eapply float_of_number; [| exact Hx].
  destruct (group 1 m) as [w |] eqn:Eg; [| constructor]. cbn.
  eapply List.Forall_impl; [| exact (re_search_group r line m E 1%nat w Eg)].
  exact Hr.
Qed.

(** *** pdf_flow_extractor.py *)

Lemma group_accepts_number_i i c :
  group_accepts i PdfFlowExtractor.number_i c = false.
Proof. reflexivity. Qed.








(** *** new_pdf_reader_2020.py *)

(** A value that is no float below zero and no NaN. *)
Definition no_negative (k : string) (v : val) : Prop :=
  forall x, v = VFloat x -> ge_zero x = true.

Lemma unsigned_ge_zero x : unsigned x -> ge_zero x = true.
Proof. now intros (m & e & ->). Qed.

Lemma of_option_no_negative k o :
  unsigned_opt o -> no_negative k (NewPdfReader2020.of_option o).
Proof.
  intros H x. destruct o as [y |]; cbn; [| discriminate].
  intros [= <-]. now apply unsigned_ge_zero, H.
Qed.

Lemma reader_catchment_group c :
  group_accepts 1 NewPdfReader2020.catchment_re c = true -> number_char c.
Proof.
  unfold NewPdfReader2020.catchment_re. group_one. apply num_set_number.
Qed.

Lemma reader_elevation_group c :
  group_accepts 1 NewPdfReader2020.elevation_re c = true -> number_char c.
Proof.
  unfold NewPdfReader2020.elevation_re. group_one. apply num_set_number.
Qed.

Lemma reader_flow_group c :
  group_accepts 1 NewPdfReader2020.flow_re c = true -> number_char c.
Proof.
  unfold NewPdfReader2020.flow_re. group_one. apply num_set_number.
Qed.

Lemma reader_total_group c :
  group_accepts 1 NewPdfReader2020.total_flow_re c = true -> number_char c.
Proof.
  unfold NewPdfReader2020.total_flow_re. group_one. apply num_set_number.
Qed.

Lemma reader_mm_group c :
  group_accepts 1 NewPdfReader2020.mm_re c = true -> number_char c.
Proof.
  unfold NewPdfReader2020.mm_re. group_one. apply num_set_number.
Qed.

Lemma reader_lt_group c :
  group_accepts 1 NewPdfReader2020.lt_sn_km2_re c = true -> number_char c.
Proof.
  unfold NewPdfReader2020.lt_sn_km2_re. group_one. apply num_set_number.
Qed.

Lemma reader_float_group r line m :
  (forall c, group_accepts 1 r c = true -> number_char c) ->
  re_search r line = m ->
  checked unsigned_opt (NewPdfReader2020.float_group m).
Proof.
  intros Hr E. unfold NewPdfReader2020.float_group.
  destruct m as [m |]; [| apply checked_ret; discriminate].
  eapply checked_bind; [eapply checked_float_of_group; eassumption |].
  intros x Hx. apply checked_ret. now intros ? [= <-].
Qed.

Lemma extract_catchment_info_unsigned lines :
  checked (fun ce => unsigned_opt (fst ce) /\ unsigned_opt (snd ce))
    (NewPdfReader2020.extract_catchment_info lines).
Proof.
  induction lines as [| line lines IH];
    cbn [NewPdfReader2020.extract_catchment_info].
  - apply checked_ret. split; discriminate.
  - destruct (_ || _); [| exact IH].
    eapply checked_bind;
      [eapply reader_float_group; [apply reader_catchment_group | reflexivity] |].
    intros a Ha. eapply checked_bind;
      [eapply reader_float_group; [apply reader_elevation_group | reflexivity] |].
    intros b Hb. now apply checked_ret.
Qed.

Lemma extract_avg_annual_flow_unsigned lines :
  checked unsigned_opt (NewPdfReader2020.extract_avg_annual_flow lines).
Proof.
  induction lines as [| line lines IH];
    cbn [NewPdfReader2020.extract_avg_annual_flow].
  - apply checked_ret. discriminate.
  - destruct (_ || _); [| exact IH].
    destruct (re_search NewPdfReader2020.flow_re line) as [m |] eqn:E;
      [| exact IH].
    eapply reader_float_group; [apply reader_flow_group | exact E].
Qed.

Lemma extract_annual_totals_unsigned lines :
  checked (fun t => unsigned_opt (fst (fst t)) /\ unsigned_opt (snd (fst t))
                    /\ unsigned_opt (snd t))
    (NewPdfReader2020.extract_annual_totals lines).
Proof.
  induction lines as [| line lines IH];
    cbn [NewPdfReader2020.extract_annual_totals].
  - apply checked_ret. repeat split; discriminate.
  - destruct (_ && _); [| exact IH].
    eapply checked_bind;
      [eapply reader_float_group; [apply reader_total_group | reflexivity] |].
    intros a Ha. eapply checked_bind;
      [eapply reader_float_group; [apply reader_mm_group | reflexivity] |].
    intros b Hb. eapply checked_bind;
      [eapply reader_float_group; [apply reader_lt_group | reflexivity] |].
    intros c Hc. now apply checked_ret.
Qed.

Lemma extract_monthly_data_yields lines :
  yields (map_Forall monthly_entry)
    (NewPdfReader2020.extract_monthly_data lines).
Proof.
  unfold NewPdfReader2020.extract_monthly_data. eapply yields_bind.
  - apply (yields_foldM monthly_ok); [intros; now apply monthly_step_ok |].
    split; [apply map_Forall_empty | split; [constructor | discriminate]].
  - intros st Hst. apply yields_ret. now apply save_label_ok.
Qed.

Lemma checked_yields {A} (R : A -> Prop) (m : io A) :
  yields R m -> checked R m.
Proof. now intros (a & -> & Ha). Qed.

Lemma map_Forall_union_any (P : string -> val -> Prop) (m1 m2 : record) :
  map_Forall P m1 -> map_Forall P m2 -> map_Forall P (m1 ∪ m2).
Proof.
  intros H1 H2 k v Hk.
  apply lookup_union_Some_raw in Hk as [Hk | [_ Hk]]; eauto.
Qed.

Lemma not_a_float k (v : val) :
  (forall x, v <> VFloat x) -> no_negative k v.
Proof. intros H x E. now destruct (H x). Qed.

Lemma parse_station_page_no_negative text n f y :
  checked (fun o => forall r, o = Some r -> map_Forall no_negative r)
    (NewPdfReader2020.parse_station_page text n f y).
Proof.
  unfold NewPdfReader2020.parse_station_page.
  destruct (NewPdfReader2020.page_lines text) as [| first rest] eqn:El;
    [now apply checked_ret |].
  destruct (negb _); [now apply checked_ret |].
  destruct (NewPdfReader2020.extract_station_info _) as [info |];
    [| now apply checked_ret].
  destruct (negb _).
  - eapply (checked_bind (fun _ => True)); [apply checked_emit |].
    intros _ _. now apply checked_ret.
  - eapply checked_bind; [apply extract_catchment_info_unsigned |].
    intros ce [Hc He].
    eapply checked_bind; [apply extract_avg_annual_flow_unsigned |].
    intros af Haf.
    eapply checked_bind;
      [apply checked_yields, extract_monthly_data_yields |].
    intros monthly Hm.
    eapply checked_bind; [apply extract_annual_totals_unsigned |].
    intros [[tf mm] lt] (Htf & Hmm & Hlt). cbn [fst snd] in *.
    apply checked_ret. intros r [= <-].
    apply map_Forall_union_any.
    + intros k v Hk x ->. now destruct (Hm k _ Hk) as [(y' & [= <-] & Hy) _].
    + repeat (apply map_Forall_insert_2;
              [first [now apply of_option_no_negative
                     | apply not_a_float; intros; discriminate
                     | apply not_a_float; intros;
                       match goal with
                       | |- match ?o with Some _ => _ | None => _ end <> _ =>
                           destruct o; discriminate
                       end] |]).
      apply map_Forall_empty.
Qed.

Lemma process_pages_no_negative p y pages :
  forall n,
    checked (Forall (map_Forall no_negative))
      (NewPdfReader2020.process_pages p y n pages).
Proof.
  induction pages as [| text pages IH]; intros n;
    cbn [NewPdfReader2020.process_pages].
  - apply checked_ret. constructor.
  - eapply (checked_bind (Forall (map_Forall no_negative))).
    + destruct (NewPdfReader2020.page_lines text) as [| first rest].
      * eapply (checked_bind (fun _ => True)); [apply checked_emit |].
        intros _ _. apply checked_ret. constructor.
      * destruct (negb _).
        -- eapply (checked_bind (fun _ => True)); [apply checked_emit |].
           intros _ _. apply checked_ret. constructor.
        -- eapply checked_bind; [apply parse_station_page_no_negative |].
           intros [r |] Hr.
           ++ eapply (checked_bind (fun _ => True)); [apply checked_emit |].
              intros _ _. apply checked_ret.
              constructor; [now apply Hr | constructor].
           ++ eapply (checked_bind (fun _ => True)); [apply checked_emit |].
              intros _ _. apply checked_ret. constructor.
    + intros found Hf. eapply checked_bind; [apply IH |].
      intros more Hm. apply checked_ret. now apply List.Forall_app.
Qed.

(** X12. No record that [process_pdf] of new_pdf_reader_2020.py returns
    holds a negative number or a NaN: every float of a record, among the
    header fields, the annual totals and the monthly values, is [>= 0.0],
    whatever the pages of the document are. *)
Theorem page_records_no_negative_number (p o : str) (doc : list str) :
  match outcome (NewPdfReader2020.process_pdf p o (Some doc)) with
  | inr records =>
      Forall (fun r : record =>
                forall k x, r !! k = Some (VFloat x) -> ge_zero x = true)
        records
  | inl e => e = ValueError
  end.
Proof.
  rewrite process_pdf_shape.
  pose proof (process_pages_no_negative p (pdf_year p) doc 0) as H.
  unfold checked in H.
  destruct (NewPdfReader2020.process_pages p (pdf_year p) 0 doc)
    as [t [e | rs]]; cbn [outcome snd] in *; [exact H |].
  assert (G : Forall (fun r : record =>
                        forall k x, r !! k = Some (VFloat x) ->
                                    ge_zero x = true) rs).
  { eapply List.Forall_impl; [| exact H].
    intros r Hr k x Hk. exact (Hr k _ Hk x eq_refl). }
  destruct rs; exact G.
Qed.

(** *** catchment_data_km2.py *)










(** ** dsi_final_structured_extractor.py: the three header fields *)

(** A field filled from the lines of a page: a line is tried as long as
    the field is empty. *)
Definition first_hit {A} (absent : option A -> bool) (extract : str -> option A)
  (lines : list str) (start : option A) : option A :=
  fold_left (fun acc line => if absent acc then extract line else acc)
    lines start.

Lemma header_steps year lines :
  forall c a f,
    fold_left (header_step year) lines (c, a, f)
    = (first_hit not_str _extract_coordinates lines c,
       first_hit not_float _extract_catchment_area lines a,
       first_hit not_float (fun line => _extract_annual_avg_flow line year)
         lines f).
Proof.
  induction lines as [| line lines IH]; intros c a f; [reflexivity |].
  cbn [fold_left first_hit]. unfold header_step at 2. apply IH.
Qed.

Lemma first_hit_kept {A} (absent : option A -> bool) extract lines v :
  absent v = false -> first_hit absent extract lines v = v.
Proof.
  intros H. unfold first_hit.
  induction lines as [| line lines IH]; [reflexivity |].
  cbn [fold_left]. now rewrite H.
Qed.

Lemma first_hit_found {A} (absent : option A -> bool) extract pre line post :
  absent None = true ->
  Forall (fun l => absent (extract l) = true) pre ->
  absent (extract line) = false ->
  first_hit absent extract (pre ++ line :: post) None = extract line.
Proof.
  intros Hn Hpre Hl. unfold first_hit. rewrite fold_left_app.
  assert (E : forall start,
             absent start = true ->
             absent (fold_left
                       (fun acc l => if absent acc then extract l else acc)
                       pre start) = true).
  { induction Hpre as [| l pre Hl' _ IH]; intros start Hs; [exact Hs |].
    cbn [fold_left]. rewrite Hs. now apply IH. }
  cbn [fold_left]. rewrite (E None Hn). now apply first_hit_kept.
Qed.

(** X14. The three header fields of a page are filled independently of
    one another: each of coordinates, catchment area and annual average
    flow is what its own extractor gives on the first line where that is
    not empty (an empty string, [None], or a zero), whatever the other two
    extractors find, and later lines do not change it. *)
Theorem header_fields_independent (year : N) (pre post : list str)
  (line : str) :
  let fields := fold_left (header_step year) (pre ++ line :: post)
                  (None, None, None) in
  (Forall (fun l => not_str (_extract_coordinates l) = true) pre ->
   not_str (_extract_coordinates line) = false ->
   fst (fst fields) = _extract_coordinates line)
  /\ (Forall (fun l => not_float (_extract_catchment_area l) = true) pre ->
      not_float (_extract_catchment_area line) = false ->
      snd (fst fields) = _extract_catchment_area line)
  /\ (Forall (fun l => not_float (_extract_annual_avg_flow l year) = true) pre ->
      not_float (_extract_annual_avg_flow line year) = false ->
      snd fields = _extract_annual_avg_flow line year).
Proof.
  intros fields. subst fields. rewrite header_steps. cbn [fst snd].
  repeat split; intros Hpre Hl.
  - now apply (first_hit_found not_str).
  - now apply (first_hit_found not_float).
  - now apply (first_hit_found not_float
                 (fun l => _extract_annual_avg_flow l year)).
Qed.

Lemma header_fields_independent_witness :
  let pre := [u "D22A093 TURNASUYU"] in
  let line := u "YAĞIŞ ALANI : 210,00 km2 YAKLAŞIK KOT : 404 m" in
  let post := [u "YAĞIŞ ALANI : 999,00 km2"] in
  snd (fst (fold_left (header_step 2020) (pre ++ line :: post)
              (None, None, None)))
  = _extract_catchment_area line.
Proof.
  intros pre line post.
  refine (proj1 (proj2 (header_fields_independent 2020 pre post line)) _ _).
  - repeat constructor.
  - vm_compute. reflexivity.
Defined.

(** ** dsi_final_structured_extractor.py: the numbers of a row *)

















